(** * Order-fulfilment pipeline: inventory reservation, dead-lettering, front door

    A shallow embedding of the message handlers of the three services that
    decide the behaviour of the pipeline:

    - [Inventory.on_order_placed]  (async-rabbitmq/inventory_service/app.py)
    - [Orders.place_order]         (async-rabbitmq/order_service/app.py)
    - [Kafka.handle_message]       (streaming-kafka/inventory_consumer/app.py,
                                    the body of the polling loop of [main])

    Module-level Python state ([inventory], [processed_orders], [orders],
    [stock]) is threaded explicitly.  The broker objects handed to the
    handlers ([ch], [producer], [consumer]) are modelled as mocks that say
    which calls raise; every call made on them is recorded in a trace.
    Logging is not modelled. *)

From Stdlib Require Import ZArith String List SpecFloat Bool.
From stdpp Require Import gmap strings list pretty.
Import ListNotations.
Open Scope string_scope.
Open Scope Z_scope.
Set Warnings "-register-all".

(** ** Python values as produced by [json.loads] *)

Module Py.

(** A decoded JSON document.  Objects keep their insertion order, as Python
    dicts do; [json.loads] never yields two entries with one key. *)
Inductive pyval : Type :=
| VNone
| VBool (b : bool)
| VInt (z : Z)
| VFloat (f : spec_float)
| VStr (s : string)
| VList (l : list pyval)
| VDict (d : list (string * pyval)).

(** Exceptions that can leave a handler. *)
Inductive pyexn : Type :=
| AttributeError
| TypeError
| KeyError
| ValueError
| UnicodeDecodeError
| SystemExit
| BadRequest
| JSONDecodeError_exn
| BrokerError (msg : string).

(** Result of [json.loads(body)]. *)
Inductive loads_result : Type :=
| Loaded (v : pyval)
| JSONDecodeError
| LoadsRaised (e : pyexn).

(** [bool(v)], as used by [not v]. *)
Definition truthy (v : pyval) : bool :=
  match v with
  | VNone => false
  | VBool b => b
  | VInt z => negb (z =? 0)
  | VFloat (S754_zero _) => false
  | VFloat _ => true
  | VStr s => negb (String.eqb s EmptyString)
  | VList l => negb (Nat.eqb (List.length l) 0)
  | VDict d => negb (Nat.eqb (List.length d) 0)
  end.

Definition is_none (v : pyval) : bool :=
  match v with VNone => true | _ => false end.

(** [isinstance(v, int)] together with the integer it denotes; [bool] is a
    subclass of [int] in Python, with [True == 1] and [False == 0]. *)
Definition int_value (v : pyval) : option Z :=
  match v with
  | VInt z => Some z
  | VBool b => Some (if b then 1 else 0)
  | _ => None
  end.

(** Lists and dicts are unhashable: using one as a set element or as a
    dict key raises [TypeError]. *)
Definition hashable (v : pyval) : bool :=
  match v with
  | VList _ | VDict _ => false
  | _ => true
  end.

(** [f == z] for a float [f] and an integer [z] (exact comparison). *)
Definition float_eq_int (f : spec_float) (z : Z) : bool :=
  match f with
  | S754_zero _ => z =? 0
  | S754_finite s m e =>
      let v := if s then Z.neg m else Z.pos m in
      if 0 <=? e then z =? v * 2 ^ e else z * 2 ^ (- e) =? v
  | _ => false
  end.

(** [a == b] on hashable values, the test behind [x in some_set]. *)
Definition py_eq (a b : pyval) : bool :=
  match a, b with
  | VNone, VNone => true
  | VStr x, VStr y => String.eqb x y
  | VFloat x, VFloat y => SFeqb x y
  | VFloat x, _ =>
      match int_value b with Some z => float_eq_int x z | None => false end
  | _, VFloat y =>
      match int_value a with Some z => float_eq_int y z | None => false end
  | _, _ =>
      match int_value a, int_value b with
      | Some x, Some y => x =? y
      | _, _ => false
      end
  end.

(** *** Dicts with string keys *)

Fixpoint dict_lookup (k : string) (d : list (string * pyval)) : option pyval :=
  match d with
  | [] => None
  | (k', v) :: rest => if String.eqb k k' then Some v else dict_lookup k rest
  end.

(** [d.get(k)]: [None] when the key is absent. *)
Definition dict_get (k : string) (d : list (string * pyval)) : pyval :=
  match dict_lookup k d with
  | Some v => v
  | None => VNone
  end.

(** [d[k] = v]: overwrite in place, or append a new entry. *)
Fixpoint dict_set (k : string) (v : pyval) (d : list (string * pyval))
  : list (string * pyval) :=
  match d with
  | [] => [(k, v)]
  | (k', v') :: rest =>
      if String.eqb k k' then (k', v) :: rest else (k', v') :: dict_set k v rest
  end.

(** *** Sets of hashable values *)

Definition is_nan (v : pyval) : bool :=
  match v with
  | VFloat S754_nan => true
  | _ => false
  end.

(** [a is b or a == b], the test a set applies to its elements.  The two
    differ from [==] on NaN only: [json.loads] yields one and the same
    object for every NaN, which a set therefore finds by identity although
    [NaN != NaN]. *)
Definition py_same (a b : pyval) : bool :=
  py_eq a b || (is_nan a && is_nan b).

(** [x in s] for hashable [x]. *)
Definition set_mem (x : pyval) (s : list pyval) : bool :=
  existsb (py_same x) s.

(** [s.add(x)]. *)
Definition set_add (x : pyval) (s : list pyval) : list pyval :=
  if set_mem x s then s else s ++ [x].

(** The functions of the Python runtime and of its [json] module that the
    handlers call but that are not part of this code base. *)
Class Runtime : Type := {
  (** [json.loads(body)] on the bytes of a message body *)
  json_loads : string -> loads_result;
  (** [json.loads(raw.decode("utf-8"))] *)
  json_loads_utf8 : string -> loads_result;
  (** [json.dumps] *)
  json_dumps : pyval -> string;
  (** [repr] of floats, lists and dicts *)
  py_repr : pyval -> string;
  (** the built-in [int(v)]; [inl] is the exception it raises *)
  py_int : pyval -> pyexn + Z;
  (** [str(e)] of an exception *)
  exn_str : pyexn -> string;
  (** [raw.decode("utf-8", errors="replace")] *)
  utf8_replace : string -> string
}.

(** [f"{v}"]: [str(v)]. *)
Definition format_value `{Runtime} (v : pyval) : string :=
  match v with
  | VNone => "None"
  | VBool true => "True"
  | VBool false => "False"
  | VInt z => pretty z
  | VStr s => s
  | _ => py_repr v
  end.

End Py.

(** ** The inventory service (RabbitMQ variant) *)

Module Inventory.
Import Py.

Definition EXCHANGE : string := "order_events".

(** The two module-level globals of the service. *)
Record State : Type := {
  inventory : gmap string Z;
  processed_orders : list pyval
}.

Definition initial_state : State :=
  {| inventory :=
       list_to_map [("burger", 100); ("pizza", 50); ("sushi", 30); ("salad", 200)];
     processed_orders := [] |}.

(** Calls made on the channel [ch]; every publish of the handler passes
    [properties=pika.BasicProperties(delivery_mode=2)]. *)
Inductive Action : Type :=
| BasicPublish (exchange routing_key body : string) (delivery_mode : Z)
| BasicAck (tag : Z).

(** The channel handed to the callback: which of its calls raise. *)
Record Channel : Type := {
  basic_publish_raises : string -> string -> string -> option pyexn;
  basic_ack_raises : Z -> option pyexn
}.

(** The [method] frame of a delivery. *)
Record Method : Type := { delivery_tag : Z }.

(** The branch of [on_order_placed] that a call ran through. *)
Inductive Path : Type :=
| DecodeFailure
| MissingFields
| InvalidQty
| Duplicate
| UnknownItem
| InsufficientStock
| Reserved
| Crashed.

(** What one call of the callback did: the globals afterwards, the calls it
    made on [ch] in order, and the exception it raised if it did not return. *)
Record Run : Type := {
  run_state : State;
  run_trace : list Action;
  run_exn : option pyexn;
  run_path : Path
}.

(** [ch.basic_ack(delivery_tag=method.delivery_tag); return] *)
Definition ack (ch : Channel) (method : Method) (st : State)
  (calls : list Action) (p : Path) : Run :=
  {| run_state := st;
     run_trace := calls ++ [BasicAck (delivery_tag method)];
     run_exn := basic_ack_raises ch (delivery_tag method);
     run_path := p |}.

(** [ch.basic_publish(...); ch.basic_ack(...); return]: the acknowledgement
    is only reached when the publish call returns. *)
Definition publish_then_ack (ch : Channel) (method : Method)
  (exchange routing_key body : string) (st : State) (p : Path) : Run :=
  match basic_publish_raises ch exchange routing_key body with
  | Some e =>
      {| run_state := st;
         run_trace := [BasicPublish exchange routing_key body 2];
         run_exn := Some e;
         run_path := p |}
  | None => ack ch method st [BasicPublish exchange routing_key body 2] p
  end.

(** An exception raised before any call on the channel. *)
Definition crash (e : pyexn) (st : State) : Run :=
  {| run_state := st; run_trace := []; run_exn := Some e; run_path := Crashed |}.

(** The list [missing] built by the three [if] statements. *)
Definition missing_fields (order_id item qty : pyval) : list string :=
  (if truthy order_id then [] else ["order_id"]) ++
  (if truthy item then [] else ["item"]) ++
  (if is_none qty then ["qty"] else []).

Definition missing_reason (missing : list string) : string :=
  "Missing required field(s): " ++ String.concat ", " missing.

Definition invalid_qty_reason `{Runtime} (qty : pyval) : string :=
  "Invalid qty: " ++ format_value qty ++ " (must be a positive integer)".

Definition not_found_reason `{Runtime} (item : pyval) : string :=
  "Item '" ++ format_value item ++ "' not found in inventory".

Definition insufficient_reason `{Runtime} (item qty : pyval) (available : Z) : string :=
  "Insufficient stock for '" ++ format_value item ++ "': requested "
    ++ format_value qty ++ ", available " ++ pretty available.

(** [{**data, "error": reason}] *)
Definition dlq_msg (data : list (string * pyval)) (reason : string)
  : list (string * pyval) :=
  dict_set "error" (VStr reason) data.

Definition failed_event (order_id item qty : pyval) (reason : string) : pyval :=
  VDict [("order_id", order_id); ("item", item); ("qty", qty);
         ("status", VStr "FAILED"); ("reason", VStr reason)].

Definition reserved_event (order_id item qty : pyval) : pyval :=
  VDict [("order_id", order_id); ("item", item); ("qty", qty);
         ("status", VStr "RESERVED")].

(** [inventory[item]] for a hashable [item]; the keys of [inventory] are
    strings, so no other value is a key. *)
Definition inventory_lookup (item : pyval) (inv : gmap string Z) : option (string * Z) :=
  match item with
  | VStr name => match inv !! name with Some n => Some (name, n) | None => None end
  | _ => None
  end.

(** Stock check and reservation, for an event that passed validation and is
    not a duplicate; [q] is the integer value of [qty]. *)
Definition reserve `{Runtime} (ch : Channel) (method : Method)
  (order_id item qty : pyval) (q : Z) (st : State) : Run :=
  if negb (hashable item) then crash TypeError st
  else
    match inventory_lookup item (inventory st) with
    | None =>
        publish_then_ack ch method EXCHANGE "inventory.failed"
          (json_dumps (failed_event order_id item qty (not_found_reason item)))
          st UnknownItem
    | Some (name, available) =>
        if available <? q then
          publish_then_ack ch method EXCHANGE "inventory.failed"
            (json_dumps (failed_event order_id item qty
                           (insufficient_reason item qty available)))
            st InsufficientStock
        else
          let st' :=
            {| inventory := <[name := available - q]> (inventory st);
               processed_orders := set_add order_id (processed_orders st) |} in
          publish_then_ack ch method EXCHANGE "inventory.reserved"
            (json_dumps (reserved_event order_id item qty)) st' Reserved
    end.

(** The message callback.  The [properties] argument is not used by the
    source and is left out. *)
Definition on_order_placed `{Runtime} (ch : Channel) (method : Method)
  (body : string) (st : State) : Run :=
  match json_loads body with
  | JSONDecodeError =>
      publish_then_ack ch method EmptyString "dlq_queue" body st DecodeFailure
  | LoadsRaised e => crash e st
  | Loaded (VDict data) =>
      let order_id := dict_get "order_id" data in
      let item := dict_get "item" data in
      let qty := dict_get "qty" data in
      let missing := missing_fields order_id item qty in
      match missing with
      | _ :: _ =>
          publish_then_ack ch method EmptyString "dlq_queue"
            (json_dumps (VDict (dlq_msg data (missing_reason missing))))
            st MissingFields
      | [] =>
          let invalid :=
            publish_then_ack ch method EmptyString "dlq_queue"
              (json_dumps (VDict (dlq_msg data (invalid_qty_reason qty))))
              st InvalidQty in
          match int_value qty with
          | None => invalid
          | Some q =>
              if q <=? 0 then invalid
              else if negb (hashable order_id) then crash TypeError st
              else if set_mem order_id (processed_orders st) then
                ack ch method st [] Duplicate
              else reserve ch method order_id item qty q st
          end
      end
  | Loaded _ => crash AttributeError st
  end.

(** One delivery taken off [inventory_queue]. *)
Record Delivery : Type := {
  d_channel : Channel;
  d_method : Method;
  d_body : string
}.

Definition deliver `{Runtime} (d : Delivery) (st : State) : Run :=
  on_order_placed (d_channel d) (d_method d) (d_body d) st.

(** The globals after a sequence of deliveries.  An exception escaping the
    callback is caught by the loop of [main], which reconnects: the globals
    survive. *)
Fixpoint consume `{Runtime} (ds : list Delivery) (st : State) : State :=
  match ds with
  | [] => st
  | d :: rest => consume rest (run_state (deliver d st))
  end.

(** All channel calls made while consuming a sequence of deliveries. *)
Fixpoint consume_trace `{Runtime} (ds : list Delivery) (st : State) : list Action :=
  match ds with
  | [] => []
  | d :: rest =>
      run_trace (deliver d st) ++ consume_trace rest (run_state (deliver d st))
  end.

(** *** Vocabulary for statements about the callback *)

Definition is_publish (a : Action) : bool :=
  match a with
  | BasicPublish _ _ _ _ => true
  | BasicAck _ => false
  end.


Definition count_publishes (tr : list Action) : nat :=
  List.length (List.filter is_publish tr).


(** Number of deliveries in a sequence whose handling changed [inventory]. *)
Fixpoint ledger_mutations `{Runtime} (ds : list Delivery) (st : State) : nat :=
  match ds with
  | [] => 0%nat
  | d :: rest =>
      let st1 := run_state (deliver d st) in
      ((if decide (inventory st1 = inventory st) then 0 else 1)
       + ledger_mutations rest st1)%nat
  end.

(** A channel on which no call raises. *)
Definition healthy_channel : Channel :=
  {| basic_publish_raises := fun _ _ _ => None;
     basic_ack_raises := fun _ => None |}.

(** The decoded event passes both validation steps of [on_order_placed]:
    no field is missing and [qty] is an [int] greater than zero, [q]. *)
Definition passes_validation (data : list (string * pyval)) (q : Z) : Prop :=
  truthy (dict_get "order_id" data) = true /\
  truthy (dict_get "item" data) = true /\
  int_value (dict_get "qty" data) = Some q /\
  0 < q.

(** Every quantity of the ledger is at least zero. *)
Definition ledger_nonneg (inv : gmap string Z) : Prop :=
  forall name n, inv !! name = Some n -> 0 <= n.

(** The item that the event in [body] names, when there is one. *)
Definition named_item `{Runtime} (body : string) : option string :=
  match json_loads body with
  | Loaded (VDict data) =>
      match dict_get "item" data with
      | VStr name => Some name
      | _ => None
      end
  | _ => None
  end.

(** The run handed a message to the dead-letter queue. *)
Definition routed_to_dlq (r : Run) : Prop :=
  exists exchange body mode,
    In (BasicPublish exchange "dlq_queue" body mode) (run_trace r).

(** *** The branches of the callback as a relation

    [Handled ch method body st r] lists, branch by branch, the condition
    under which [on_order_placed] takes the branch and the run it produces;
    [on_order_placed_handled] below shows that every call is covered. *)

Inductive Handled `{Runtime} (ch : Channel) (method : Method) (body : string)
  (st : State) : Run -> Prop :=
| H_crash e :
    Handled ch method body st (crash e st)
| H_decode :
    json_loads body = JSONDecodeError ->
    Handled ch method body st
      (publish_then_ack ch method EmptyString "dlq_queue" body st DecodeFailure)
| H_missing data missing :
    json_loads body = Loaded (VDict data) ->
    missing = missing_fields (dict_get "order_id" data) (dict_get "item" data)
                (dict_get "qty" data) ->
    missing <> [] ->
    Handled ch method body st
      (publish_then_ack ch method EmptyString "dlq_queue"
         (json_dumps (VDict (dlq_msg data (missing_reason missing))))
         st MissingFields)
| H_invalid data :
    json_loads body = Loaded (VDict data) ->
    missing_fields (dict_get "order_id" data) (dict_get "item" data)
      (dict_get "qty" data) = [] ->
    (forall q, int_value (dict_get "qty" data) = Some q -> q <= 0) ->
    Handled ch method body st
      (publish_then_ack ch method EmptyString "dlq_queue"
         (json_dumps (VDict (dlq_msg data (invalid_qty_reason (dict_get "qty" data)))))
         st InvalidQty)
| H_duplicate data q :
    json_loads body = Loaded (VDict data) ->
    passes_validation data q ->
    hashable (dict_get "order_id" data) = true ->
    set_mem (dict_get "order_id" data) (processed_orders st) = true ->
    Handled ch method body st (ack ch method st [] Duplicate)
| H_unknown data q :
    json_loads body = Loaded (VDict data) ->
    passes_validation data q ->
    hashable (dict_get "order_id" data) = true ->
    set_mem (dict_get "order_id" data) (processed_orders st) = false ->
    hashable (dict_get "item" data) = true ->
    inventory_lookup (dict_get "item" data) (inventory st) = None ->
    Handled ch method body st
      (publish_then_ack ch method EXCHANGE "inventory.failed"
         (json_dumps (failed_event (dict_get "order_id" data) (dict_get "item" data)
                        (dict_get "qty" data)
                        (not_found_reason (dict_get "item" data))))
         st UnknownItem)
| H_insufficient data q name available :
    json_loads body = Loaded (VDict data) ->
    passes_validation data q ->
    hashable (dict_get "order_id" data) = true ->
    set_mem (dict_get "order_id" data) (processed_orders st) = false ->
    dict_get "item" data = VStr name ->
    inventory st !! name = Some available ->
    available < q ->
    Handled ch method body st
      (publish_then_ack ch method EXCHANGE "inventory.failed"
         (json_dumps (failed_event (dict_get "order_id" data) (dict_get "item" data)
                        (dict_get "qty" data)
                        (insufficient_reason (dict_get "item" data)
                           (dict_get "qty" data) available)))
         st InsufficientStock)
| H_reserved data q name available :
    json_loads body = Loaded (VDict data) ->
    passes_validation data q ->
    hashable (dict_get "order_id" data) = true ->
    set_mem (dict_get "order_id" data) (processed_orders st) = false ->
    dict_get "item" data = VStr name ->
    inventory st !! name = Some available ->
    q <= available ->
    Handled ch method body st
      (publish_then_ack ch method EXCHANGE "inventory.reserved"
         (json_dumps (reserved_event (dict_get "order_id" data) (dict_get "item" data)
                        (dict_get "qty" data)))
         {| inventory := <[name := available - q]> (inventory st);
            processed_orders :=
              set_add (dict_get "order_id" data) (processed_orders st) |}
         Reserved).

End Inventory.

(** ** The order service: the HTTP front door (RabbitMQ variant) *)

Module Orders.
Import Py.

Definition EXCHANGE : string := "order_events".

(** [request.get_json(force=True)]: the parsed body, or Flask's
    [BadRequest] when the body is not JSON. *)
Inductive RequestJson : Type :=
| Json (v : pyval)
| NotJson.

(** Outcome of one [pika.BlockingConnection(params)]. *)
Inductive ConnectAttempt : Type :=
| Connected
| AMQPConnectionError
| ConnectRaised (e : pyexn).

(** The broker as seen from [place_order]: [connect n] is the outcome of the
    [n]-th connection attempt, the other fields say which calls raise (an
    exception of class [Exception]). *)
Record Broker : Type := {
  connect : nat -> ConnectAttempt;
  channel_raises : option pyexn;
  setup_channel_raises : option pyexn;
  basic_publish_raises : string -> string -> string -> option pyexn;
  close_raises : option pyexn
}.

(** What the view function hands back to Flask. *)
Inductive Reply : Type :=
| Response (body : pyval) (status : Z)
| Raised (e : pyexn).

Record Run : Type := {
  run_orders : gmap string (list (string * pyval));
  run_published : list (string * string * string);
  run_reply : Reply
}.

(** The loop of [get_connection]: [attempt] is the number of the next
    attempt, [remaining] how many are left; when none succeeds the function
    calls [sys.exit(1)]. *)
Fixpoint get_connection_from (br : Broker) (attempt remaining : nat) : pyexn + unit :=
  match remaining with
  | O => inl SystemExit
  | S r =>
      match connect br attempt with
      | Connected => inr tt
      | AMQPConnectionError => get_connection_from br (S attempt) r
      | ConnectRaised e => inl e
      end
  end.

Definition get_connection (br : Broker) (retries : nat) : pyexn + unit :=
  get_connection_from br 1 retries.

(** The [try] block of [place_order]: the exception that leaves it, if any,
    and the messages handed to [basic_publish]. *)
Definition publish_order_placed (br : Broker) (body : string)
  : option pyexn * list (string * string * string) :=
  match get_connection br 3 with
  | inl e => (Some e, [])
  | inr _ =>
      match channel_raises br with
      | Some e => (Some e, [])
      | None =>
          match setup_channel_raises br with
          | Some e => (Some e, [])
          | None =>
              let sent := [(EXCHANGE, "order.placed", body)] in
              match basic_publish_raises br EXCHANGE "order.placed" body with
              | Some e => (Some e, sent)
              | None => (close_raises br, sent)
              end
          end
      end
  end.

Definition new_order (order_id : string) (item qty student_id : pyval)
  : list (string * pyval) :=
  [("order_id", VStr order_id); ("item", item); ("qty", qty);
   ("student_id", student_id); ("status", VStr "PLACED")].

(** [POST /order].  [uuid] is the text of [uuid.uuid4()]. *)
Definition place_order `{Runtime} (req : RequestJson) (uuid : string) (br : Broker)
  (orders : gmap string (list (string * pyval))) : Run :=
  match req with
  | NotJson =>
      {| run_orders := orders; run_published := []; run_reply := Raised BadRequest |}
  | Json (VDict data) =>
      let item := dict_get "item" data in
      let qty := dict_get "qty" data in
      let student_id :=
        match dict_lookup "student_id" data with
        | Some v => v
        | None => VStr "unknown"
        end in
      if negb (truthy item) || is_none qty then
        {| run_orders := orders;
           run_published := [];
           run_reply :=
             Response (VDict [("error", VStr "item and qty are required")]) 400 |}
      else
        let order_id := uuid in
        let order := new_order order_id item qty student_id in
        let orders1 := <[order_id := order]> orders in
        match publish_order_placed br (json_dumps (VDict order)) with
        | (None, sent) =>
            {| run_orders := orders1;
               run_published := sent;
               run_reply :=
                 Response (VDict [("order_id", VStr order_id);
                                  ("status", VStr "PLACED")]) 201 |}
        | (Some SystemExit, sent) =>
            {| run_orders := orders1;
               run_published := sent;
               run_reply := Raised SystemExit |}
        | (Some e, sent) =>
            {| run_orders :=
                 <[order_id := dict_set "status" (VStr "PUBLISH_FAILED") order]> orders1;
               run_published := sent;
               run_reply :=
                 Response (VDict [("order_id", VStr order_id);
                                  ("status", VStr "PUBLISH_FAILED");
                                  ("error", VStr (exn_str e))]) 500 |}
        end
  | Json _ =>
      {| run_orders := orders; run_published := []; run_reply := Raised AttributeError |}
  end.

(** The HTTP status of a reply, when the view function produced one. *)
Definition reply_status (r : Reply) : option Z :=
  match r with
  | Response _ status => Some status
  | Raised _ => None
  end.

End Orders.

(** ** The inventory consumer (Kafka variant) *)

Module Kafka.
Import Py.

(** Topic names, read from the environment at start-up. *)
Record Config : Type := {
  INVENTORY_TOPIC : string;
  DLQ_TOPIC : string
}.

Definition default_config : Config :=
  {| INVENTORY_TOPIC := "inventory-events"; DLQ_TOPIC := "dlq-order-events" |}.

(** The local [stock] of [main]. *)
Definition initial_stock : gmap string Z :=
  list_to_map [("burrito", 5000); ("pizza", 5000); ("salad", 5000); ("taco", 5000)].

(** Calls made on [producer] and [consumer]. *)
Inductive Action : Type :=
| Produce (topic : string) (key : option pyval) (value : string)
| Flush
| Commit.

(** The Kafka client: given the calls made so far during this message,
    whether the next call raises. *)
Record Client : Type := {
  raises : list Action -> Action -> option pyexn
}.

(** The values drawn from [uuid.uuid4()] and [now_iso()] while one message
    is handled: for the result event and for the dead-letter payload. *)
Record Fresh : Type := {
  event_id : string;
  event_time : string;
  dlq_event_id : string;
  dlq_event_time : string
}.

(** A computation over the stock and the trace of client calls that may
    raise; the stock and the trace survive an exception. *)
Definition M (A : Type) : Type :=
  gmap string Z -> list Action -> (pyexn + A) * gmap string Z * list Action.

Definition raise {A} (e : pyexn) : M A := fun stock tr => (inl e, stock, tr).

#[export] Instance M_ret : MRet M := fun A a stock tr => (inr a, stock, tr).

#[export] Instance M_bind : MBind M := fun A B k m stock tr =>
  match m stock tr with
  | (inr a, stock1, tr1) => k a stock1 tr1
  | (inl e, stock1, tr1) => (inl e, stock1, tr1)
  end.

Definition get_stock : M (gmap string Z) := fun stock tr => (inr stock, stock, tr).

Definition put_stock (stock1 : gmap string Z) : M unit :=
  fun _ tr => (inr tt, stock1, tr).

(** A call on the client: recorded, then it returns or raises. *)
Definition call (cl : Client) (a : Action) : M unit :=
  fun stock tr =>
    match raises cl tr a with
    | Some e => (inl e, stock, (tr ++ [a])%list)
    | None => (inr tt, stock, (tr ++ [a])%list)
    end.

Definition lift {A} (r : pyexn + A) : M A :=
  match r with
  | inl e => raise e
  | inr a => mret a
  end.

(** [except Exception] catches everything but [SystemExit]. *)
Definition is_Exception (e : pyexn) : bool :=
  match e with
  | SystemExit => false
  | _ => true
  end.

(** [try: body  except Exception as e: handler e] *)
Definition try_except {A} (body : M A) (handler : pyexn -> M A) : M A :=
  fun stock tr =>
    match body stock tr with
    | (inl e, stock1, tr1) =>
        if is_Exception e then handler e stock1 tr1 else (inl e, stock1, tr1)
    | r => r
    end.

(** [json.loads(raw.decode("utf-8"))] *)
Definition loads `{Runtime} (raw : string) : M pyval :=
  match json_loads_utf8 raw with
  | Loaded v => mret v
  | JSONDecodeError => raise JSONDecodeError_exn
  | LoadsRaised e => raise e
  end.

(** [event.get(k)]: only dicts have [get]. *)
Definition event_get (event : pyval) (k : string) : M pyval :=
  match event with
  | VDict d => mret (dict_get k d)
  | _ => raise AttributeError
  end.

(** [event[k]] for an [event] known to be a dict. *)
Definition event_item (event : pyval) (k : string) : M pyval :=
  match event with
  | VDict d =>
      match dict_lookup k d with
      | Some v => mret v
      | None => raise KeyError
      end
  | _ => raise TypeError
  end.

(** [int(v)] *)
Definition int_of `{Runtime} (v : pyval) : M Z :=
  match int_value v with
  | Some z => mret z
  | None => lift (py_int v)
  end.

(** [stock.get(item_id, 0)] *)
Definition stock_get (item_id : pyval) : M Z :=
  if negb (hashable item_id) then raise TypeError
  else
    stock ← get_stock;
    match item_id with
    | VStr name => mret (default 0 (stock !! name))
    | _ => mret 0
    end.

(** [stock[item_id] -= qty] *)
Definition stock_decrement (item_id : pyval) (qty : Z) : M unit :=
  stock ← get_stock;
  match item_id with
  | VStr name =>
      match stock !! name with
      | Some n => put_stock (<[name := n - qty]> stock)
      | None => raise KeyError
      end
  | _ => raise KeyError
  end.

Definition reserved_out (fr : Fresh) (order_id item_id : pyval) (qty : Z) : pyval :=
  VDict [("event_type", VStr "InventoryReserved");
         ("event_id", VStr (event_id fr));
         ("order_id", order_id);
         ("item_id", item_id);
         ("qty", VInt qty);
         ("status", VStr "reserved");
         ("event_time", VStr (event_time fr))].

Definition failed_out (fr : Fresh) (order_id item_id : pyval) (qty : Z) : pyval :=
  VDict [("event_type", VStr "InventoryFailed");
         ("event_id", VStr (event_id fr));
         ("order_id", order_id);
         ("item_id", item_id);
         ("qty", VInt qty);
         ("status", VStr "failed");
         ("reason", VStr "out_of_stock");
         ("event_time", VStr (event_time fr))].

(** The first part of the [try] block: decoding, the field accesses and the
    reserve logic, up to the value of [out]. *)
Definition reserve_logic `{Runtime} (fr : Fresh) (raw : string) : M (pyval * pyval) :=
  event ← loads raw;
  event_type ← event_get event "event_type";
  if negb (py_eq event_type (VStr "OrderPlaced")) then raise ValueError
  else
    order_id ← event_item event "order_id";
    item_id ← event_item event "item_id";
    qty_field ← event_item event "qty";
    qty ← int_of qty_field;
    available ← stock_get item_id;
    if qty <=? available then
      stock_decrement item_id qty;;
      mret (order_id, reserved_out fr order_id item_id qty)
    else mret (order_id, failed_out fr order_id item_id qty).

(** The body of the [try] block. *)
Definition try_body `{Runtime} (cfg : Config) (cl : Client) (fr : Fresh)
  (raw : string) : M unit :=
  '(order_id, out) ← reserve_logic fr raw;
  call cl (Produce (INVENTORY_TOPIC cfg) (Some order_id) (json_dumps out));;
  call cl Flush;;
  call cl Commit.

(** [to_dlq(producer, raw, err)] *)
Definition to_dlq `{Runtime} (cfg : Config) (cl : Client) (fr : Fresh)
  (raw : string) (err : string) : M unit :=
  let payload :=
    VDict [("event_type", VStr "PoisonOrderEvent");
           ("event_id", VStr (dlq_event_id fr));
           ("error", VStr err);
           ("raw", VStr (utf8_replace raw));
           ("event_time", VStr (dlq_event_time fr))] in
  call cl (Produce (DLQ_TOPIC cfg) None (json_dumps payload));;
  call cl Flush.

(** What the loop of [main] does with one polled message whose value is
    [raw] (for a message without a value see [KafkaLoop.no_value]; the
    throttling sleep has no effect on the state). *)
Definition handle_message `{Runtime} (cfg : Config) (cl : Client) (fr : Fresh)
  (raw : string) : M unit :=
  try_except (try_body cfg cl fr raw)
    (fun e => to_dlq cfg cl fr raw (exn_str e);; call cl Commit).

(** Running the handler on a stock with an empty trace. *)
Definition run `{Runtime} (cfg : Config) (cl : Client) (fr : Fresh)
  (raw : string) (stock : gmap string Z)
  : (pyexn + unit) * gmap string Z * list Action :=
  handle_message cfg cl fr raw stock [].

(** The item that the event in [raw] names, when there is one. *)
Definition named_item `{Runtime} (raw : string) : option string :=
  match json_loads_utf8 raw with
  | Loaded (VDict data) =>
      match dict_get "item_id" data with
      | VStr name => Some name
      | _ => None
      end
  | _ => None
  end.

(** In a trace, every [Commit] comes directly after a [Produce] followed by
    a [Flush]. *)
Definition commit_follows_produce (tr : list Action) : Prop :=
  forall i, tr !! i = Some Commit ->
    exists j topic key value,
      i = S (S j) /\ tr !! j = Some (Produce topic key value) /\
      tr !! S j = Some Flush.


End Kafka.

(** ** Stand-ins for the Python runtime, used to run the handlers on examples *)

Module Fixture.
Import Py.

Definition dquote : string := String (Ascii.ascii_of_nat 34) EmptyString.

(** Serialises like [json.dumps] on [None], booleans, integers, strings
    that need no escaping, and lists and dicts of those; floats are not
    used in the examples. *)
Fixpoint mini_dumps (v : pyval) : string :=
  match v with
  | VNone => "null"
  | VBool true => "true"
  | VBool false => "false"
  | VInt z => pretty z
  | VFloat _ => "NaN"
  | VStr s => dquote ++ s ++ dquote
  | VList l => "[" ++ String.concat ", " (List.map mini_dumps l) ++ "]"
  | VDict d =>
      "{" ++ String.concat ", "
               (List.map (fun '(k, x) => dquote ++ k ++ dquote ++ ": " ++ mini_dumps x) d)
          ++ "}"
  end.

Definition order_event (order_id item : string) (qty : pyval) : pyval :=
  VDict [("order_id", VStr order_id); ("item", VStr item); ("qty", qty)].

Definition sample_uuid : string := "3f0c8a52-7d1e-4b69-9a35-2c6e1f4b8d70".

(** The documents the stand-in decoder knows. *)
Definition known_documents : list pyval :=
  [ order_event "o1" "burger" (VInt 2);
    order_event "o2" "burger" (VInt 1);
    order_event "o3" "pizza" (VInt 51);
    order_event "o4" "ramen" (VInt 1);
    order_event "o5" "salad" (VInt 0);
    VDict [("order_id", VStr "bad-001"); ("student_id", VStr "bad-student")];
    VDict [("item", VStr "burger"); ("qty", VInt 0)];
    VList [];
    VDict (Orders.new_order sample_uuid (VStr "burger") (VInt 0) (VStr "unknown"));
    VDict [("event_type", VStr "OrderPlaced"); ("order_id", VStr "k1");
           ("item_id", VStr "taco"); ("qty", VInt 3)];
    VDict (Orders.new_order sample_uuid (VStr "burger") (VBool true) (VStr "unknown")) ].

(** Decodes exactly the serialisations of [known_documents]; every other
    body is reported as malformed. *)
Definition mini_loads (body : string) : loads_result :=
  match List.find (fun v => String.eqb (mini_dumps v) body) known_documents with
  | Some v => Loaded v
  | None => JSONDecodeError
  end.

#[export] Instance runtime : Runtime :=
  {| json_loads := mini_loads;
     json_loads_utf8 := mini_loads;
     json_dumps := mini_dumps;
     py_repr := mini_dumps;
     py_int := fun v =>
       match v with
       | VStr _ | VFloat _ => inl ValueError
       | _ => inl TypeError
       end;
     exn_str := fun e =>
       match e with
       | ValueError => "unexpected event_type"
       | BrokerError msg => msg
       | _ => "error"
       end;
     utf8_replace := fun raw => raw |}.

Definition delivery (tag : Z) (body : string) : Inventory.Delivery :=
  {| Inventory.d_channel := Inventory.healthy_channel;
     Inventory.d_method := {| Inventory.delivery_tag := tag |};
     Inventory.d_body := body |}.

(** The ledger of the scenario: two burgers. *)
Definition two_burgers : Inventory.State :=
  {| Inventory.inventory := {[ "burger" := 2 ]};
     Inventory.processed_orders := [] |}.

(** The same ledger once order o1 has taken both burgers. *)
Definition sold_out : Inventory.State :=
  {| Inventory.inventory := {[ "burger" := 0 ]};
     Inventory.processed_orders := [VStr "o1"] |}.

Definition o1_body : string := mini_dumps (order_event "o1" "burger" (VInt 2)).
Definition o2_body : string := mini_dumps (order_event "o2" "burger" (VInt 1)).
Definition o3_body : string := mini_dumps (order_event "o3" "pizza" (VInt 51)).
Definition bad_body : string :=
  mini_dumps (VDict [("order_id", VStr "bad-001"); ("student_id", VStr "bad-student")]).
Definition kafka_body : string :=
  mini_dumps (VDict [("event_type", VStr "OrderPlaced"); ("order_id", VStr "k1");
                     ("item_id", VStr "taco"); ("qty", VInt 3)]).

(** A broker that accepts the first connection and on which nothing raises. *)
Definition healthy_broker : Orders.Broker :=
  {| Orders.connect := fun _ => Orders.Connected;
     Orders.channel_raises := None;
     Orders.setup_channel_raises := None;
     Orders.basic_publish_raises := fun _ _ _ => None;
     Orders.close_raises := None |}.

Definition healthy_client : Kafka.Client :=
  {| Kafka.raises := fun _ _ => None |}.


(** A Kafka client whose commit raises. *)
Definition commit_down : Kafka.Client :=
  {| Kafka.raises := fun _ a =>
       match a with
       | Kafka.Commit => Some (BrokerError "commit failed")
       | _ => None
       end |}.

Definition fresh : Kafka.Fresh :=
  {| Kafka.event_id := "e-1"; Kafka.event_time := "2024-01-01T00:00:00Z";
     Kafka.dlq_event_id := "e-2"; Kafka.dlq_event_time := "2024-01-01T00:00:01Z" |}.

End Fixture.


(** ** The order service: status updates and queries (RabbitMQ variant) *)

Module OrderStatus.
Import Py.

(** What one call of [on_status] did: the order store afterwards, the calls
    made on [ch], and the exception that left the callback, if any. *)
Record Run : Type := {
  run_orders : gmap string (list (string * pyval));
  run_trace : list Inventory.Action;
  run_exn : option pyexn
}.

(** ["CONFIRMED" if status == "RESERVED" else "FAILED"] *)
Definition new_status (status : pyval) : string :=
  if py_eq status (VStr "RESERVED") then "CONFIRMED" else "FAILED".

(** The [try] block of [on_status]: the store afterwards and the exception
    raised inside the block, if any.  The keys of [orders] are strings, so
    no other hashable value is a key. *)
Definition update_status `{Runtime} (body : string)
  (orders : gmap string (list (string * pyval)))
  : gmap string (list (string * pyval)) * option pyexn :=
  match json_loads body with
  | JSONDecodeError => (orders, Some JSONDecodeError_exn)
  | LoadsRaised e => (orders, Some e)
  | Loaded (VDict data) =>
      let order_id := dict_get "order_id" data in
      let status :=
        match dict_lookup "status" data with
        | Some v => v
        | None => VStr "UNKNOWN"
        end in
      if negb (hashable order_id) then (orders, Some TypeError)
      else
        match order_id with
        | VStr oid =>
            match orders !! oid with
            | Some order =>
                (<[oid := dict_set "status" (VStr (new_status status)) order]> orders,
                 None)
            | None => (orders, None)
            end
        | _ => (orders, None)
        end
  | Loaded _ => (orders, Some AttributeError)
  end.

(** The callback [on_status] of [status_consumer]: [except Exception]
    swallows what the [try] block raises, and the [finally] clause
    acknowledges the message in every case. *)
Definition on_status `{Runtime} (ch : Inventory.Channel) (method : Inventory.Method)
  (body : string) (orders : gmap string (list (string * pyval))) : Run :=
  let '(orders1, raised) := update_status body orders in
  let pending :=
    match raised with
    | Some e => if Kafka.is_Exception e then None else Some e
    | None => None
    end in
  {| run_orders := orders1;
     run_trace := [Inventory.BasicAck (Inventory.delivery_tag method)];
     run_exn :=
       match Inventory.basic_ack_raises ch (Inventory.delivery_tag method) with
       | Some e => Some e
       | None => pending
       end |}.

(** [GET /order/<order_id>] *)
Definition get_order (order_id : string)
  (orders : gmap string (list (string * pyval))) : Orders.Reply :=
  match orders !! order_id with
  | Some order =>
      if truthy (VDict order) then Orders.Response (VDict order) 200
      else Orders.Response (VDict [("error", VStr "Order not found")]) 404
  | None => Orders.Response (VDict [("error", VStr "Order not found")]) 404
  end.

(** The status stored for an order, when the order exists. *)
Definition stored_status (order_id : string)
  (orders : gmap string (list (string * pyval))) : option pyval :=
  match orders !! order_id with
  | Some order => Some (dict_get "status" order)
  | None => None
  end.

End OrderStatus.

(** ** The polling loop of the Kafka inventory consumer *)

Module KafkaLoop.
Import Py.

(** What [consumer.poll(1.0)] returned: nothing, a message that carries an
    error, a message with a value, or a message whose [value()] is [None];
    the client paired with a message says which calls raise while that
    message is handled. *)
Inductive Polled : Type :=
| PollNone
| PollError
| PollMessage (cl : Kafka.Client) (fr : Kafka.Fresh) (raw : string)
| PollNoValue.

(** The loop body for a message without a value: [raw] is [None], so
    [raw.decode("utf-8")] raises [AttributeError] in the [try] block; the
    [except] clause calls [to_dlq], where [raw.decode] raises
    [AttributeError] again, before any call on the producer. *)
Definition no_value : Kafka.M unit :=
  Kafka.try_except (Kafka.raise AttributeError)
    (fun _ => Kafka.raise AttributeError).

(** The [while True] loop of [main] over the results of successive polls.
    A poll without a message, or with an error, is skipped.  An exception
    that leaves the handling of a message ends the loop: the result holds
    that exception, the stock at that moment and all client calls made. *)
Fixpoint poll_loop `{Runtime} (cfg : Kafka.Config) (polls : list Polled)
  (stock : gmap string Z) : option pyexn * gmap string Z * list Kafka.Action :=
  match polls with
  | [] => (None, stock, [])
  | PollNone :: rest => poll_loop cfg rest stock
  | PollError :: rest => poll_loop cfg rest stock
  | PollMessage cl fr raw :: rest =>
      match Kafka.run cfg cl fr raw stock with
      | (inl e, stock1, tr) => (Some e, stock1, tr)
      | (inr _, stock1, tr) =>
          match poll_loop cfg rest stock1 with
          | (e, stock2, tr2) => (e, stock2, (tr ++ tr2)%list)
          end
      end
  | PollNoValue :: rest =>
      match no_value stock [] with
      | (inl e, stock1, tr) => (Some e, stock1, tr)
      | (inr _, stock1, tr) =>
          match poll_loop cfg rest stock1 with
          | (e, stock2, tr2) => (e, stock2, (tr ++ tr2)%list)
          end
      end
  end.

Definition has_value (p : Polled) : bool :=
  match p with
  | PollNoValue => false
  | _ => true
  end.

Definition is_message (p : Polled) : bool :=
  match p with
  | PollMessage _ _ _ | PollNoValue => true
  | _ => false
  end.

(** No call on the client paired with the message raises. *)
Definition never_raises (p : Polled) : Prop :=
  match p with
  | PollMessage cl _ _ => forall tr a, Kafka.raises cl tr a = None
  | _ => True
  end.

(** The calls of one handled message: a produce, a flush and the commit. *)
Definition produced_and_committed (cfg : Kafka.Config) (calls : list Kafka.Action)
  : Prop :=
  exists topic key value,
    calls = [Kafka.Produce topic key value; Kafka.Flush; Kafka.Commit] /\
    (topic = Kafka.INVENTORY_TOPIC cfg \/ (topic = Kafka.DLQ_TOPIC cfg /\ key = None)).

(** A decoded [OrderPlaced] event whose fields the reserve logic can read:
    order_id [oid], the item [name] and the integer quantity [q]. *)
Definition order_placed (event : list (string * pyval)) (oid : pyval)
  (name : string) (q : Z) : Prop :=
  dict_get "event_type" event = VStr "OrderPlaced" /\
  dict_lookup "order_id" event = Some oid /\
  dict_lookup "item_id" event = Some (VStr name) /\
  exists qty_field,
    dict_lookup "qty" event = Some qty_field /\ int_value qty_field = Some q.

Definition is_produce_to (topic : string) (a : Kafka.Action) : bool :=
  match a with
  | Kafka.Produce t _ _ => String.eqb t topic
  | _ => false
  end.

End KafkaLoop.

(** ** The synchronous REST variant: inventory store and endpoints *)

Module SyncInventory.
Import Py.

(** [InventoryStore._inventory] as created by [__init__]. *)
Definition initial_inventory : gmap string Z :=
  list_to_map [("burger", 50); ("pizza", 50); ("sushi", 50)].

(** [InventoryStore.get_stock] *)
Definition get_stock (item_id : string) (inv : gmap string Z) : Z :=
  default 0 (inv !! item_id).

(** [InventoryStore.reserve]: the tuple [(success, remaining,
    available_before_reservation)] and the inventory afterwards. *)
Definition reserve (item_id : string) (quantity : Z) (inv : gmap string Z)
  : (bool * Z * Z) * gmap string Z :=
  let current_stock := default 0 (inv !! item_id) in
  if quantity <=? current_stock then
    ((true, current_stock - quantity, current_stock),
     <[item_id := current_stock - quantity]> inv)
  else ((false, current_stock, current_stock), inv).

(** The two settings of [app.config] that the endpoint reads. *)
Record Config : Type := {
  INVENTORY_FAIL_MODE : bool;
  INVENTORY_DELAY_MS : Z
}.

(** [InventoryReserveRequest], after validation by the framework. *)
Record ReserveRequest : Type := {
  order_id : string;
  item_id : string;
  quantity : Z
}.

Record HttpResponse : Type := {
  status_code : Z;
  content : pyval
}.

(** [ErrorResponse(error=ErrorDetail(...)).dict()] *)
Definition error_response (code message : string) (details : pyval)
  (order : string) (correlation_id : string) : pyval :=
  VDict [("error",
          VDict [("code", VStr code); ("message", VStr message);
                 ("details", details); ("order_id", VStr order);
                 ("correlation_id", VStr correlation_id)])].

(** An [InventoryResponse] with all four of its fields. *)
Definition inventory_response (reserved : bool) (remaining reason available : pyval)
  : pyval :=
  VDict [("reserved", VBool reserved); ("remaining", remaining);
         ("reason", reason); ("available", available)].

(** [POST /reserve]; the artificial delay changes no state. *)
Definition reserve_endpoint (cfg : Config) (correlation_id : string)
  (req : ReserveRequest) (inv : gmap string Z) : HttpResponse * gmap string Z :=
  if INVENTORY_FAIL_MODE cfg then
    ({| status_code := 500;
        content := error_response "INVENTORY_FAILURE" "Forced failure mode enabled"
                     VNone (order_id req) correlation_id |},
     inv)
  else
    match reserve (item_id req) (quantity req) inv with
    | ((true, remaining, _), inv1) =>
        ({| status_code := 200;
            content := inventory_response true (VInt remaining) VNone VNone |},
         inv1)
    | ((false, _, available), inv1) =>
        ({| status_code := 409;
            content := inventory_response false VNone (VStr "out_of_stock")
                         (VInt available) |},
         inv1)
    end.

(** [GET /inventory/{item_id}] *)
Definition get_inventory (item : string) (inv : gmap string Z) : pyval :=
  VDict [("item_id", VStr item); ("count", VInt (get_stock item inv))].

(** The inventory after a sequence of reserve requests. *)
Fixpoint serve (cfg : Config) (reqs : list (string * ReserveRequest))
  (inv : gmap string Z) : gmap string Z :=
  match reqs with
  | [] => inv
  | (correlation_id, req) :: rest =>
      serve cfg rest (reserve_endpoint cfg correlation_id req inv).2
  end.

(** The quantity that a sequence of reserve requests takes from one item:
    the sum of the quantities of the requests for it that succeed. *)
Fixpoint taken (cfg : Config) (item : string) (reqs : list (string * ReserveRequest))
  (inv : gmap string Z) : Z :=
  match reqs with
  | [] => 0
  | (correlation_id, req) :: rest =>
      let '(resp, inv1) := reserve_endpoint cfg correlation_id req inv in
      (if (status_code resp =? 200) && String.eqb (item_id req) item
       then quantity req else 0)
      + taken cfg item rest inv1
  end.

End SyncInventory.

Module SyncOrder.
Import Py.

(** [OrderRequest], after validation by the framework. *)
Record OrderRequest : Type := {
  user_id : string;
  item_id : string;
  quantity : Z
}.

(** What an awaited httpx call gives: a response (its status code and the
    value of [response.json()], when the body parses), an
    [httpx.TimeoutException], another [httpx.RequestError], or any other
    [Exception]; the texts are [str(e)]. *)
Inductive CallOutcome : Type :=
| Replied (status : Z) (json : option pyval)
| TimeoutException (text : string)
| RequestError (text : string)
| CallRaised (text : string).

(** The calls made on the two downstream services, with what they carry. *)
Inductive Call : Type :=
| ReserveCall (order item : string) (quantity : Z) (correlation_id : string)
| NotifyCall (order user message correlation_id : string).

(** The downstream services as seen through [app.client]. *)
Record Remote : Type := {
  reserve_inventory : string -> string -> Z -> string -> CallOutcome;
  send_notification : string -> string -> string -> string -> CallOutcome
}.

(** What the versions of httpx and pydantic in use decide: whether
    [raise_for_status] raises for a status code that is neither 2xx nor
    4xx/5xx, the text of the [HTTPStatusError] it raises, and what the
    validation of [ErrorDetail.details] makes of a JSON value that is neither
    an object nor null ([None] when it raises). *)
Record Libraries : Type := {
  other_status_raises : Z -> bool;
  status_error_text : Z -> string;
  coerce_details : pyval -> option pyval
}.

Definition raise_for_status (h : Libraries) (status : Z) : bool :=
  if (200 <=? status) && (status <? 300) then false
  else if (400 <=? status) && (status <? 600) then true
  else other_status_raises h status.

(** Exceptions that leave [create_order]. *)
Inductive Failure : Type :=
| HTTPStatusError (status : Z)
| ValidationError
| Propagated (text : string).

Inductive Reply : Type :=
| Answered (status : Z) (body : pyval)
| Failed (f : Failure).

(** What one request did: the downstream calls it made, in order, and the
    reply. *)
Record Outcome : Type := {
  calls : list Call;
  reply : Reply
}.

(** The message built by [send_notification]. *)
Definition notification_message (order : string) (quantity : Z) (item : string) : string :=
  "Order " ++ order ++ " confirmed for " ++ pretty quantity ++ " x " ++ item.

(** [details=inv_response.json()] in the 409 branch. *)
Definition details_of (h : Libraries) (json : option pyval) : Failure + pyval :=
  match json with
  | Some (VDict details) => inr (VDict details)
  | Some VNone => inr VNone
  | Some v =>
      match coerce_details h v with
      | Some details => inr details
      | None => inl ValidationError
      end
  | None => inl (Propagated "response.json()")
  end.

(** The second half of [create_order]: the notification, after the calls
    [made] so far. *)
Definition notify (h : Libraries) (remote : Remote) (correlation_id order : string)
  (req : OrderRequest) (made : list Call) : Outcome :=
  let message := notification_message order (quantity req) (item_id req) in
  let made1 := (made ++ [NotifyCall order (user_id req) message correlation_id])%list in
  let failure text :=
    {| calls := made1;
       reply :=
         Answered 502
           (SyncInventory.error_response "NOTIFICATION_FAILURE"
              "Failed to send notification" (VDict [("error", VStr text)])
              order correlation_id) |} in
  match send_notification remote order (user_id req) message correlation_id with
  | Replied status _ =>
      if raise_for_status h status then failure (status_error_text h status)
      else
        {| calls := made1;
           reply :=
             Answered 200
               (VDict [("order_id", VStr order); ("status", VStr "CONFIRMED")]) |}
  | TimeoutException text => failure text
  | RequestError text => failure text
  | CallRaised text => failure text
  end.

(** [POST /order], for the correlation id set by the middleware and the
    order id drawn from [ids.generate_order_id()]. *)
Definition create_order (h : Libraries) (remote : Remote) (correlation_id order : string)
  (req : OrderRequest) : Outcome :=
  let made := [ReserveCall order (item_id req) (quantity req) correlation_id] in
  match reserve_inventory remote order (item_id req) (quantity req) correlation_id with
  | Replied status json =>
      if status =? 409 then
        match details_of h json with
        | inr details =>
            {| calls := made;
               reply :=
                 Answered 409
                   (SyncInventory.error_response "INVENTORY_OUT_OF_STOCK"
                      "Item out of stock" details order correlation_id) |}
        | inl f => {| calls := made; reply := Failed f |}
        end
      else if 500 <=? status then
        {| calls := made;
           reply :=
             Answered 502
               (SyncInventory.error_response "INVENTORY_ERROR"
                  "Inventory service returned an error"
                  (VDict [("status", VInt status)]) order correlation_id) |}
      else if raise_for_status h status then
        {| calls := made; reply := Failed (HTTPStatusError status) |}
      else notify h remote correlation_id order req made
  | TimeoutException _ =>
      {| calls := made;
         reply :=
           Answered 504
             (SyncInventory.error_response "INVENTORY_TIMEOUT"
                "Inventory service timed out" VNone order correlation_id) |}
  | RequestError text =>
      {| calls := made;
         reply :=
           Answered 503
             (SyncInventory.error_response "INVENTORY_UNREACHABLE"
                "Inventory service unreachable" (VDict [("error", VStr text)])
                order correlation_id) |}
  | CallRaised text => {| calls := made; reply := Failed (Propagated text) |}
  end.

(** The middleware [add_correlation_id]: the id taken from the request
    header, or a generated one when the header is absent or empty. *)
Definition correlation_id_of (header : option string) (generated : string) : string :=
  match header with
  | Some value => if String.eqb value EmptyString then generated else value
  | None => generated
  end.

(** A request through the middleware: what [create_order] did, and the
    [X-Correlation-Id] header that the middleware sets on the response.  When
    the endpoint raises, [call_next] raises too and the line that sets the
    header is not reached. *)
Definition handle_order (h : Libraries) (remote : Remote) (header : option string)
  (generated order : string) (req : OrderRequest) : Outcome * option string :=
  let correlation_id := correlation_id_of header generated in
  let out := create_order h remote correlation_id order req in
  (out,
   match reply out with
   | Answered _ _ => Some correlation_id
   | Failed _ => None
   end).

(** The inventory service of this repository as the remote that answers the
    reserve call, holding inventory [inv], with a notification service that
    answers 200. *)
Definition local_remote (cfg : SyncInventory.Config) (inv : gmap string Z) : Remote :=
  {| reserve_inventory := fun order item quantity correlation_id =>
       let resp :=
         (SyncInventory.reserve_endpoint cfg correlation_id
            {| SyncInventory.order_id := order;
               SyncInventory.item_id := item;
               SyncInventory.quantity := quantity |} inv).1 in
       Replied (SyncInventory.status_code resp) (Some (SyncInventory.content resp));
     send_notification := fun _ _ _ _ =>
       Replied 200 (Some (VDict [("sent", VBool true)])) |}.

End SyncOrder.

(** ** The analytics consumer (Kafka variant) *)

Module Analytics.
Import Py.

(** [datetime.fromisoformat(s).strftime("%Y-%m-%dT%H:%MZ")], from the
    standard library; [None] when [fromisoformat] raises [ValueError]. *)
Class Calendar : Type := {
  strftime_minute : string -> option string
}.

(** [iso_ts.replace("Z", "+00:00")] *)
Fixpoint replace_Z (s : string) : string :=
  match s with
  | EmptyString => EmptyString
  | String c rest =>
      if Ascii.eqb c (Ascii.ascii_of_nat 90) then "+00:00" ++ replace_Z rest
      else String c (replace_Z rest)
  end.

(** Exceptions that end the loop of [main]. *)
Inductive Crash : Type :=
| DecodeCrash (r : loads_result)
| AttributeCrash
| KeyCrash
| ValueCrash
| ZeroDivisionCrash.

(** [minute_bucket(v)] for the value [v] found under "event_time": only a
    string has [replace]. *)
Definition minute_bucket `{Calendar} (v : pyval) : Crash + string :=
  match v with
  | VStr iso_ts =>
      match strftime_minute (replace_Z iso_ts) with
      | Some b => inr b
      | None => inl ValueCrash
      end
  | _ => inl AttributeCrash
  end.

(** The local variables of [main]. *)
Record State : Type := {
  orders_per_minute : gmap string Z;
  total_orders : Z;
  reserved : Z;
  failed : Z;
  seen : Z
}.

Definition initial_state : State :=
  {| orders_per_minute := ∅; total_orders := 0; reserved := 0; failed := 0;
     seen := 0 |}.

(** The arguments of one call of [write_report] (what it writes to the file
    is not modelled). *)
Record Report : Type := {
  r_orders_per_minute : gmap string Z;
  r_total_orders : Z;
  r_reserved : Z;
  r_failed : Z
}.

Definition report_of (st : State) : Report :=
  {| r_orders_per_minute := orders_per_minute st;
     r_total_orders := total_orders st;
     r_reserved := reserved st;
     r_failed := failed st |}.

(** The counting part of the loop body, lines 70 to 82: the variables
    afterwards and the exception raised, if any.  The variables keep what
    was assigned before the exception. *)
Definition count `{Runtime} `{Calendar} (raw : string) (st : State)
  : State * option Crash :=
  let st1 :=
    {| orders_per_minute := orders_per_minute st;
       total_orders := total_orders st;
       reserved := reserved st;
       failed := failed st;
       seen := seen st + 1 |} in
  match json_loads_utf8 raw with
  | Loaded (VDict event) =>
      let et := dict_get "event_type" event in
      if py_eq et (VStr "OrderPlaced") then
        let st2 :=
          {| orders_per_minute := orders_per_minute st1;
             total_orders := total_orders st1 + 1;
             reserved := reserved st1;
             failed := failed st1;
             seen := seen st1 |} in
        match dict_lookup "event_time" event with
        | None => (st2, Some KeyCrash)
        | Some v =>
            match minute_bucket v with
            | inl c => (st2, Some c)
            | inr b =>
                ({| orders_per_minute :=
                      <[b := default 0 (orders_per_minute st2 !! b) + 1]>
                        (orders_per_minute st2);
                    total_orders := total_orders st2;
                    reserved := reserved st2;
                    failed := failed st2;
                    seen := seen st2 |},
                 None)
            end
        end
      else if py_eq et (VStr "InventoryReserved") then
        ({| orders_per_minute := orders_per_minute st1;
            total_orders := total_orders st1;
            reserved := reserved st1 + 1;
            failed := failed st1;
            seen := seen st1 |},
         None)
      else if py_eq et (VStr "InventoryFailed") then
        ({| orders_per_minute := orders_per_minute st1;
            total_orders := total_orders st1;
            reserved := reserved st1;
            failed := failed st1 + 1;
            seen := seen st1 |},
         None)
      else (st1, None)
  | Loaded _ => (st1, Some AttributeCrash)
  | r => (st1, Some (DecodeCrash r))
  end.

(** The whole loop body for one message with a value: counting, then the
    checkpoint when [seen % FLUSH_EVERY == 0]; the report written at the
    checkpoint, if any, is returned. *)
Definition step `{Runtime} `{Calendar} (flush_every : Z) (raw : string) (st : State)
  : State * option Crash * option Report :=
  match count raw st with
  | (st1, Some c) => (st1, Some c, None)
  | (st1, None) =>
      if flush_every =? 0 then (st1, Some ZeroDivisionCrash, None)
      else if seen st1 mod flush_every =? 0 then (st1, None, Some (report_of st1))
      else (st1, None, None)
  end.

(** [main] over the values of the messages polled until the loop ends (by
    [running] becoming false, or by an exception): the checkpoints, and last
    the report that the [finally] clause writes. *)
Fixpoint run_from `{Runtime} `{Calendar} (flush_every : Z) (raws : list string)
  (st : State) : State * option Crash * list Report :=
  match raws with
  | [] => (st, None, [report_of st])
  | raw :: rest =>
      match step flush_every raw st with
      | (st1, Some c, _) => (st1, Some c, [report_of st1])
      | (st1, None, checkpoint) =>
          match run_from flush_every rest st1 with
          | (st2, c, reports) =>
              (st2, c, (match checkpoint with Some r => [r] | None => [] end
                        ++ reports)%list)
          end
      end
  end.

(** The sum of the per-minute counts. *)
Definition histogram_total (m : gmap string Z) : Z :=
  map_fold (fun _ n acc => n + acc) 0 m.

End Analytics.

(** ** Stand-ins and sample data for the services above *)

Module Samples.
Import Py.

Definition libraries : SyncOrder.Libraries :=
  {| SyncOrder.other_status_raises := fun _ => true;
     SyncOrder.status_error_text := fun status => "HTTP status " ++ pretty status;
     SyncOrder.coerce_details := fun _ => None |}.

Definition working : SyncInventory.Config :=
  {| SyncInventory.INVENTORY_FAIL_MODE := false;
     SyncInventory.INVENTORY_DELAY_MS := 0 |}.

Definition failing : SyncInventory.Config :=
  {| SyncInventory.INVENTORY_FAIL_MODE := true;
     SyncInventory.INVENTORY_DELAY_MS := 0 |}.

Definition pizza_order : SyncOrder.OrderRequest :=
  {| SyncOrder.user_id := "u123"; SyncOrder.item_id := "pizza";
     SyncOrder.quantity := 2 |}.

Definition reserve_request (order item : string) (quantity : Z)
  : SyncInventory.ReserveRequest :=
  {| SyncInventory.order_id := order; SyncInventory.item_id := item;
     SyncInventory.quantity := quantity |}.

(** A notification service that is down, behind a working inventory. *)
Definition notification_down (inv : gmap string Z) : SyncOrder.Remote :=
  {| SyncOrder.reserve_inventory :=
       SyncOrder.reserve_inventory (SyncOrder.local_remote working inv);
     SyncOrder.send_notification := fun _ _ _ _ =>
       SyncOrder.RequestError "connection refused" |}.

(** Buckets a timestamp of the shape YYYY-MM-DDTHH:MM:SS+00:00 by cutting it
    after the minutes; anything shorter is rejected. *)
#[export] Instance calendar : Analytics.Calendar :=
  {| Analytics.strftime_minute := fun s =>
       if (16 <=? String.length s)%nat
       then Some (String.substring 0 16 s ++ "Z")
       else None |}.

Definition placed_at (order time : string) : pyval :=
  VDict [("event_type", VStr "OrderPlaced"); ("order_id", VStr order);
         ("event_time", VStr time)].

(** The order that the front door stores for two burgers. *)
Definition burger_order : list (string * pyval) :=
  Orders.new_order Fixture.sample_uuid (VStr "burger") (VInt 2) (VStr "unknown").

Definition reserved_status : pyval :=
  Inventory.reserved_event (VStr Fixture.sample_uuid) (VStr "burger") (VInt 2).

Definition failed_status : pyval :=
  VDict [("order_id", VStr Fixture.sample_uuid); ("status", VStr "FAILED")].

Definition analytics_documents : list pyval :=
  [ placed_at "a1" "2024-05-01T10:15:30Z";
    placed_at "a2" "2024-05-01T10:15:59Z";
    VDict [("event_type", VStr "InventoryReserved"); ("order_id", VStr "a1")];
    VDict [("event_type", VStr "InventoryFailed"); ("order_id", VStr "a2")];
    VDict [("event_type", VStr "OrderPlaced"); ("order_id", VStr "a3")];
    VDict burger_order;
    reserved_status;
    failed_status ].

(** The stand-in decoder of [Fixture], extended by the documents above. *)
Definition loads (body : string) : loads_result :=
  match List.find (fun v => String.eqb (Fixture.mini_dumps v) body)
          analytics_documents with
  | Some v => Loaded v
  | None => Fixture.mini_loads body
  end.

Definition runtime : Runtime :=
  {| json_loads := loads;
     json_loads_utf8 := loads;
     json_dumps := Fixture.mini_dumps;
     py_repr := Fixture.mini_dumps;
     py_int := @py_int Fixture.runtime;
     exn_str := @exn_str Fixture.runtime;
     utf8_replace := fun raw => raw |}.

Definition a1_body : string := Fixture.mini_dumps (placed_at "a1" "2024-05-01T10:15:30Z").
Definition a2_body : string := Fixture.mini_dumps (placed_at "a2" "2024-05-01T10:15:59Z").
Definition a3_body : string :=
  Fixture.mini_dumps (VDict [("event_type", VStr "OrderPlaced"); ("order_id", VStr "a3")]).
Definition reserved_body : string := Fixture.mini_dumps reserved_status.
Definition failed_body : string := Fixture.mini_dumps failed_status.

(** A store that holds the order for two burgers. *)
Definition one_order : gmap string (list (string * pyval)) :=
  {[ Fixture.sample_uuid := burger_order ]}.

(** A channel whose acknowledgement raises. *)
Definition broken_ack : Inventory.Channel :=
  {| Inventory.basic_publish_raises := fun _ _ _ => None;
     Inventory.basic_ack_raises := fun _ => Some (BrokerError "channel closed") |}.

(** A broker that refuses every connection. *)
Definition unreachable_broker : Orders.Broker :=
  {| Orders.connect := fun _ => Orders.AMQPConnectionError;
     Orders.channel_raises := None;
     Orders.setup_channel_raises := None;
     Orders.basic_publish_raises := fun _ _ _ => None;
     Orders.close_raises := None |}.

(** A broker that takes the message and then fails to close the connection. *)
Definition close_fails : Orders.Broker :=
  {| Orders.connect := fun _ => Orders.Connected;
     Orders.channel_raises := None;
     Orders.setup_channel_raises := None;
     Orders.basic_publish_raises := fun _ _ _ => None;
     Orders.close_raises := Some (BrokerError "close failed") |}.

(** A broker that connects at the third attempt. *)
Definition third_time_lucky : Orders.Broker :=
  {| Orders.connect := fun n =>
       if (n <? 3)%nat then Orders.AMQPConnectionError else Orders.Connected;
     Orders.channel_raises := None;
     Orders.setup_channel_raises := None;
     Orders.basic_publish_raises := fun _ _ _ => None;
     Orders.close_raises := None |}.

(** A Kafka client whose first produce raises. *)
Definition produce_fails_once : Kafka.Client :=
  {| Kafka.raises := fun tr a =>
       match tr, a with
       | [], Kafka.Produce _ _ _ => Some (BrokerError "queue full")
       | _, _ => None
       end |}.

End Samples.

(** * Properties *)

Import Py Inventory.

(** ** Helper lemmas on dicts and sets *)

Lemma dict_lookup_set_eq k v d :
  dict_lookup k (dict_set k v d) = Some v.
Proof.
  induction d as [|[k' v'] rest IH]; simpl.
  - now rewrite String.eqb_refl.
  - destruct (String.eqb k k') eqn:E; simpl; rewrite E; auto.
Qed.

Lemma dict_lookup_set_ne k k' v d :
  k' <> k -> dict_lookup k' (dict_set k v d) = dict_lookup k' d.
Proof.
  intros Hne. induction d as [|[k0 v0] rest IH]; simpl.
  - destruct (String.eqb k' k) eqn:E; auto.
    apply String.eqb_eq in E. contradiction.
  - destruct (String.eqb k k0) eqn:E; simpl.
    + apply String.eqb_eq in E. subst k0.
      destruct (String.eqb k' k) eqn:E'; auto.
      apply String.eqb_eq in E'. contradiction.
    + now rewrite IH.
Qed.

Lemma set_mem_add_mono x y s :
  set_mem x s = true -> set_mem x (set_add y s) = true.
Proof.
  unfold set_add, set_mem. intros Hx.
  destruct (existsb (py_same y) s); auto.
  rewrite existsb_app, Hx. reflexivity.
Qed.

Lemma py_eq_str_refl s : py_eq (VStr s) (VStr s) = true.
Proof. simpl. apply String.eqb_refl. Qed.

Lemma set_mem_add_str s l : set_mem (VStr s) (set_add (VStr s) l) = true.
Proof.
  unfold set_add. destruct (set_mem (VStr s) l) eqn:E; auto.
  unfold set_mem, py_same. rewrite existsb_app. simpl.
  rewrite String.eqb_refl. now rewrite orb_true_r.
Qed.

Lemma missing_fields_nil order_id item qty :
  missing_fields order_id item qty = [] <->
  truthy order_id = true /\ truthy item = true /\ is_none qty = false.
Proof.
  unfold missing_fields.
  destruct (truthy order_id), (truthy item), (is_none qty); simpl;
    split; intros; try discriminate; intuition congruence.
Qed.

(** ** The callback runs through exactly one of its branches *)

Section Callback.
Context `{rt : Runtime}.

Lemma on_order_placed_handled ch method body st :
  Handled ch method body st (on_order_placed ch method body st).
Proof.
  unfold on_order_placed.
  destruct (json_loads body) as [v| |e] eqn:Hload; try constructor; auto.
  destruct v as [ |b|z|f|s|l|data]; try constructor.
  destruct (missing_fields _ _ _) as [|f0 rest] eqn:Hmiss.
  - pose proof Hmiss as Hm. apply missing_fields_nil in Hm as (Ho & Hi & Hq).
    destruct (int_value (dict_get "qty" data)) as [q|] eqn:Hint.
    + destruct (q <=? 0) eqn:Hq0.
      * apply H_invalid; auto. intros q' Hq'. rewrite Hint in Hq'.
        injection Hq' as <-. lia.
      * assert (Hpv : passes_validation data q) by (repeat split; auto; lia).
        destruct (hashable (dict_get "order_id" data)) eqn:Hh; simpl;
          [|constructor].
        destruct (set_mem _ _) eqn:Hmem.
        { eapply H_duplicate; eauto. }
        unfold reserve.
        destruct (hashable (dict_get "item" data)) eqn:Hhi; simpl;
          [|constructor].
        destruct (inventory_lookup _ _) as [[name available]|] eqn:Hlook.
        -- unfold inventory_lookup in Hlook.
           destruct (dict_get "item" data) eqn:Hitem; try discriminate.
           destruct (inventory st !! s) as [n|] eqn:Hinv; try discriminate.
           injection Hlook as <- <-.
           destruct (n <? q) eqn:Hlt.
           ++ rewrite <- Hitem. eapply H_insufficient; eauto. lia.
           ++ rewrite <- Hitem. eapply H_reserved; eauto. lia.
        -- eapply H_unknown; eauto.
    + apply H_invalid; auto. intros q Hq'. rewrite Hint in Hq'. discriminate.
  - rewrite <- Hmiss. eapply H_missing; eauto. rewrite Hmiss. discriminate.
Qed.

End Callback.

(** ** Runs of the callback *)

Lemma publish_then_ack_state ch method exchange key body st p :
  run_state (publish_then_ack ch method exchange key body st p) = st.
Proof.
  unfold publish_then_ack. now destruct (basic_publish_raises ch exchange key body).
Qed.

Lemma publish_then_ack_path ch method exchange key body st p :
  run_path (publish_then_ack ch method exchange key body st p) = p.
Proof.
  unfold publish_then_ack. now destruct (basic_publish_raises ch exchange key body).
Qed.

Lemma publish_then_ack_trace ch method exchange key body st p :
  run_trace (publish_then_ack ch method exchange key body st p) =
  BasicPublish exchange key body 2 ::
    match basic_publish_raises ch exchange key body with
    | Some _ => []
    | None => [BasicAck (delivery_tag method)]
    end.
Proof.
  unfold publish_then_ack. now destruct (basic_publish_raises ch exchange key body).
Qed.

Lemma publish_then_ack_in ch method exchange key body st p a :
  In a (run_trace (publish_then_ack ch method exchange key body st p)) ->
  a = BasicPublish exchange key body 2 \/ a = BasicAck (delivery_tag method).
Proof.
  rewrite publish_then_ack_trace.
  destruct (basic_publish_raises ch exchange key body); simpl; intuition.
Qed.

Lemma routed_to_dlq_publish ch method exchange key body st p :
  routed_to_dlq (publish_then_ack ch method exchange key body st p) ->
  key = "dlq_queue".
Proof.
  intros (ex & b & md & Hin).
  apply publish_then_ack_in in Hin as [Heq|Heq]; congruence.
Qed.

Section Ledger.
Context `{rt : Runtime}.

(** A single call of the callback, seen from the ledger: nothing changes, or
    one known item loses a positive quantity that was available. *)
Lemma run_state_cases ch method body st :
  let r := on_order_placed ch method body st in
  run_state r = st \/
  exists data name available q,
    json_loads body = Loaded (VDict data) /\
    passes_validation data q /\
    set_mem (dict_get "order_id" data) (processed_orders st) = false /\
    dict_get "item" data = VStr name /\
    inventory st !! name = Some available /\
    q <= available /\
    run_path r = Reserved /\
    run_state r =
      {| inventory := <[name := available - q]> (inventory st);
         processed_orders :=
           set_add (dict_get "order_id" data) (processed_orders st) |}.
Proof.
  intros r. subst r.
  destruct (on_order_placed_handled ch method body st);
    try (left; first [ apply publish_then_ack_state | reflexivity ]).
  right. exists data, name, available, q.
  rewrite publish_then_ack_state, publish_then_ack_path. auto 10.
Qed.

Lemma deliver_ledger_nonneg d st :
  ledger_nonneg (inventory st) ->
  ledger_nonneg (inventory (run_state (deliver d st))).
Proof.
  intros Hnn. unfold deliver.
  destruct (run_state_cases (d_channel d) (d_method d) (d_body d) st)
    as [->|(data & name & available & q & _ & _ & _ & _ & Hinv & Hle & _ & ->)];
    auto.
  simpl. intros k n. destruct (decide (k = name)) as [->|Hne].
  - rewrite lookup_insert_eq. intros [= <-]. lia.
  - rewrite lookup_insert_ne by congruence. apply Hnn.
Qed.

Lemma consume_ledger_nonneg ds : forall st,
  ledger_nonneg (inventory st) -> ledger_nonneg (inventory (consume ds st)).
Proof.
  induction ds as [|d rest IH]; intros st Hnn; simpl; auto.
  apply IH, deliver_ledger_nonneg, Hnn.
Qed.

(** C3. Ledger non-negativity: from a ledger whose quantities are all at
    least zero, every sequence of deliveries (whatever the bodies are) leads
    to a ledger whose quantities are all at least zero; and a single delivery
    changes the ledger only by a successful reservation, which takes a
    positive integer [q] from an item whose stock is at least [q]. *)
Theorem ledger_never_negative (st : State) :
  ledger_nonneg (inventory st) ->
  (forall ds, ledger_nonneg (inventory (consume ds st))) /\
  (forall d,
     let r := deliver d st in
     inventory (run_state r) = inventory st \/
     exists data name available q,
       json_loads (d_body d) = Loaded (VDict data) /\
       dict_get "item" data = VStr name /\
       int_value (dict_get "qty" data) = Some q /\
       0 < q /\ q <= available /\
       inventory st !! name = Some available /\
       run_path r = Reserved /\
       inventory (run_state r) = <[name := available - q]> (inventory st)).
Proof.
  intros Hnn. split.
  - intros ds. now apply consume_ledger_nonneg.
  - intros d r. subst r. unfold deliver.
    destruct (run_state_cases (d_channel d) (d_method d) (d_body d) st)
      as [->|(data & name & available & q & Hl & Hpv & _ & Hi & Hinv & Hle & Hp & Hst)];
      [now left|].
    right. exists data, name, available, q.
    destruct Hpv as (_ & _ & Hq & Hpos). rewrite Hst. simpl. auto 10.
Qed.

(** C6. Dead-letter non-pollution: a call of the callback that publishes to
    the dead-letter queue went through the decode-failure branch or one of
    the two validation-failure branches, leaves [inventory] and
    [processed_orders] as they were, and so any later delivery (such as a
    corrected resubmission with the same order_id) is handled exactly as if
    the dead-lettered message had never arrived. *)
Theorem dead_letter_non_pollution ch method body st :
  let r := on_order_placed ch method body st in
  routed_to_dlq r ->
  (run_path r = DecodeFailure \/ run_path r = MissingFields \/
   run_path r = InvalidQty) /\
  run_state r = st /\
  (forall ch' method' body',
     on_order_placed ch' method' body' (run_state r) =
     on_order_placed ch' method' body' st).
Proof.
  intros r Hdlq. subst r.
  assert (Hgoal :
    (run_path (on_order_placed ch method body st) = DecodeFailure \/
     run_path (on_order_placed ch method body st) = MissingFields \/
     run_path (on_order_placed ch method body st) = InvalidQty) /\
    run_state (on_order_placed ch method body st) = st).
  { destruct (on_order_placed_handled ch method body st);
      try (apply routed_to_dlq_publish in Hdlq; discriminate);
      try (rewrite publish_then_ack_state, publish_then_ack_path; tauto).
    - destruct Hdlq as (? & ? & ? & []).
    - destruct Hdlq as (? & ? & ? & [Heq|[]]). discriminate. }
  destruct Hgoal as [Hp Hs]. repeat split; auto.
  intros. now rewrite Hs.
Qed.

End Ledger.

(** ** The Kafka consumer *)

Section KafkaConsumer.
Context `{rt : Runtime}.

Lemma call_spec cl a stock tr :
  exists res, Kafka.call cl a stock tr = (res, stock, (tr ++ [a])%list).
Proof.
  unfold Kafka.call. destruct (Kafka.raises cl tr a); eauto.
Qed.

(** The reserve logic makes no client call and changes the stock of at most
    the item named in the event. *)
Lemma reserve_logic_spec fr raw stock tr :
  exists res stock1,
    Kafka.reserve_logic fr raw stock tr = (res, stock1, tr) /\
    (stock1 = stock \/
     exists name n q,
       Kafka.named_item raw = Some name /\ stock !! name = Some n /\
       stock1 = <[name := n - q]> stock).
Proof.
  unfold Kafka.reserve_logic, Kafka.named_item, Kafka.loads.
  destruct (json_loads_utf8 raw) as [event| |e]; simpl;
    try (do 2 eexists; split; [reflexivity|now left]).
  destruct event as [ |b|z|f|s|l|d]; simpl;
    try (do 2 eexists; split; [reflexivity|now left]).
  unfold mbind, Kafka.M_bind, mret, Kafka.M_ret, Kafka.raise; simpl.
  destruct (negb _); simpl;
    try (do 2 eexists; split; [reflexivity|now left]).
  destruct (dict_lookup "order_id" d) as [order_id|]; simpl;
    try (do 2 eexists; split; [reflexivity|now left]).
  unfold dict_get.
  destruct (dict_lookup "item_id" d) as [item_id|]; simpl;
    try (do 2 eexists; split; [reflexivity|now left]).
  destruct (dict_lookup "qty" d) as [qty_field|]; simpl;
    try (do 2 eexists; split; [reflexivity|now left]).
  unfold Kafka.int_of, Kafka.lift.
  destruct (int_value qty_field) as [q|]; [|destruct (py_int qty_field) as [e|q]];
    unfold mret, Kafka.M_ret, Kafka.raise; simpl;
    try (do 2 eexists; split; [reflexivity|now left]).
  all: unfold Kafka.stock_get, Kafka.stock_decrement, Kafka.get_stock,
         Kafka.put_stock, mbind, Kafka.M_bind, mret, Kafka.M_ret, Kafka.raise.
  all: destruct item_id as [ |b|z|f|name|l|d']; simpl;
    repeat match goal with
      | |- context [if ?c then _ else _] => destruct c; simpl
      end;
    try (do 2 eexists; split; [reflexivity|now left]).
  all: destruct (stock !! name) as [n|] eqn:Hn; simpl;
    repeat match goal with
      | |- context [if ?c then _ else _] => destruct c; simpl
      end;
    try (do 2 eexists; split; [reflexivity|now left]).
  all: do 2 eexists; split; [reflexivity|right; eauto 10].
Qed.

Ltac commit_positions :=
  let i := fresh "i" in
  let Hi := fresh "Hi" in
  intros i Hi;
  do 7 (try (destruct i as [|i]; simpl in Hi; try discriminate Hi));
  try (eexists _, _, _, _; repeat split; reflexivity).

(** One polled message: the stock afterwards and the order of the client
    calls. *)
Lemma run_spec cfg cl fr raw stock :
  exists res stock1 tr,
    Kafka.run cfg cl fr raw stock = (res, stock1, tr) /\
    (stock1 = stock \/
     exists name n q,
       Kafka.named_item raw = Some name /\ stock !! name = Some n /\
       stock1 = <[name := n - q]> stock) /\
    Kafka.commit_follows_produce tr.
Proof.
  unfold Kafka.run, Kafka.handle_message, Kafka.try_except, Kafka.try_body,
    Kafka.to_dlq.
  unfold mbind at 1 3. unfold Kafka.M_bind at 1 3.
  destruct (reserve_logic_spec fr raw stock []) as (res & stock1 & -> & Hst).
  unfold mbind, Kafka.M_bind, Kafka.call.
  destruct res as [e|[order_id out]]; simpl.
  - destruct (Kafka.is_Exception e); simpl;
      repeat match goal with
        | |- context [Kafka.raises ?c ?t ?a] => destruct (Kafka.raises c t a); simpl
        end;
      (eexists _, _, _; split; [reflexivity|split; [exact Hst|commit_positions]]).
  - repeat match goal with
      | |- context [Kafka.raises ?c ?t ?a] =>
          destruct (Kafka.raises c t a); simpl
      | |- context [Kafka.is_Exception ?e] =>
          destruct (Kafka.is_Exception e); simpl
      end;
      (eexists _, _, _; split; [reflexivity|split; [exact Hst|commit_positions]]).
Qed.

End KafkaConsumer.

(** ** Order of the channel calls, frame of the ledger *)

Section Ordering.
Context `{rt : Runtime}.


(** C9. Per-item frame condition: one call of the RabbitMQ callback, and one
    polled message of the Kafka consumer, leave the ledger quantity of every
    item other than the one named in the event as it was. *)
Theorem per_item_frame :
  (forall ch method body st k,
     Inventory.named_item body <> Some k ->
     inventory (run_state (on_order_placed ch method body st)) !! k =
     inventory st !! k) /\
  (forall cfg cl fr raw (stock : gmap string Z) k,
     Kafka.named_item raw <> Some k ->
     (Kafka.run cfg cl fr raw stock).1.2 !! k = stock !! k).
Proof.
  split.
  - intros ch method body st k Hk.
    destruct (run_state_cases ch method body st)
      as [->|(data & name & available & q & Hl & _ & _ & Hi & _ & _ & _ & ->)];
      auto.
    simpl. apply lookup_insert_ne. intros ->. apply Hk.
    unfold Inventory.named_item. now rewrite Hl, Hi.
  - intros cfg cl fr raw stock k Hk.
    destruct (run_spec cfg cl fr raw stock)
      as (res & stock1 & tr & -> & [->|(name & n & q & Hn & _ & ->)] & _);
      simpl; auto.
    apply lookup_insert_ne. congruence.
Qed.






End Ordering.

(** ** Validation and the decision on a validated event *)

Lemma is_none_true qty : is_none qty = true <-> qty = VNone.
Proof. destruct qty; simpl; split; congruence. Qed.

Section Decisions.
Context `{rt : Runtime}.

(** An event that passes validation reaches the idempotency check. *)
Lemma validated_run ch method body st data q :
  json_loads body = Loaded (VDict data) ->
  passes_validation data q ->
  hashable (dict_get "order_id" data) = true ->
  on_order_placed ch method body st =
  if set_mem (dict_get "order_id" data) (processed_orders st)
  then ack ch method st [] Duplicate
  else reserve ch method (dict_get "order_id" data) (dict_get "item" data)
         (dict_get "qty" data) q st.
Proof.
  intros Hload (Ho & Hi & Hq & Hpos) Hh.
  unfold on_order_placed. rewrite Hload.
  assert (Hm : missing_fields (dict_get "order_id" data) (dict_get "item" data)
                 (dict_get "qty" data) = []).
  { apply missing_fields_nil. repeat split; auto.
    destruct (dict_get "qty" data); simpl in *; congruence. }
  rewrite Hm, Hq, Hh. simpl.
  destruct (q <=? 0) eqn:E; [lia|reflexivity].
Qed.

(** An event with a missing field is dead-lettered whatever [qty] is. *)
Lemma missing_run ch method body st data :
  json_loads body = Loaded (VDict data) ->
  missing_fields (dict_get "order_id" data) (dict_get "item" data)
    (dict_get "qty" data) <> [] ->
  on_order_placed ch method body st =
  publish_then_ack ch method EmptyString "dlq_queue"
    (json_dumps (VDict (dlq_msg data
       (missing_reason (missing_fields (dict_get "order_id" data)
          (dict_get "item" data) (dict_get "qty" data))))))
    st MissingFields.
Proof.
  intros Hload Hm. unfold on_order_placed. rewrite Hload.
  destruct (missing_fields _ _ _); [contradiction|reflexivity].
Qed.

(** A decoded event without missing fields whose qty is not a positive
    integer is dead-lettered by the qty check. *)
Lemma invalid_qty_run ch method body st data :
  json_loads body = Loaded (VDict data) ->
  truthy (dict_get "order_id" data) = true ->
  truthy (dict_get "item" data) = true ->
  dict_get "qty" data <> VNone ->
  (forall q, int_value (dict_get "qty" data) = Some q -> q <= 0) ->
  on_order_placed ch method body st =
  publish_then_ack ch method EmptyString "dlq_queue"
    (json_dumps (VDict (dlq_msg data (invalid_qty_reason (dict_get "qty" data)))))
    st InvalidQty.
Proof.
  intros Hload Ho Hi Hq Hbad. unfold on_order_placed. rewrite Hload.
  assert (Hm : missing_fields (dict_get "order_id" data) (dict_get "item" data)
                 (dict_get "qty" data) = []).
  { apply missing_fields_nil. repeat split; auto.
    destruct (is_none (dict_get "qty" data)) eqn:E; auto.
    apply is_none_true in E. contradiction. }
  rewrite Hm.
  destruct (int_value (dict_get "qty" data)) as [q|]; auto.
  specialize (Hbad q eq_refl).
  destruct (q <=? 0) eqn:E; [reflexivity|lia].
Qed.

(** C2. Validation precedence and the combined message: a decoded event in
    which order_id is empty, item is empty or qty is absent is sent to the
    dead-letter queue by exactly one publish, whatever the value of qty is;
    the error text is "Missing required field(s): " followed by the names of
    the missing fields, joined by ", ", in the order order_id, item, qty; the
    globals are left as they were.  With order_id present and both item and
    qty missing the text is "Missing required field(s): item, qty". *)
Theorem missing_fields_combined_message ch method body st data :
  json_loads body = Loaded (VDict data) ->
  truthy (dict_get "order_id" data) = false \/
  truthy (dict_get "item" data) = false \/
  dict_get "qty" data = VNone ->
  let r := on_order_placed ch method body st in
  exists missing,
    sublist missing ["order_id"; "item"; "qty"] /\
    (In "order_id" missing <-> truthy (dict_get "order_id" data) = false) /\
    (In "item" missing <-> truthy (dict_get "item" data) = false) /\
    (In "qty" missing <-> dict_get "qty" data = VNone) /\
    run_path r = MissingFields /\
    run_trace r =
      BasicPublish EmptyString "dlq_queue"
        (json_dumps (VDict (dict_set "error"
           (VStr ("Missing required field(s): " ++ String.concat ", " missing))
           data))) 2
      :: match basic_publish_raises ch EmptyString "dlq_queue"
                 (json_dumps (VDict (dict_set "error"
                    (VStr ("Missing required field(s): "
                             ++ String.concat ", " missing)) data))) with
         | Some _ => []
         | None => [BasicAck (delivery_tag method)]
         end /\
    count_publishes (run_trace r) = 1%nat /\
    run_state r = st /\
    (truthy (dict_get "order_id" data) = true ->
     truthy (dict_get "item" data) = false ->
     dict_get "qty" data = VNone ->
     "Missing required field(s): " ++ String.concat ", " missing =
     "Missing required field(s): item, qty").
Proof.
  intros Hload Hmiss r. subst r.
  set (missing := missing_fields (dict_get "order_id" data) (dict_get "item" data)
                    (dict_get "qty" data)).
  assert (Hne : missing <> []).
  { intros Hnil. apply missing_fields_nil in Hnil as (Ho & Hi & Hq).
    destruct Hmiss as [H|[H|H]]; try congruence.
    rewrite H in Hq. discriminate. }
  rewrite (missing_run ch method body st data Hload Hne). fold missing.
  exists missing.
  rewrite publish_then_ack_path, publish_then_ack_state, publish_then_ack_trace.
  assert (Hq : is_none (dict_get "qty" data) = true <-> dict_get "qty" data = VNone)
    by apply is_none_true.
  assert (Hq' : is_none (dict_get "qty" data) = false -> dict_get "qty" data <> VNone).
  { intros E F. apply Hq in F. congruence. }
  unfold missing_reason, dlq_msg.
  split; [|split; [|split; [|split; [|split; [|split; [|split; [|split]]]]]]];
    try reflexivity.
  - unfold missing, missing_fields.
    destruct (truthy _), (truthy _), (is_none _); simpl; repeat constructor.
  - unfold missing, missing_fields.
    destruct (truthy (dict_get "order_id" data)), (truthy (dict_get "item" data)),
      (is_none (dict_get "qty" data)); simpl; split; intros;
      try congruence; intuition (try discriminate; try congruence).
  - unfold missing, missing_fields.
    destruct (truthy (dict_get "order_id" data)), (truthy (dict_get "item" data)),
      (is_none (dict_get "qty" data)); simpl; split; intros;
      try congruence; intuition (try discriminate; try congruence).
  - unfold missing, missing_fields.
    destruct (truthy (dict_get "order_id" data)), (truthy (dict_get "item" data)),
      (is_none (dict_get "qty" data)) eqn:E; simpl; split; intros Hx;
      try (now apply Hq); try (apply Hq in Hx; congruence);
      intuition (try discriminate; try congruence).
  - destruct (basic_publish_raises _ _ _ _); reflexivity.
  - intros Ho Hi Hn. unfold missing, missing_fields.
    rewrite Ho, Hi. apply Hq in Hn. rewrite Hn. reflexivity.
Qed.

End Decisions.

(** ** Dead-letter messages and business rejections *)

Section Outcomes.
Context `{rt : Runtime}.


(** The decision on an event that passed validation and is not a duplicate,
    when its item is a string. *)
Lemma reserve_known ch method order_id name qty q st available :
  inventory st !! name = Some available ->
  reserve ch method order_id (VStr name) qty q st =
  if available <? q then
    publish_then_ack ch method EXCHANGE "inventory.failed"
      (json_dumps (failed_event order_id (VStr name) qty
                     (insufficient_reason (VStr name) qty available)))
      st InsufficientStock
  else
    publish_then_ack ch method EXCHANGE "inventory.reserved"
      (json_dumps (reserved_event order_id (VStr name) qty))
      {| inventory := <[name := available - q]> (inventory st);
         processed_orders := set_add order_id (processed_orders st) |}
      Reserved.
Proof.
  intros Hinv. unfold reserve, inventory_lookup. simpl. now rewrite Hinv.
Qed.

Lemma reserve_unknown ch method order_id item qty q st :
  hashable item = true ->
  inventory_lookup item (inventory st) = None ->
  reserve ch method order_id item qty q st =
  publish_then_ack ch method EXCHANGE "inventory.failed"
    (json_dumps (failed_event order_id item qty (not_found_reason item)))
    st UnknownItem.
Proof.
  intros Hh Hl. unfold reserve. now rewrite Hh, Hl.
Qed.

(** C7. Insufficient stock: a well-formed event that is not a duplicate and
    asks for more than the ledger holds of its item gets one publish with
    routing key "inventory.failed", whose event has status FAILED and the
    reason "Insufficient stock for '<item>': requested <qty>, available
    <available>", <available> being the ledger quantity at that moment; the
    ledger and the processed set are left as they were.  For burger with
    stock 0 and a request of 1 the reason is "Insufficient stock for
    'burger': requested 1, available 0". *)
Theorem insufficient_stock_outcome ch method body st data name q available :
  json_loads body = Loaded (VDict data) ->
  truthy (dict_get "order_id" data) = true ->
  hashable (dict_get "order_id" data) = true ->
  set_mem (dict_get "order_id" data) (processed_orders st) = false ->
  dict_get "item" data = VStr name ->
  name <> EmptyString ->
  dict_get "qty" data = VInt q ->
  0 < q ->
  inventory st !! name = Some available ->
  available < q ->
  let r := on_order_placed ch method body st in
  let reason :=
    "Insufficient stock for '" ++ name ++ "': requested " ++ pretty q
      ++ ", available " ++ pretty available in
  let event :=
    VDict [("order_id", dict_get "order_id" data); ("item", VStr name);
           ("qty", VInt q); ("status", VStr "FAILED"); ("reason", VStr reason)] in
  run_path r = InsufficientStock /\
  run_trace r =
    BasicPublish EXCHANGE "inventory.failed" (json_dumps event) 2
    :: match basic_publish_raises ch EXCHANGE "inventory.failed"
               (json_dumps event) with
       | Some _ => []
       | None => [BasicAck (delivery_tag method)]
       end /\
  run_state r = st /\
  insufficient_reason (VStr "burger") (VInt 1) 0 =
    "Insufficient stock for 'burger': requested 1, available 0".
Proof.
  intros Hload Ho Hh Hmem Hitem Hname Hqty Hpos Hinv Hlt r reason event.
  subst r reason event.
  assert (Hpv : passes_validation data q).
  { repeat split; auto.
    - rewrite Hitem. simpl. destruct (String.eqb name EmptyString) eqn:E; auto.
      apply String.eqb_eq in E. contradiction.
    - now rewrite Hqty. }
  rewrite (validated_run ch method body st data q Hload Hpv Hh), Hmem.
  rewrite Hitem, (reserve_known _ _ _ _ _ _ _ _ Hinv).
  destruct (available <? q) eqn:E; [|lia].
  rewrite publish_then_ack_path, publish_then_ack_state, publish_then_ack_trace.
  rewrite Hqty. repeat split.
Qed.

End Outcomes.

(** ** Idempotency *)

Section Idempotency.
Context `{rt : Runtime}.

(** Membership in [processed_orders] is never lost. *)
Lemma deliver_keeps_processed d st x :
  set_mem x (processed_orders st) = true ->
  set_mem x (processed_orders (run_state (deliver d st))) = true.
Proof.
  intros Hx. unfold deliver.
  destruct (run_state_cases (d_channel d) (d_method d) (d_body d) st)
    as [->|(data & name & available & q & _ & _ & _ & _ & _ & _ & _ & ->)]; auto.
  simpl. now apply set_mem_add_mono.
Qed.

Lemma consume_keeps_processed ds : forall st x,
  set_mem x (processed_orders st) = true ->
  set_mem x (processed_orders (consume ds st)) = true.
Proof.
  induction ds as [|d rest IH]; intros st x Hx; simpl; auto.
  apply IH, deliver_keeps_processed, Hx.
Qed.

(** C5.  Business rejections do not mark the order processed.  A
    well-formed event that reaches the stock check (its order_id is not in
    [processed_orders]; the duplicate check comes first) and whose item is
    unknown, or whose qty exceeds the stock of its item, gets one publish of
    a FAILED event and leaves the globals as they were: its order_id is not
    added to [processed_orders], and a later event with the same order_id
    that can be served is reserved, not suppressed. *)
Theorem business_rejection_not_recorded ch method body st data q :
  json_loads body = Loaded (VDict data) ->
  passes_validation data q ->
  hashable (dict_get "order_id" data) = true ->
  set_mem (dict_get "order_id" data) (processed_orders st) = false ->
  hashable (dict_get "item" data) = true ->
  (inventory_lookup (dict_get "item" data) (inventory st) = None \/
   exists name available,
     dict_get "item" data = VStr name /\
     inventory st !! name = Some available /\ available < q) ->
  let r := on_order_placed ch method body st in
  (run_path r = UnknownItem \/ run_path r = InsufficientStock) /\
  (exists reason,
     let payload :=
       json_dumps (VDict [("order_id", dict_get "order_id" data);
                          ("item", dict_get "item" data);
                          ("qty", dict_get "qty" data);
                          ("status", VStr "FAILED");
                          ("reason", VStr reason)]) in
     run_trace r =
       BasicPublish EXCHANGE "inventory.failed" payload 2
       :: match basic_publish_raises ch EXCHANGE "inventory.failed" payload with
          | Some _ => []
          | None => [BasicAck (delivery_tag method)]
          end) /\
  run_state r = st /\
  set_mem (dict_get "order_id" data) (processed_orders (run_state r)) = false /\
  (forall ch' method' body' data' q' name' available',
     json_loads body' = Loaded (VDict data') ->
     dict_get "order_id" data' = dict_get "order_id" data ->
     passes_validation data' q' ->
     dict_get "item" data' = VStr name' ->
     inventory (run_state r) !! name' = Some available' ->
     q' <= available' ->
     run_path (on_order_placed ch' method' body' (run_state r)) = Reserved).
Proof.
  intros Hload Hpv Hh Hmem Hhi Hcase r. subst r.
  rewrite (validated_run ch method body st data q Hload Hpv Hh), Hmem.
  assert (Hlater : forall ch' method' body' data' q' name' available',
     json_loads body' = Loaded (VDict data') ->
     dict_get "order_id" data' = dict_get "order_id" data ->
     passes_validation data' q' ->
     dict_get "item" data' = VStr name' ->
     inventory st !! name' = Some available' ->
     q' <= available' ->
     run_path (on_order_placed ch' method' body' st) = Reserved).
  { intros ch' method' body' data' q' name' available' Hl' Ho' Hpv' Hi' Hinv' Hle'.
    rewrite (validated_run ch' method' body' st data' q' Hl' Hpv'), Ho', Hmem
      by (now rewrite Ho').
    rewrite Hi', (reserve_known _ _ _ _ _ _ _ _ Hinv').
    destruct (available' <? q') eqn:E; [lia|].
    apply publish_then_ack_path. }
  destruct Hcase as [Hnone|(name & available & Hitem & Hinv & Hlt)].
  - rewrite (reserve_unknown _ _ _ _ _ _ _ Hhi Hnone).
    rewrite publish_then_ack_path, publish_then_ack_state, publish_then_ack_trace.
    split; [now left|].
    split; [exists (not_found_reason (dict_get "item" data)); reflexivity|].
    auto.
  - pose proof (reserve_known ch method (dict_get "order_id" data) name
                  (dict_get "qty" data) q st available Hinv) as Hk.
    rewrite <- Hitem in Hk. rewrite Hk.
    destruct (available <? q) eqn:E; [|lia].
    rewrite publish_then_ack_path, publish_then_ack_state, publish_then_ack_trace.
    split; [now right|].
    split; [|auto].
    exists (insufficient_reason (dict_get "item" data) (dict_get "qty" data)
              available).
    reflexivity.
Qed.

(** C1, as amended.  When the first delivery of a valid event is reserved
    (its order_id is not yet processed and the ledger holds at least qty of
    its item), that delivery publishes once and changes the ledger once; a
    second delivery of the same body, directly or after any other
    deliveries, is acknowledged and does nothing else: no publish, no change
    of the ledger or of the processed set.  Over the two deliveries there is
    exactly one ledger mutation and exactly one publish. *)
Theorem reserved_delivery_is_idempotent
  ch1 method1 ch2 method2 body st data oid name q available between :
  json_loads body = Loaded (VDict data) ->
  dict_get "order_id" data = VStr oid -> oid <> EmptyString ->
  dict_get "item" data = VStr name -> name <> EmptyString ->
  dict_get "qty" data = VInt q -> 0 < q ->
  set_mem (VStr oid) (processed_orders st) = false ->
  inventory st !! name = Some available -> q <= available ->
  let d1 := {| d_channel := ch1; d_method := method1; d_body := body |} in
  let d2 := {| d_channel := ch2; d_method := method2; d_body := body |} in
  let r1 := deliver d1 st in
  let st2 := consume between (run_state r1) in
  let r2 := deliver d2 st2 in
  run_path r1 = Reserved /\
  count_publishes (run_trace r1) = 1%nat /\
  inventory (run_state r1) = <[name := available - q]> (inventory st) /\
  run_path r2 = Duplicate /\
  run_trace r2 = [BasicAck (delivery_tag method2)] /\
  run_state r2 = st2 /\
  ledger_mutations [d1; d2] st = 1%nat /\
  count_publishes (consume_trace [d1; d2] st) = 1%nat.
Proof.
  intros Hload Ho Hone Hi Hine Hq Hpos Hmem Hinv Hle d1 d2 r1 st2 r2.
  assert (Hnz : forall s, s <> EmptyString -> negb (String.eqb s EmptyString) = true).
  { intros s Hs. destruct (String.eqb s EmptyString) eqn:E; auto.
    apply String.eqb_eq in E. contradiction. }
  assert (Hpv : passes_validation data q).
  { repeat split; auto.
    - rewrite Ho. simpl. auto.
    - rewrite Hi. simpl. auto.
    - now rewrite Hq. }
  assert (Hh : hashable (dict_get "order_id" data) = true) by now rewrite Ho.
  assert (Hr1 : r1 =
    publish_then_ack ch1 method1 EXCHANGE "inventory.reserved"
      (json_dumps (reserved_event (VStr oid) (VStr name) (VInt q)))
      {| inventory := <[name := available - q]> (inventory st);
         processed_orders := set_add (VStr oid) (processed_orders st) |}
      Reserved).
  { subst r1 d1. unfold deliver. simpl.
    rewrite (validated_run ch1 method1 body st data q Hload Hpv Hh).
    rewrite Ho, Hmem, Hi, Hq, (reserve_known _ _ _ _ _ _ _ _ Hinv).
    destruct (available <? q) eqn:E; [lia|reflexivity]. }
  assert (Hdup : forall st', set_mem (VStr oid) (processed_orders st') = true ->
            deliver d2 st' = ack ch2 method2 st' [] Duplicate).
  { intros st' Hin. subst d2. unfold deliver. simpl.
    rewrite (validated_run ch2 method2 body st' data q Hload Hpv Hh).
    now rewrite Ho, Hin. }
  assert (Hst1 : run_state r1 =
      {| inventory := <[name := available - q]> (inventory st);
         processed_orders := set_add (VStr oid) (processed_orders st) |}).
  { rewrite Hr1. apply publish_then_ack_state. }
  assert (Hin1 : set_mem (VStr oid) (processed_orders (run_state r1)) = true).
  { rewrite Hst1. simpl. apply set_mem_add_str. }
  assert (Hp1 : count_publishes (run_trace r1) = 1%nat).
  { rewrite Hr1, publish_then_ack_trace.
    now destruct (basic_publish_raises ch1 _ _ _). }
  assert (Hr2 : r2 = ack ch2 method2 st2 [] Duplicate).
  { subst r2. apply Hdup. subst st2. now apply consume_keeps_processed. }
  split; [rewrite Hr1; apply publish_then_ack_path|].
  split; [exact Hp1|].
  split; [now rewrite Hst1|].
  split; [now rewrite Hr2|].
  split; [now rewrite Hr2|].
  split; [now rewrite Hr2|].
  split.
  - simpl. fold r1. rewrite (Hdup (run_state r1) Hin1). simpl.
    destruct (decide (inventory (run_state r1) = inventory st)) as [Heq|_].
    + exfalso. rewrite Hst1 in Heq. simpl in Heq.
      assert (Hl : (<[name := available - q]> (inventory st)) !! name
                   = inventory st !! name) by now rewrite Heq.
      rewrite lookup_insert_eq, Hinv in Hl. injection Hl. lia.
    + destruct (decide (inventory (run_state r1) = inventory (run_state r1)));
        [reflexivity|contradiction].
  - simpl. fold r1. rewrite (Hdup (run_state r1) Hin1). simpl.
    unfold count_publishes in *. rewrite List.filter_app, List.length_app, Hp1.
    reflexivity.
Qed.

End Idempotency.

(** ** The front door *)

Section FrontDoor.
Context `{rt : Runtime}.

(** C10. The front door checks presence only.  For a JSON object as request
    body, [POST /order] answers 400 exactly when item is missing or empty or
    qty is absent.  Otherwise, whatever qty is, the order is stored with
    status PLACED and, when the broker calls return, published on
    "order.placed" with that qty and answered with 201 and status PLACED.
    When such a qty is not an [int] above zero for [isinstance(qty, int)],
    the inventory service sends the published event to the dead-letter
    queue with the reason "Invalid qty: <qty> (must be a positive integer)".
    The JSON value [true] is not an integer, yet it is an [int] for
    [isinstance]: an order with qty [true] is not dead-lettered but
    reserved, and takes one unit of its item from the ledger. *)
Theorem front_door_presence_only request uuid br orders :
  let item := dict_get "item" request in
  let qty := dict_get "qty" request in
  let student_id :=
    match dict_lookup "student_id" request with
    | Some v => v
    | None => VStr "unknown"
    end in
  let order := Orders.new_order uuid item qty student_id in
  let wire := json_dumps (VDict order) in
  let r := Orders.place_order (Orders.Json (VDict request)) uuid br orders in
  (Orders.reply_status (Orders.run_reply r) = Some 400 <->
   truthy item = false \/ qty = VNone) /\
  (truthy item = true -> qty <> VNone ->
   (Orders.publish_order_placed br wire).1 = None ->
   Orders.run_reply r =
     Orders.Response
       (VDict [("order_id", VStr uuid); ("status", VStr "PLACED")]) 201 /\
   Orders.run_published r = [(Orders.EXCHANGE, "order.placed", wire)] /\
   Orders.run_orders r !! uuid = Some order /\
   dict_get "qty" order = qty /\
   dict_get "status" order = VStr "PLACED" /\
   (uuid <> EmptyString ->
    json_loads wire = Loaded (VDict order) ->
    (forall q, int_value qty = Some q -> q <= 0) ->
    forall ch method st,
      let r' := on_order_placed ch method wire st in
      let dead :=
        json_dumps (VDict (dict_set "error"
          (VStr ("Invalid qty: " ++ format_value qty
                   ++ " (must be a positive integer)")) order)) in
      run_path r' = InvalidQty /\
      run_trace r' =
        BasicPublish EmptyString "dlq_queue" dead 2
        :: match basic_publish_raises ch EmptyString "dlq_queue" dead with
           | Some _ => []
           | None => [BasicAck (delivery_tag method)]
           end /\
      run_state r' = st) /\
   (uuid <> EmptyString ->
    json_loads wire = Loaded (VDict order) ->
    qty = VBool true ->
    forall ch method st name available,
      item = VStr name ->
      set_mem (VStr uuid) (processed_orders st) = false ->
      inventory st !! name = Some available ->
      1 <= available ->
      let r' := on_order_placed ch method wire st in
      let reserved :=
        json_dumps (reserved_event (VStr uuid) (VStr name) (VBool true)) in
      run_path r' = Reserved /\
      ~ routed_to_dlq r' /\
      run_trace r' =
        BasicPublish EXCHANGE "inventory.reserved" reserved 2
        :: match basic_publish_raises ch EXCHANGE "inventory.reserved" reserved with
           | Some _ => []
           | None => [BasicAck (delivery_tag method)]
           end /\
      inventory (run_state r') = <[name := available - 1]> (inventory st))).
Proof.
  intros item qty student_id order wire r.
  split.
  - subst r. unfold Orders.place_order. fold item qty student_id.
    destruct (truthy item) eqn:Hi; simpl.
    + destruct (is_none qty) eqn:Hq; simpl.
      * apply is_none_true in Hq. tauto.
      * assert (Hq' : qty <> VNone).
        { intros E. apply is_none_true in E. congruence. }
        fold order wire.
        destruct (Orders.publish_order_placed br wire) as [[e|] sent]; simpl.
        -- split; [destruct e; simpl; discriminate|].
           intros [H|H]; [discriminate|contradiction].
        -- split; [discriminate|].
           intros [H|H]; [discriminate|contradiction].
    + tauto.
  - intros Hi Hq Hpub.
    assert (Hq' : is_none qty = false).
    { destruct (is_none qty) eqn:E; auto. apply is_none_true in E. contradiction. }
    assert (Hr : r =
      {| Orders.run_orders := <[uuid := order]> orders;
         Orders.run_published := (Orders.publish_order_placed br wire).2;
         Orders.run_reply :=
           Orders.Response
             (VDict [("order_id", VStr uuid); ("status", VStr "PLACED")]) 201 |}).
    { subst r. unfold Orders.place_order. fold item qty student_id.
      rewrite Hi, Hq'. simpl. fold order wire.
      destruct (Orders.publish_order_placed br wire) as [[e|] sent];
        simpl in *; [discriminate|reflexivity]. }
    assert (Hsent : (Orders.publish_order_placed br wire).2 =
                    [(Orders.EXCHANGE, "order.placed", wire)]).
    { revert Hpub. unfold Orders.publish_order_placed.
      destruct (Orders.get_connection br 3); simpl; [discriminate|].
      destruct (Orders.channel_raises br); simpl; [discriminate|].
      destruct (Orders.setup_channel_raises br); simpl; [discriminate|].
      destruct (Orders.basic_publish_raises br _ _ _); simpl; auto. }
    rewrite Hr. simpl. rewrite Hsent, lookup_insert_eq.
    do 5 (split; [reflexivity|]).
    assert (Hnz : uuid <> EmptyString -> negb (String.eqb uuid EmptyString) = true).
    { intros Hu. destruct (String.eqb uuid EmptyString) eqn:E; auto.
      apply String.eqb_eq in E. contradiction. }
    split.
    + intros Hu Hw Hbad ch method st.
      rewrite (invalid_qty_run ch method wire st order Hw);
        [|simpl; auto|exact Hi|exact Hq|exact Hbad].
      rewrite publish_then_ack_path, publish_then_ack_trace,
        publish_then_ack_state. auto.
    + intros Hu Hw Hqty ch method st name available Hitem Hmem Hinv Hle.
      assert (Hpv : passes_validation order 1).
      { split; [simpl; auto|]. split; [exact Hi|].
        split; [|lia].
        change (int_value qty = Some 1). now rewrite Hqty. }
      rewrite (validated_run ch method wire st order 1 Hw Hpv eq_refl).
      change (dict_get "order_id" order) with (VStr uuid).
      change (dict_get "item" order) with item.
      change (dict_get "qty" order) with qty.
      rewrite Hmem, Hitem, Hqty, (reserve_known _ _ _ _ _ _ _ _ Hinv).
      destruct (available <? 1) eqn:E; [lia|].
      rewrite publish_then_ack_path, publish_then_ack_trace,
        publish_then_ack_state.
      split; [reflexivity|]. split; [|split; reflexivity].
      intros (ex & payload & mode & Hin).
      apply publish_then_ack_in in Hin as [Heq|Heq]; discriminate Heq.
Qed.

End FrontDoor.

(** * The handlers on concrete messages *)

Import Fixture.

Lemma two_burgers_nonneg : ledger_nonneg (inventory two_burgers).
Proof.
  intros name n H. simpl in H.
  apply lookup_singleton_Some in H as [_ <-]. lia.
Qed.

(** The scenario of the specification: two burgers in stock; o1 takes both,
    the redelivery of o1 is only acknowledged, o2 fails for lack of stock;
    then a body that is not JSON and an event with qty 0 are dead-lettered. *)
Example scenario_trace :
  consume_trace
    [delivery 1 o1_body; delivery 2 o1_body; delivery 3 o2_body;
     delivery 4 "{not json";
     delivery 5 (mini_dumps (order_event "o5" "salad" (VInt 0)))]
    two_burgers =
  [ BasicPublish "order_events" "inventory.reserved"
      (mini_dumps (VDict [("order_id", VStr "o1"); ("item", VStr "burger");
                          ("qty", VInt 2); ("status", VStr "RESERVED")])) 2;
    BasicAck 1;
    BasicAck 2;
    BasicPublish "order_events" "inventory.failed"
      (mini_dumps (VDict [("order_id", VStr "o2"); ("item", VStr "burger");
                          ("qty", VInt 1); ("status", VStr "FAILED");
                          ("reason", VStr "Insufficient stock for 'burger': requested 1, available 0")])) 2;
    BasicAck 3;
    BasicPublish EmptyString "dlq_queue" "{not json" 2;
    BasicAck 4;
    BasicPublish EmptyString "dlq_queue"
      (mini_dumps (VDict [("order_id", VStr "o5"); ("item", VStr "salad");
                          ("qty", VInt 0);
                          ("error", VStr "Invalid qty: 0 (must be a positive integer)")])) 2;
    BasicAck 5 ].
Proof. vm_compute. reflexivity. Qed.

Example scenario_state :
  consume [delivery 1 o1_body; delivery 2 o1_body; delivery 3 o2_body] two_burgers
  = sold_out.
Proof. vm_compute. reflexivity. Qed.

(** ** C1 *)

(** An order for 51 pizzas, of which 50 are in stock, is a valid event; its
    two deliveries publish two FAILED events and never change the ledger. *)
Lemma rejected_event_published_twice :
  let d1 := delivery 1 o3_body in
  let d2 := delivery 2 o3_body in
  json_loads o3_body = Loaded (order_event "o3" "pizza" (VInt 51)) /\
  ledger_mutations [d1; d2] initial_state = 0%nat /\
  count_publishes (consume_trace [d1; d2] initial_state) = 2%nat /\
  ~ (ledger_mutations [d1; d2] initial_state = 1%nat /\
     count_publishes (consume_trace [d1; d2] initial_state) = 1%nat).
Proof.
  assert (H : count_publishes
                (consume_trace [delivery 1 o3_body; delivery 2 o3_body]
                   initial_state) = 2%nat) by (vm_compute; reflexivity).
  cbv zeta. split; [vm_compute; reflexivity|].
  split; [vm_compute; reflexivity|].
  split; [exact H|].
  intros [_ H1]. rewrite H in H1. discriminate.
Qed.

Lemma reserved_delivery_is_idempotent_witness :
  let d1 := delivery 1 o1_body in
  let d2 := delivery 2 o1_body in
  let st2 := consume [delivery 3 o2_body] (run_state (deliver d1 two_burgers)) in
  run_path (deliver d1 two_burgers) = Reserved /\
  run_trace (deliver d2 st2) = [BasicAck 2] /\
  run_state (deliver d2 st2) = st2 /\
  ledger_mutations [d1; d2] two_burgers = 1%nat /\
  count_publishes (consume_trace [d1; d2] two_burgers) = 1%nat.
Proof.
  destruct (@reserved_delivery_is_idempotent Fixture.runtime
              healthy_channel {| delivery_tag := 1 |}
              healthy_channel {| delivery_tag := 2 |}
              o1_body two_burgers
              [("order_id", VStr "o1"); ("item", VStr "burger"); ("qty", VInt 2)]
              "o1" "burger" 2 2 [delivery 3 o2_body])
    as (H1 & _ & _ & _ & H5 & H6 & H7 & H8);
    try reflexivity; try discriminate; try lia.
  repeat split; assumption.
Defined.

(** ** C2 *)

Lemma missing_fields_combined_message_witness :
  json_loads bad_body =
    Loaded (VDict [("order_id", VStr "bad-001"); ("student_id", VStr "bad-student")]) /\
  exists missing,
    missing = ["item"; "qty"] /\
    run_trace (on_order_placed healthy_channel {| delivery_tag := 9 |} bad_body
                 initial_state) =
    [BasicPublish EmptyString "dlq_queue"
       (json_dumps (VDict [("order_id", VStr "bad-001");
                           ("student_id", VStr "bad-student");
                           ("error", VStr ("Missing required field(s): "
                                             ++ String.concat ", " missing))])) 2;
     BasicAck 9].
Proof.
  split; [reflexivity|].
  destruct (@missing_fields_combined_message Fixture.runtime
              healthy_channel {| delivery_tag := 9 |} bad_body initial_state
              [("order_id", VStr "bad-001"); ("student_id", VStr "bad-student")])
    as (missing & Hsub & Ho & Hi & Hq & _ & Htr & _);
    [reflexivity | right; left; reflexivity |].
  exists ["item"; "qty"]. split; [reflexivity|].
  assert (Hm : missing = ["item"; "qty"]).
  { assert (Hno : ~ In "order_id" missing) by (rewrite Ho; discriminate).
    assert (Hyi : In "item" missing) by (apply Hi; reflexivity).
    assert (Hyq : In "qty" missing) by (apply Hq; reflexivity).
    clear Ho Hi Hq Htr.
    inversion Hsub as [| |x l1 l2 H1]; subst.
    - exfalso. apply Hno. now left.
    - inversion H1 as [|x l3 l4 H2|x l3 l4 H2]; subst.
      + inversion H2 as [|x l5 l6 H3|x l5 l6 H3]; subst.
        * inversion H3; subst. reflexivity.
        * inversion H3; subst. destruct Hyq as [E|[]]. discriminate.
      + exfalso.
        inversion H2 as [|x l5 l6 H3|x l5 l6 H3]; subst;
          inversion H3; subst; simpl in Hyi; intuition discriminate. }
  rewrite Htr, Hm. reflexivity.
Defined.

(** ** C3 *)

Lemma ledger_never_negative_witness :
  ledger_nonneg (inventory two_burgers) /\
  ledger_nonneg
    (inventory (consume [delivery 1 o1_body; delivery 2 o1_body;
                         delivery 3 o2_body] two_burgers)).
Proof.
  split; [exact two_burgers_nonneg|].
  apply (proj1 (@ledger_never_negative Fixture.runtime two_burgers
                  two_burgers_nonneg)).
Defined.

(** ** C4 *)



(** ** C5 *)

(** The duplicate check comes before the stock check: order o1 has been
    reserved and took the last burgers, and its redelivery is answered as a
    duplicate, not as a rejection for lack of stock. *)
Example redelivery_is_a_duplicate_not_a_rejection :
  let r := on_order_placed healthy_channel {| delivery_tag := 2 |} o1_body sold_out in
  json_loads o1_body = Loaded (order_event "o1" "burger" (VInt 2)) /\
  inventory sold_out !! "burger" = Some 0 /\
  run_trace r = [BasicAck 2] /\
  ~ (exists payload,
       In (BasicPublish EXCHANGE "inventory.failed" payload 2) (run_trace r)).
Proof.
  cbv zeta.
  assert (Htr : run_trace (on_order_placed healthy_channel {| delivery_tag := 2 |}
                             o1_body sold_out) = [BasicAck 2])
    by (vm_compute; reflexivity).
  split; [reflexivity|]. split; [reflexivity|]. split; [exact Htr|].
  rewrite Htr. intros (payload & [H|[]]). discriminate H.
Qed.

Lemma business_rejection_not_recorded_witness :
  let r := on_order_placed healthy_channel {| delivery_tag := 3 |} o2_body sold_out in
  (run_path r = UnknownItem \/ run_path r = InsufficientStock) /\
  run_state r = sold_out /\
  set_mem (VStr "o2") (processed_orders (run_state r)) = false.
Proof.
  destruct (@business_rejection_not_recorded Fixture.runtime healthy_channel
              {| delivery_tag := 3 |} o2_body sold_out
              [("order_id", VStr "o2"); ("item", VStr "burger"); ("qty", VInt 1)] 1)
    as (Hp & _ & Hs & Hm & _).
  - reflexivity.
  - repeat split; try reflexivity.
  - reflexivity.
  - reflexivity.
  - reflexivity.
  - right. exists "burger", 0. repeat split; try reflexivity.
  - repeat split; assumption.
Defined.

(** ** C6 *)

Lemma dead_letter_non_pollution_witness :
  let r := on_order_placed healthy_channel {| delivery_tag := 4 |} "{not json"
             two_burgers in
  routed_to_dlq r /\ run_state r = two_burgers.
Proof.
  cbv zeta.
  assert (Hd : routed_to_dlq (on_order_placed healthy_channel
                 {| delivery_tag := 4 |} "{not json" two_burgers)).
  { exists EmptyString, "{not json", 2. vm_compute. left. reflexivity. }
  split; [exact Hd|].
  apply (@dead_letter_non_pollution Fixture.runtime healthy_channel
           {| delivery_tag := 4 |} "{not json" two_burgers Hd).
Defined.

(** ** C7 *)

Lemma insufficient_stock_outcome_witness :
  run_trace (on_order_placed healthy_channel {| delivery_tag := 3 |} o2_body sold_out) =
  [BasicPublish "order_events" "inventory.failed"
     (json_dumps (VDict [("order_id", VStr "o2"); ("item", VStr "burger");
                         ("qty", VInt 1); ("status", VStr "FAILED");
                         ("reason", VStr "Insufficient stock for 'burger': requested 1, available 0")])) 2;
   BasicAck 3] /\
  run_state (on_order_placed healthy_channel {| delivery_tag := 3 |} o2_body sold_out)
  = sold_out.
Proof.
  destruct (@insufficient_stock_outcome Fixture.runtime healthy_channel
              {| delivery_tag := 3 |} o2_body sold_out
              [("order_id", VStr "o2"); ("item", VStr "burger"); ("qty", VInt 1)]
              "burger" 1 0)
    as (_ & Htr & Hs & _);
    try reflexivity; try discriminate; try lia.
  split; [exact Htr | exact Hs].
Defined.

(** ** C8 *)



(** ** C9 *)

Lemma per_item_frame_witness :
  (Inventory.named_item o1_body <> Some "pizza" /\
   inventory (run_state (on_order_placed healthy_channel {| delivery_tag := 1 |}
                           o1_body initial_state)) !! "pizza" =
   inventory initial_state !! "pizza") /\
  (Kafka.named_item kafka_body <> Some "pizza" /\
   (Kafka.run Kafka.default_config healthy_client fresh kafka_body
      Kafka.initial_stock).1.2 !! "pizza" = Kafka.initial_stock !! "pizza").
Proof.
  destruct (@per_item_frame Fixture.runtime) as [Hrabbit Hkafka].
  assert (H1 : Inventory.named_item o1_body <> Some "pizza")
    by (vm_compute; discriminate).
  assert (H2 : Kafka.named_item kafka_body <> Some "pizza")
    by (vm_compute; discriminate).
  split; split; auto.
Defined.

(** ** C10 *)

(** A request for burgers with qty [true]: accepted with 201, published,
    and then reserved by the inventory callback, which takes one of the 100
    burgers; nothing reaches the dead-letter queue. *)
Lemma front_door_presence_only_witness :
  let request := [("item", VStr "burger"); ("qty", VBool true)] in
  let order :=
    Orders.new_order sample_uuid (VStr "burger") (VBool true) (VStr "unknown") in
  let r := Orders.place_order (Orders.Json (VDict request)) sample_uuid
             healthy_broker ∅ in
  let r' := on_order_placed healthy_channel {| delivery_tag := 1 |}
              (json_dumps (VDict order)) initial_state in
  Orders.run_reply r =
    Orders.Response
      (VDict [("order_id", VStr sample_uuid); ("status", VStr "PLACED")]) 201 /\
  Orders.run_published r =
    [(Orders.EXCHANGE, "order.placed", json_dumps (VDict order))] /\
  run_path r' = Reserved /\
  ~ routed_to_dlq r' /\
  inventory (run_state r') !! "burger" = Some 99.
Proof.
  cbv zeta.
  destruct (@front_door_presence_only Fixture.runtime
              [("item", VStr "burger"); ("qty", VBool true)] sample_uuid
              healthy_broker ∅) as [_ Hacc].
  destruct Hacc as (Hreply & Hpub & _ & _ & _ & _ & Hbool);
    [reflexivity | discriminate | reflexivity |].
  split; [exact Hreply|]. split; [exact Hpub|].
  destruct (Hbool ltac:(discriminate) ltac:(vm_compute; reflexivity) eq_refl
              healthy_channel {| delivery_tag := 1 |} initial_state "burger" 100)
    as (Hpath & Hdlq & _ & Hinv);
    [reflexivity | reflexivity | reflexivity | lia |].
  split; [exact Hpath|]. split; [exact Hdlq|].
  refine (eq_trans (f_equal (fun m : gmap string Z => m !! "burger") Hinv) _).
  apply lookup_insert_eq.
Defined.

(** The same request with qty 0 is accepted too, and dead-lettered. *)
Example zero_qty_is_dead_lettered :
  let order := Orders.new_order sample_uuid (VStr "burger") (VInt 0) (VStr "unknown") in
  Orders.reply_status
    (Orders.run_reply
       (Orders.place_order
          (Orders.Json (VDict [("item", VStr "burger"); ("qty", VInt 0)]))
          sample_uuid healthy_broker ∅)) = Some 201 /\
  run_trace (on_order_placed healthy_channel {| delivery_tag := 1 |}
               (json_dumps (VDict order)) initial_state) =
  [BasicPublish EmptyString "dlq_queue"
     (json_dumps (VDict (dict_set "error"
        (VStr "Invalid qty: 0 (must be a positive integer)") order))) 2;
   BasicAck 1].
Proof. vm_compute. split; reflexivity. Qed.

(** ** Runs that raise before any channel call *)

(** A body that decodes to something other than an object makes
    [data.get] raise: nothing is published and nothing is acknowledged. *)
Example non_object_body_raises :
  let r := on_order_placed healthy_channel {| delivery_tag := 6 |}
             (mini_dumps (VList [])) two_burgers in
  run_exn r = Some AttributeError /\ run_trace r = [] /\ run_state r = two_burgers.
Proof. vm_compute. repeat split. Qed.

(** * Further properties of the inventory callback *)

Section CallbackEdges.
Context `{rt : Runtime}.

(** X1. The callback raises before making any channel call in exactly four
    situations: [json.loads] raises something other than [JSONDecodeError];
    the body decodes to a value that is not an object ([AttributeError]); a
    validated event has an unhashable order_id ([TypeError]); a validated
    event that is not a duplicate has an unhashable item ([TypeError]).  In
    each of them nothing is published, nothing is acknowledged and the
    globals are left as they were. *)
Theorem callback_raises_before_any_call ch method body st :
  let r := on_order_placed ch method body st in
  (forall e, json_loads body = LoadsRaised e -> r = crash e st) /\
  (forall v, json_loads body = Loaded v -> (forall data, v <> VDict data) ->
     r = crash AttributeError st) /\
  (forall data q,
     json_loads body = Loaded (VDict data) -> passes_validation data q ->
     hashable (dict_get "order_id" data) = false ->
     r = crash TypeError st) /\
  (forall data q,
     json_loads body = Loaded (VDict data) -> passes_validation data q ->
     hashable (dict_get "order_id" data) = true ->
     set_mem (dict_get "order_id" data) (processed_orders st) = false ->
     hashable (dict_get "item" data) = false ->
     r = crash TypeError st) /\
  (run_path r = Crashed ->
     run_trace r = [] /\ run_state r = st /\
     ((exists e, json_loads body = LoadsRaised e) \/
      (exists v, json_loads body = Loaded v /\ forall data, v <> VDict data) \/
      (exists data q,
         json_loads body = Loaded (VDict data) /\ passes_validation data q /\
         (hashable (dict_get "order_id" data) = false \/
          (hashable (dict_get "order_id" data) = true /\
           set_mem (dict_get "order_id" data) (processed_orders st) = false /\
           hashable (dict_get "item" data) = false))))).
Proof.
  intros r.
  assert (Hval : forall data q,
     json_loads body = Loaded (VDict data) -> passes_validation data q ->
     r = if negb (hashable (dict_get "order_id" data)) then crash TypeError st
         else if set_mem (dict_get "order_id" data) (processed_orders st)
         then ack ch method st [] Duplicate
         else reserve ch method (dict_get "order_id" data) (dict_get "item" data)
                (dict_get "qty" data) q st).
  { intros data q Hload (Ho & Hi & Hq & Hpos). subst r.
    unfold on_order_placed. rewrite Hload.
    assert (Hm : missing_fields (dict_get "order_id" data) (dict_get "item" data)
                   (dict_get "qty" data) = []).
    { apply missing_fields_nil. repeat split; auto.
      destruct (dict_get "qty" data); simpl in *; congruence. }
    rewrite Hm, Hq. destruct (q <=? 0) eqn:E; [lia|reflexivity]. }
  split; [|split; [|split; [|split]]].
  - intros e Hload. subst r. unfold on_order_placed. now rewrite Hload.
  - intros v Hload Hv. subst r. unfold on_order_placed. rewrite Hload.
    destruct v; try reflexivity. exfalso. eapply Hv. reflexivity.
  - intros data q Hload Hpv Hh. rewrite (Hval data q Hload Hpv), Hh. reflexivity.
  - intros data q Hload Hpv Hh Hmem Hhi.
    rewrite (Hval data q Hload Hpv), Hh, Hmem. simpl.
    unfold reserve. now rewrite Hhi.
  - clear Hval. subst r. unfold on_order_placed.
    destruct (json_loads body) as [v| |e] eqn:Hload.
    + destruct v as [ |b|z|f|s|l|data];
        try (intros _; split; [reflexivity|]; split; [reflexivity|];
             right; left; eexists; split; [reflexivity|discriminate]).
      destruct (missing_fields _ _ _) eqn:Hm;
        [|rewrite publish_then_ack_path; discriminate].
      apply missing_fields_nil in Hm as (Ho & Hi & Hq).
      destruct (int_value (dict_get "qty" data)) as [q|] eqn:Hint;
        [|rewrite publish_then_ack_path; discriminate].
      destruct (q <=? 0) eqn:Hq0; [rewrite publish_then_ack_path; discriminate|].
      assert (Hpv : passes_validation data q) by (repeat split; auto; lia).
      destruct (hashable (dict_get "order_id" data)) eqn:Hh; simpl.
      * destruct (set_mem _ _) eqn:Hmem; [discriminate|].
        unfold reserve.
        destruct (hashable (dict_get "item" data)) eqn:Hhi; simpl.
        -- destruct (inventory_lookup _ _) as [[name available]|].
           ++ destruct (available <? q);
                rewrite publish_then_ack_path; discriminate.
           ++ rewrite publish_then_ack_path. discriminate.
        -- intros _. split; [reflexivity|]. split; [reflexivity|].
           right. right. exists data, q. auto 10.
      * intros _. split; [reflexivity|]. split; [reflexivity|].
        right. right. exists data, q. auto 10.
    + rewrite publish_then_ack_path. discriminate.
    + intros _. split; [reflexivity|]. split; [reflexivity|]. left. eauto.
Qed.

(** X2. Unknown item: a well-formed event that is not a duplicate and whose
    item is a name the ledger does not hold gets one publish on
    "inventory.failed" of the event with status FAILED and the reason
    "Item '<item>' not found in inventory"; the ledger and the processed set
    stay as they were. *)
Theorem unknown_item_outcome ch method body st data name q :
  json_loads body = Loaded (VDict data) ->
  truthy (dict_get "order_id" data) = true ->
  hashable (dict_get "order_id" data) = true ->
  set_mem (dict_get "order_id" data) (processed_orders st) = false ->
  dict_get "item" data = VStr name ->
  name <> EmptyString ->
  dict_get "qty" data = VInt q ->
  0 < q ->
  inventory st !! name = None ->
  let r := on_order_placed ch method body st in
  let event :=
    VDict [("order_id", dict_get "order_id" data); ("item", VStr name);
           ("qty", VInt q); ("status", VStr "FAILED");
           ("reason", VStr ("Item '" ++ name ++ "' not found in inventory"))] in
  run_path r = UnknownItem /\
  run_trace r =
    BasicPublish EXCHANGE "inventory.failed" (json_dumps event) 2
    :: match basic_publish_raises ch EXCHANGE "inventory.failed"
               (json_dumps event) with
       | Some _ => []
       | None => [BasicAck (delivery_tag method)]
       end /\
  run_state r = st.
Proof.
  intros Hload Ho Hh Hmem Hitem Hname Hqty Hpos Hinv r event. subst r event.
  assert (Hpv : passes_validation data q).
  { repeat split; auto.
    - rewrite Hitem. simpl. destruct (String.eqb name EmptyString) eqn:E; auto.
      apply String.eqb_eq in E. contradiction.
    - now rewrite Hqty. }
  rewrite (validated_run ch method body st data q Hload Hpv Hh), Hmem.
  rewrite Hitem, Hqty, reserve_unknown.
  - rewrite publish_then_ack_path, publish_then_ack_state, publish_then_ack_trace.
    repeat split.
  - reflexivity.
  - unfold inventory_lookup. now rewrite Hinv.
Qed.

(** X3. The qty check: for a decoded object with none of the three fields
    missing, the event is dead-lettered as "Invalid qty" exactly when qty is
    not an int (a JSON boolean counts as the int 0 or 1) or is at most zero;
    the dead-letter message is the object with the reason under "error", the
    globals are untouched, and for an integer z the reason reads
    "Invalid qty: z (must be a positive integer)". *)
Theorem qty_check ch method body st data :
  json_loads body = Loaded (VDict data) ->
  truthy (dict_get "order_id" data) = true ->
  truthy (dict_get "item" data) = true ->
  dict_get "qty" data <> VNone ->
  let r := on_order_placed ch method body st in
  let qty := dict_get "qty" data in
  let dead :=
    json_dumps (VDict (dict_set "error" (VStr (invalid_qty_reason qty)) data)) in
  (run_path r = InvalidQty <->
   int_value qty = None \/ exists q, int_value qty = Some q /\ q <= 0) /\
  (run_path r = InvalidQty ->
   run_state r = st /\
   run_trace r =
     BasicPublish EmptyString "dlq_queue" dead 2
     :: match basic_publish_raises ch EmptyString "dlq_queue" dead with
        | Some _ => []
        | None => [BasicAck (delivery_tag method)]
        end) /\
  (forall z, qty = VInt z ->
     invalid_qty_reason qty =
     "Invalid qty: " ++ pretty z ++ " (must be a positive integer)").
Proof.
  intros Hload Ho Hi Hq r qty dead.
  assert (Hinv : (forall q, int_value qty = Some q -> q <= 0) ->
                 r = publish_then_ack ch method EmptyString "dlq_queue" dead st
                       InvalidQty).
  { intros Hbad. subst r. now apply invalid_qty_run. }
  split; [|split].
  - split.
    + intros Hp. destruct (int_value qty) as [q|] eqn:Hint; [|now left].
      right. exists q. split; [reflexivity|].
      destruct (Z_le_gt_dec q 0) as [Hle|Hgt]; [exact Hle|exfalso].
      assert (Hpv : passes_validation data q) by (repeat split; auto; lia).
      clear Hinv. subst r. revert Hp.
      destruct (on_order_placed_handled ch method body st) as
        [e' | Hl | data' missing Hl Hm Hne | data' Hl Hm Hbad | data' q' Hl Hpv'
         | data' q' Hl Hpv' | data' q' name available Hl Hpv'
         | data' q' name available Hl Hpv' ];
        try (rewrite publish_then_ack_path; discriminate); try discriminate.
      intros _. rewrite Hload in Hl. injection Hl as <-.
      specialize (Hbad q Hint). lia.
    + intros Hbad. rewrite Hinv; [apply publish_then_ack_path|].
      intros q Hint. destruct Hbad as [Hn|(q' & Hq' & Hle)]; congruence.
  - intros Hp.
    assert (Hbad : forall q, int_value qty = Some q -> q <= 0).
    { intros q Hint.
      destruct (Z_le_gt_dec q 0) as [Hle|Hgt]; [exact Hle|exfalso].
      clear Hinv. subst r. revert Hp.
      destruct (on_order_placed_handled ch method body st) as
        [e' | Hl | data' missing Hl Hm Hne | data' Hl Hm Hbad | data' q' Hl Hpv'
         | data' q' Hl Hpv' | data' q' name available Hl Hpv'
         | data' q' name available Hl Hpv' ];
        try (rewrite publish_then_ack_path; discriminate); try discriminate.
      intros _. rewrite Hload in Hl. injection Hl as <-.
      specialize (Hbad q Hint). lia. }
    rewrite (Hinv Hbad), publish_then_ack_state, publish_then_ack_trace. auto.
  - intros z Hz. unfold invalid_qty_reason. rewrite Hz. reflexivity.
Qed.

End CallbackEdges.

Section Reservations.
Context `{rt : Runtime}.

(** X4. Successful reservation: a well-formed event that is not a duplicate
    and asks for at most the stock of its item takes exactly qty from that
    item, records the order_id, and then publishes the event with status
    RESERVED (and no reason) on "inventory.reserved".  The two globals are
    changed before the publish: when the publish or the acknowledgement
    raises, the reservation stays. *)
Theorem reserved_outcome ch method body st data oid name q available :
  json_loads body = Loaded (VDict data) ->
  dict_get "order_id" data = VStr oid -> oid <> EmptyString ->
  dict_get "item" data = VStr name -> name <> EmptyString ->
  dict_get "qty" data = VInt q -> 0 < q ->
  set_mem (VStr oid) (processed_orders st) = false ->
  inventory st !! name = Some available -> q <= available ->
  let r := on_order_placed ch method body st in
  let event :=
    VDict [("order_id", VStr oid); ("item", VStr name); ("qty", VInt q);
           ("status", VStr "RESERVED")] in
  run_path r = Reserved /\
  run_trace r =
    BasicPublish EXCHANGE "inventory.reserved" (json_dumps event) 2
    :: match basic_publish_raises ch EXCHANGE "inventory.reserved"
               (json_dumps event) with
       | Some _ => []
       | None => [BasicAck (delivery_tag method)]
       end /\
  run_exn r =
    match basic_publish_raises ch EXCHANGE "inventory.reserved"
            (json_dumps event) with
    | Some e => Some e
    | None => basic_ack_raises ch (delivery_tag method)
    end /\
  inventory (run_state r) = <[name := available - q]> (inventory st) /\
  inventory (run_state r) !! name = Some (available - q) /\
  processed_orders (run_state r) = (processed_orders st ++ [VStr oid])%list /\
  set_mem (VStr oid) (processed_orders (run_state r)) = true.
Proof.
  intros Hload Ho Hone Hi Hine Hq Hpos Hmem Hinv Hle r event. subst r event.
  assert (Hnz : forall s, s <> EmptyString -> negb (String.eqb s EmptyString) = true).
  { intros s Hs. destruct (String.eqb s EmptyString) eqn:E; auto.
    apply String.eqb_eq in E. contradiction. }
  assert (Hpv : passes_validation data q).
  { repeat split; auto.
    - rewrite Ho. simpl. auto.
    - rewrite Hi. simpl. auto.
    - now rewrite Hq. }
  assert (Hh : hashable (dict_get "order_id" data) = true) by now rewrite Ho.
  rewrite (validated_run ch method body st data q Hload Hpv Hh).
  rewrite Ho, Hmem, Hi, Hq, (reserve_known _ _ _ _ _ _ _ _ Hinv).
  destruct (available <? q) eqn:E; [lia|].
  rewrite publish_then_ack_path, publish_then_ack_state, publish_then_ack_trace.
  simpl. rewrite lookup_insert_eq.
  unfold set_add. rewrite Hmem.
  repeat split.
  - unfold publish_then_ack, reserved_event.
    now destruct (basic_publish_raises ch _ _ _).
  - unfold set_mem, py_same. rewrite existsb_app. simpl.
    rewrite String.eqb_refl. now rewrite orb_true_r.
Qed.

(** X5. Deduplication looks at the order_id only: once an order_id is in
    the processed set, then after any further deliveries every event that
    passes validation and carries that order_id, whatever its item and qty
    are, is acknowledged and nothing else: no publish, no change of the
    ledger or of the processed set. *)
Theorem processed_order_id_is_always_suppressed st oid between ch method body data q :
  set_mem (VStr oid) (processed_orders st) = true ->
  json_loads body = Loaded (VDict data) ->
  dict_get "order_id" data = VStr oid ->
  passes_validation data q ->
  let st2 := consume between st in
  let r := on_order_placed ch method body st2 in
  run_path r = Duplicate /\
  run_trace r = [BasicAck (delivery_tag method)] /\
  run_state r = st2.
Proof.
  intros Hmem Hload Ho Hpv st2 r. subst r.
  assert (Hh : hashable (dict_get "order_id" data) = true) by now rewrite Ho.
  rewrite (validated_run ch method body st2 data q Hload Hpv Hh), Ho.
  subst st2. rewrite (consume_keeps_processed between st (VStr oid) Hmem).
  repeat split.
Qed.

Lemma deliver_shape d st :
  dom (inventory (run_state (deliver d st))) = dom (inventory st) /\
  (forall name n, inventory st !! name = Some n ->
     exists n', inventory (run_state (deliver d st)) !! name = Some n' /\ n' <= n) /\
  (length (processed_orders (run_state (deliver d st)))
     <= S (length (processed_orders st)))%nat.
Proof.
  unfold deliver.
  destruct (run_state_cases (d_channel d) (d_method d) (d_body d) st)
    as [->|(data & name & available & q & _ & Hpv & _ & _ & Hinv & Hle & _ & ->)].
  - repeat split; eauto. intros name n Hn. exists n. split; [exact Hn|lia].
  - simpl. destruct Hpv as (_ & _ & _ & Hpos). repeat split.
    + rewrite dom_insert_L.
      assert (Hin : name ∈ dom (inventory st)) by (apply elem_of_dom; eauto).
      apply set_eq. intros k. rewrite elem_of_union, elem_of_singleton.
      split; [intros [->|Hk]; assumption|auto].
    + intros k n Hn. destruct (decide (k = name)) as [->|Hne].
      * rewrite lookup_insert_eq. exists (available - q). split; [reflexivity|].
        rewrite Hinv in Hn. injection Hn as <-. lia.
      * rewrite lookup_insert_ne by congruence. exists n. split; [exact Hn|lia].
    + unfold set_add. destruct (set_mem _ _); [lia|].
      rewrite length_app. simpl. lia.
Qed.

(** X6. What no sequence of deliveries can do to the globals: the set of
    items of the ledger never changes (no item is added or removed), the
    stock of an item never grows, an order_id never leaves the processed
    set, and the processed set grows by at most one entry per delivery. *)
Theorem ledger_shape_is_kept ds : forall st,
  dom (inventory (consume ds st)) = dom (inventory st) /\
  (forall name n, inventory st !! name = Some n ->
     exists n', inventory (consume ds st) !! name = Some n' /\ n' <= n) /\
  (forall x, set_mem x (processed_orders st) = true ->
     set_mem x (processed_orders (consume ds st)) = true) /\
  (length (processed_orders (consume ds st))
     <= length (processed_orders st) + length ds)%nat.
Proof.
  induction ds as [|d rest IH]; intros st; simpl.
  - repeat split; auto; try lia. intros name n Hn. exists n. split; [exact Hn|lia].
  - destruct (IH (run_state (deliver d st))) as (Hdom & Hle & Hmem & Hlen).
    destruct (deliver_shape d st) as (Hdom1 & Hle1 & Hlen1).
    repeat split.
    + now rewrite Hdom.
    + intros name n Hn. destruct (Hle1 name n Hn) as (n1 & Hn1 & Hl1).
      destruct (Hle name n1 Hn1) as (n2 & Hn2 & Hl2).
      exists n2. split; [exact Hn2|lia].
    + intros x Hx. apply Hmem. now apply deliver_keeps_processed.
    + lia.
Qed.

End Reservations.

(** * Further properties of the order service *)

Lemma get_connection_from_result br : forall remaining attempt,
  (exists n,
     (attempt <= n < attempt + remaining)%nat /\
     (forall m, (attempt <= m < n)%nat ->
        Orders.connect br m = Orders.AMQPConnectionError) /\
     ((Orders.connect br n = Orders.Connected /\
       Orders.get_connection_from br attempt remaining = inr tt) \/
      (exists e, Orders.connect br n = Orders.ConnectRaised e /\
                 Orders.get_connection_from br attempt remaining = inl e))) \/
  ((forall m, (attempt <= m < attempt + remaining)%nat ->
      Orders.connect br m = Orders.AMQPConnectionError) /\
   Orders.get_connection_from br attempt remaining = inl SystemExit).
Proof.
  induction remaining as [|r IH]; intros attempt; simpl.
  - right. split; [intros m Hm; lia|reflexivity].
  - destruct (Orders.connect br attempt) eqn:Hc.
    + left. exists attempt. split; [lia|]. split; [intros m Hm; lia|].
      now left.
    + destruct (IH (S attempt)) as [(n & Hn & Hbefore & Hres)|(Hall & Hres)].
      * left. exists n. split; [lia|]. split; [|exact Hres].
        intros m Hm. destruct (decide (m = attempt)) as [->|Hne]; [exact Hc|].
        apply Hbefore. lia.
      * right. split; [|exact Hres].
        intros m Hm. destruct (decide (m = attempt)) as [->|Hne]; [exact Hc|].
        apply Hall. lia.
    + left. exists attempt. split; [lia|]. split; [intros m Hm; lia|].
      right. eauto.
Qed.

(** X7. [get_connection] with bounded retries: the attempts are numbered
    from 1; the outcome is decided by the first attempt among the first
    [retries] that does not fail with [AMQPConnectionError]: the connection
    if that attempt connects, its exception if it raises something else.
    When all [retries] attempts fail with [AMQPConnectionError] (also when
    [retries] is 0) the function ends in [sys.exit(1)]. *)
Theorem get_connection_result br retries :
  (exists n,
     (1 <= n <= retries)%nat /\
     (forall m, (1 <= m < n)%nat ->
        Orders.connect br m = Orders.AMQPConnectionError) /\
     ((Orders.connect br n = Orders.Connected /\
       Orders.get_connection br retries = inr tt) \/
      (exists e, Orders.connect br n = Orders.ConnectRaised e /\
                 Orders.get_connection br retries = inl e))) \/
  ((forall m, (1 <= m <= retries)%nat ->
      Orders.connect br m = Orders.AMQPConnectionError) /\
   Orders.get_connection br retries = inl SystemExit).
Proof.
  unfold Orders.get_connection.
  destruct (get_connection_from_result br retries 1)
    as [(n & Hn & Hbefore & Hres)|(Hall & Hres)].
  - left. exists n. split; [lia|]. split; [|exact Hres].
    intros m Hm. apply Hbefore. lia.
  - right. split; [|exact Hres]. intros m Hm. apply Hall. lia.
Qed.

Example third_attempt_connects :
  Orders.get_connection Samples.third_time_lucky 3 = inr tt /\
  Orders.get_connection Samples.third_time_lucky 2 = inl SystemExit /\
  Orders.get_connection Fixture.healthy_broker 0 = inl SystemExit.
Proof. repeat split. Qed.

Section FrontDoorFailures.
Context `{rt : Runtime}.

(** The record stored by [place_order] for an accepted request. *)
Lemma place_order_accepted request uuid br orders :
  truthy (dict_get "item" request) = true ->
  dict_get "qty" request <> VNone ->
  let order :=
    Orders.new_order uuid (dict_get "item" request) (dict_get "qty" request)
      match dict_lookup "student_id" request with
      | Some v => v
      | None => VStr "unknown"
      end in
  Orders.place_order (Orders.Json (VDict request)) uuid br orders =
  match Orders.publish_order_placed br (json_dumps (VDict order)) with
  | (None, sent) =>
      {| Orders.run_orders := <[uuid := order]> orders;
         Orders.run_published := sent;
         Orders.run_reply :=
           Orders.Response
             (VDict [("order_id", VStr uuid); ("status", VStr "PLACED")]) 201 |}
  | (Some SystemExit, sent) =>
      {| Orders.run_orders := <[uuid := order]> orders;
         Orders.run_published := sent;
         Orders.run_reply := Orders.Raised SystemExit |}
  | (Some e, sent) =>
      {| Orders.run_orders :=
           <[uuid := dict_set "status" (VStr "PUBLISH_FAILED") order]>
             (<[uuid := order]> orders);
         Orders.run_published := sent;
         Orders.run_reply :=
           Orders.Response
             (VDict [("order_id", VStr uuid); ("status", VStr "PUBLISH_FAILED");
                     ("error", VStr (exn_str e))]) 500 |}
  end.
Proof.
  intros Hi Hq order. unfold Orders.place_order.
  assert (Hq' : is_none (dict_get "qty" request) = false).
  { destruct (is_none _) eqn:E; auto. apply is_none_true in E. contradiction. }
  rewrite Hi, Hq'. reflexivity.
Qed.

(** X8. Broker unreachable at the front door: when the three connection
    attempts of [place_order] all fail with [AMQPConnectionError],
    [get_connection] calls [sys.exit(1)]; [SystemExit] is not an
    [Exception], so the [except] clause does not run: the request gets no
    500 reply, nothing is published, and the order stays in the store with
    status PLACED. *)
Theorem unreachable_broker_exits request uuid br orders :
  truthy (dict_get "item" request) = true ->
  dict_get "qty" request <> VNone ->
  (forall m, (1 <= m <= 3)%nat -> Orders.connect br m = Orders.AMQPConnectionError) ->
  let r := Orders.place_order (Orders.Json (VDict request)) uuid br orders in
  Orders.run_reply r = Orders.Raised SystemExit /\
  Orders.run_published r = [] /\
  OrderStatus.stored_status uuid (Orders.run_orders r) = Some (VStr "PLACED").
Proof.
  intros Hi Hq Hdown r. subst r.
  rewrite (place_order_accepted request uuid br orders Hi Hq).
  unfold Orders.publish_order_placed, Orders.get_connection. simpl.
  rewrite (Hdown 1%nat), (Hdown 2%nat), (Hdown 3%nat) by lia. simpl.
  unfold OrderStatus.stored_status. rewrite lookup_insert_eq. repeat split.
Qed.

(** X9. Publish failure at the front door: when a call of the [try] block
    raises an [Exception], the reply is 500 with status PUBLISH_FAILED and
    the text of the exception, and the stored record is the order with
    status PUBLISH_FAILED.  This is also what happens when only
    [conn.close()] raises: the OrderPlaced message has been published
    although the order is reported and stored as PUBLISH_FAILED. *)
Theorem publish_failure_is_recorded request uuid br orders e :
  truthy (dict_get "item" request) = true ->
  dict_get "qty" request <> VNone ->
  e <> SystemExit ->
  let order :=
    Orders.new_order uuid (dict_get "item" request) (dict_get "qty" request)
      match dict_lookup "student_id" request with
      | Some v => v
      | None => VStr "unknown"
      end in
  let wire := json_dumps (VDict order) in
  let r := Orders.place_order (Orders.Json (VDict request)) uuid br orders in
  ((Orders.publish_order_placed br wire).1 = Some e ->
   Orders.run_reply r =
     Orders.Response
       (VDict [("order_id", VStr uuid); ("status", VStr "PUBLISH_FAILED");
               ("error", VStr (exn_str e))]) 500 /\
   OrderStatus.stored_status uuid (Orders.run_orders r)
     = Some (VStr "PUBLISH_FAILED") /\
   OrderStatus.get_order uuid (Orders.run_orders r) =
     Orders.Response
       (VDict [("order_id", VStr uuid); ("item", dict_get "item" request);
               ("qty", dict_get "qty" request);
               ("student_id", match dict_lookup "student_id" request with
                              | Some v => v
                              | None => VStr "unknown"
                              end);
               ("status", VStr "PUBLISH_FAILED")]) 200) /\
  (Orders.connect br 1 = Orders.Connected ->
   Orders.channel_raises br = None ->
   Orders.setup_channel_raises br = None ->
   Orders.basic_publish_raises br Orders.EXCHANGE "order.placed" wire = None ->
   Orders.close_raises br = Some e ->
   Orders.run_published r = [(Orders.EXCHANGE, "order.placed", wire)] /\
   Orders.reply_status (Orders.run_reply r) = Some 500).
Proof.
  intros Hi Hq He order wire r. subst r.
  rewrite (place_order_accepted request uuid br orders Hi Hq).
  fold order wire. split.
  - intros Hpub.
    destruct (Orders.publish_order_placed br wire) as [[e'|] sent];
      simpl in Hpub; [|discriminate].
    injection Hpub as ->.
    unfold OrderStatus.stored_status, OrderStatus.get_order.
    destruct e; try contradiction; simpl; rewrite lookup_insert_eq;
      repeat split.
  - intros Hc Hch Hs Hp Hcl.
    unfold Orders.publish_order_placed, Orders.get_connection. simpl.
    rewrite Hc, Hch, Hs, Hp, Hcl.
    destruct e; try contradiction; simpl; repeat split.
Qed.

(** X10. Frame of the front door: [place_order] touches no stored order but
    the one under the new id; it publishes at most one message, always to
    the exchange "order_events" with routing key "order.placed"; and a
    request that is rejected (body not JSON, not an object, item missing or
    empty, qty absent) leaves the store as it was and publishes nothing. *)
Theorem place_order_frame req uuid br orders :
  let r := Orders.place_order req uuid br orders in
  (forall k, k <> uuid -> Orders.run_orders r !! k = orders !! k) /\
  (Orders.run_published r = [] \/
   exists wire, Orders.run_published r = [(Orders.EXCHANGE, "order.placed", wire)]) /\
  ((forall request, req = Orders.Json (VDict request) ->
      truthy (dict_get "item" request) = false \/ dict_get "qty" request = VNone) ->
   Orders.run_orders r = orders /\ Orders.run_published r = []).
Proof.
  intros r. subst r.
  destruct req as [v|]; [|solve [simpl; repeat split; auto]].
  destruct v as [ |b|z|f|s|l|request]; try solve [simpl; repeat split; auto].
  destruct (truthy (dict_get "item" request)) eqn:Hi;
    [destruct (is_none (dict_get "qty" request)) eqn:Hq|].
  - unfold Orders.place_order. rewrite Hi, Hq. simpl. repeat split; auto.
  - assert (Hq' : dict_get "qty" request <> VNone).
    { intros E. apply is_none_true in E. congruence. }
    rewrite (place_order_accepted request uuid br orders Hi Hq').
    assert (Hsent :
      (Orders.publish_order_placed br
         (json_dumps (VDict (Orders.new_order uuid (dict_get "item" request)
            (dict_get "qty" request)
            match dict_lookup "student_id" request with
            | Some v => v
            | None => VStr "unknown"
            end)))).2 = [] \/
      exists wire,
        (Orders.publish_order_placed br
           (json_dumps (VDict (Orders.new_order uuid (dict_get "item" request)
              (dict_get "qty" request)
              match dict_lookup "student_id" request with
              | Some v => v
              | None => VStr "unknown"
              end)))).2 = [(Orders.EXCHANGE, "order.placed", wire)]).
    { unfold Orders.publish_order_placed.
      destruct (Orders.get_connection br 3); simpl; auto.
      destruct (Orders.channel_raises br); simpl; auto.
      destruct (Orders.setup_channel_raises br); simpl; auto.
      destruct (Orders.basic_publish_raises br _ _ _); simpl; eauto. }
    destruct (Orders.publish_order_placed br _) as [[e|] sent]; simpl in Hsent.
    + destruct e; simpl; (split; [|split]); auto;
        try (intros k Hk; rewrite !lookup_insert_ne by congruence; reflexivity);
        intros Hrej; destruct (Hrej request eq_refl); congruence.
    + simpl. (split; [|split]); auto.
      * intros k Hk. rewrite lookup_insert_ne by congruence. reflexivity.
      * intros Hrej. destruct (Hrej request eq_refl); congruence.
  - unfold Orders.place_order. rewrite Hi. simpl. repeat split; auto.
Qed.

End FrontDoorFailures.

(** ** Status updates *)

Lemma py_eq_str v s : py_eq v (VStr s) = true <-> v = VStr s.
Proof.
  destruct v as [ |b|z|f|s'|l|d]; simpl; split; intros H; try discriminate.
  - apply String.eqb_eq in H. now subst.
  - injection H as ->. apply String.eqb_refl.
Qed.

Lemma dict_set_set k v1 v2 d :
  dict_set k v2 (dict_set k v1 d) = dict_set k v2 d.
Proof.
  induction d as [|[k' v'] rest IH]; simpl.
  - now rewrite String.eqb_refl.
  - destruct (String.eqb k k') eqn:E; simpl; rewrite E; [reflexivity|].
    now rewrite IH.
Qed.

Lemma dict_get_set_eq k v d : dict_get k (dict_set k v d) = v.
Proof. unfold dict_get. now rewrite dict_lookup_set_eq. Qed.

Section StatusUpdates.
Context `{rt : Runtime}.

Lemma update_status_known body orders data oid order :
  json_loads body = Loaded (VDict data) ->
  dict_get "order_id" data = VStr oid ->
  orders !! oid = Some order ->
  OrderStatus.update_status body orders =
  (<[oid := dict_set "status"
              (VStr (OrderStatus.new_status
                       match dict_lookup "status" data with
                       | Some v => v
                       | None => VStr "UNKNOWN"
                       end)) order]> orders,
   None).
Proof.
  intros Hload Ho Hk. unfold OrderStatus.update_status.
  rewrite Hload, Ho. simpl. now rewrite Hk.
Qed.

(** The store after the [try] block: unchanged, or one existing record with
    its status replaced. *)
Lemma update_status_cases body orders :
  (OrderStatus.update_status body orders).1 = orders \/
  exists oid order s,
    orders !! oid = Some order /\
    (OrderStatus.update_status body orders).1 =
      <[oid := dict_set "status" (VStr s) order]> orders.
Proof.
  unfold OrderStatus.update_status.
  destruct (json_loads body) as [v| |e]; try (now left).
  destruct v as [ |b|z|f|s|l|data]; try (now left).
  destruct (negb (hashable (dict_get "order_id" data))); [now left|].
  destruct (dict_get "order_id" data) as [ |b|z|f|oid|l|d]; try (now left).
  destruct (orders !! oid) as [order|] eqn:Hk; [|now left].
  right. simpl. eauto.
Qed.

(** X11. Every status message is acknowledged, exactly once and whatever
    its body is: the only channel call of [on_status] is the
    acknowledgement, and a body that cannot be decoded, is not an object or
    names an unhashable order_id does not make the callback raise (the
    callback raises only if the acknowledgement itself raises, or for
    [SystemExit]). *)
Theorem status_message_always_acknowledged ch method body orders :
  let r := OrderStatus.on_status ch method body orders in
  OrderStatus.run_trace r = [BasicAck (delivery_tag method)] /\
  (basic_ack_raises ch (delivery_tag method) = None ->
   json_loads body <> LoadsRaised SystemExit ->
   OrderStatus.run_exn r = None) /\
  (forall e, basic_ack_raises ch (delivery_tag method) = Some e ->
     OrderStatus.run_exn r = Some e).
Proof.
  intros r. subst r. unfold OrderStatus.on_status.
  destruct (OrderStatus.update_status body orders) as [orders1 raised] eqn:Hu.
  simpl. split; [reflexivity|]. split.
  - intros Hack Hload. rewrite Hack.
    destruct raised as [e|]; [|reflexivity].
    destruct (Kafka.is_Exception e) eqn:He; [reflexivity|].
    destruct e; try discriminate He.
    exfalso. apply Hload. revert Hu. unfold OrderStatus.update_status.
    destruct (json_loads body) as [v| |e']; try discriminate.
    + destruct v as [ |b|z|f|s|l|data]; try discriminate.
      destruct (negb (hashable (dict_get "order_id" data))); [discriminate|].
      destruct (dict_get "order_id" data) as [ |b|z|f|oid|l|d]; try discriminate.
      destruct (orders !! oid); discriminate.
    + intros [= _ ->]. reflexivity.
  - intros e Hack. now rewrite Hack.
Qed.

(** X12. The status transition: an event whose order_id names a stored
    order sets the status of that order to CONFIRMED when the status of the
    event is "RESERVED", and to FAILED for every other status, also when the
    event has none; the current status of the order plays no part and all
    other fields of the record are kept. *)
Theorem status_transition ch method body orders data oid order :
  json_loads body = Loaded (VDict data) ->
  dict_get "order_id" data = VStr oid ->
  orders !! oid = Some order ->
  let r := OrderStatus.on_status ch method body orders in
  exists s,
    OrderStatus.run_orders r = <[oid := dict_set "status" (VStr s) order]> orders /\
    OrderStatus.stored_status oid (OrderStatus.run_orders r) = Some (VStr s) /\
    (dict_lookup "status" data = Some (VStr "RESERVED") -> s = "CONFIRMED") /\
    (dict_lookup "status" data = None -> s = "FAILED") /\
    (forall v, dict_lookup "status" data = Some v -> v <> VStr "RESERVED" ->
       s = "FAILED") /\
    (forall k, k <> "status" ->
       dict_lookup k (dict_set "status" (VStr s) order) = dict_lookup k order).
Proof.
  intros Hload Ho Hk r. subst r. unfold OrderStatus.on_status.
  rewrite (update_status_known body orders data oid order Hload Ho Hk).
  eexists. simpl. split; [reflexivity|]. split; [|split; [|split; [|split]]].
  - unfold OrderStatus.stored_status. rewrite lookup_insert_eq.
    now rewrite dict_get_set_eq.
  - intros ->. reflexivity.
  - intros ->. reflexivity.
  - intros v -> Hv. unfold OrderStatus.new_status.
    destruct (py_eq v (VStr "RESERVED")) eqn:E; [|reflexivity].
    apply py_eq_str in E. contradiction.
  - intros k Hne. now apply dict_lookup_set_ne.
Qed.

(** X13. Frame of the status consumer: whatever the body is, [on_status]
    never adds or removes an order, and every stored record keeps all its
    fields other than "status". *)
Theorem status_update_frame ch method body orders :
  let r := OrderStatus.on_status ch method body orders in
  dom (OrderStatus.run_orders r) = dom orders /\
  (forall k order, orders !! k = Some order ->
     exists order',
       OrderStatus.run_orders r !! k = Some order' /\
       forall f, f <> "status" -> dict_lookup f order' = dict_lookup f order).
Proof.
  intros r. subst r. unfold OrderStatus.on_status.
  destruct (update_status_cases body orders) as [Hsame|(oid & order0 & s & Hk & Hupd)];
    destruct (OrderStatus.update_status body orders) as [orders1 raised];
    simpl in *; subst orders1.
  - split; [reflexivity|]. intros k order Hl. eauto.
  - split.
    + rewrite dom_insert_L.
      assert (Hin : oid ∈ dom orders) by (apply elem_of_dom; eauto).
      apply set_eq. intros k. rewrite elem_of_union, elem_of_singleton.
      split; [intros [->|Hx]; assumption|auto].
    + intros k order Hl. destruct (decide (k = oid)) as [->|Hne].
      * rewrite lookup_insert_eq. rewrite Hk in Hl. injection Hl as <-.
        eexists. split; [reflexivity|].
        intros f Hf. now apply dict_lookup_set_ne.
      * rewrite lookup_insert_ne by congruence. eauto.
Qed.

(** X14. The last status event wins: after two events for the same stored
    order, the record is what the second event alone would have made of it.
    So a FAILED event that follows a RESERVED one turns a CONFIRMED order
    into a FAILED one. *)
Theorem last_status_event_wins ch1 method1 body1 ch2 method2 body2
  orders data1 data2 oid order :
  json_loads body1 = Loaded (VDict data1) ->
  json_loads body2 = Loaded (VDict data2) ->
  dict_get "order_id" data1 = VStr oid ->
  dict_get "order_id" data2 = VStr oid ->
  orders !! oid = Some order ->
  let after1 := OrderStatus.run_orders (OrderStatus.on_status ch1 method1 body1 orders) in
  OrderStatus.run_orders (OrderStatus.on_status ch2 method2 body2 after1) =
  OrderStatus.run_orders (OrderStatus.on_status ch2 method2 body2 orders) /\
  (dict_lookup "status" data1 = Some (VStr "RESERVED") ->
   dict_lookup "status" data2 = Some (VStr "FAILED") ->
   OrderStatus.stored_status oid after1 = Some (VStr "CONFIRMED") /\
   OrderStatus.stored_status oid
     (OrderStatus.run_orders (OrderStatus.on_status ch2 method2 body2 after1))
   = Some (VStr "FAILED")).
Proof.
  intros Hl1 Hl2 Ho1 Ho2 Hk after1. subst after1.
  unfold OrderStatus.on_status.
  rewrite (update_status_known body1 orders data1 oid order Hl1 Ho1 Hk). simpl.
  rewrite (update_status_known body2 orders data2 oid order Hl2 Ho2 Hk). simpl.
  erewrite (update_status_known body2 _ data2 oid _ Hl2 Ho2)
    by apply lookup_insert_eq.
  simpl. rewrite insert_insert_eq, dict_set_set. split; [reflexivity|].
  intros -> ->. unfold OrderStatus.stored_status.
  rewrite !lookup_insert_eq, !dict_get_set_eq. split; reflexivity.
Qed.

End StatusUpdates.

(** ** From the front door to the stored status *)

Section EndToEnd.
Context `{rt : Runtime}.

(** X15. An order through the three handlers.  A request for [q] units of a
    stocked item is accepted by [place_order]; when the inventory callback
    receives the published OrderPlaced message it publishes a RESERVED event
    if the ledger holds at least [q] and a FAILED event (insufficient stock)
    otherwise; when [on_status] receives that event, the stored order has
    status CONFIRMED in the first case and FAILED in the second, with all
    other fields as placed, and [GET /order/<id>] returns that record. *)
Theorem order_ends_confirmed_or_failed
  request uuid br orders name q st available ch method ch' method' :
  dict_get "item" request = VStr name -> name <> EmptyString ->
  dict_get "qty" request = VInt q -> 0 < q ->
  uuid <> EmptyString ->
  let order :=
    Orders.new_order uuid (VStr name) (VInt q)
      match dict_lookup "student_id" request with
      | Some v => v
      | None => VStr "unknown"
      end in
  let wire := json_dumps (VDict order) in
  let event :=
    if q <=? available
    then reserved_event (VStr uuid) (VStr name) (VInt q)
    else failed_event (VStr uuid) (VStr name) (VInt q)
           (insufficient_reason (VStr name) (VInt q) available) in
  let verdict := if q <=? available then "CONFIRMED" else "FAILED" in
  (Orders.publish_order_placed br wire).1 = None ->
  json_loads wire = Loaded (VDict order) ->
  json_loads (json_dumps event) = Loaded event ->
  set_mem (VStr uuid) (processed_orders st) = false ->
  inventory st !! name = Some available ->
  let placed := Orders.place_order (Orders.Json (VDict request)) uuid br orders in
  let handled := on_order_placed ch method wire st in
  let final :=
    OrderStatus.run_orders
      (OrderStatus.on_status ch' method' (json_dumps event)
         (Orders.run_orders placed)) in
  Orders.run_published placed = [(Orders.EXCHANGE, "order.placed", wire)] /\
  (exists rest,
     run_trace handled =
       BasicPublish EXCHANGE
         (if q <=? available then "inventory.reserved" else "inventory.failed")
         (json_dumps event) 2 :: rest) /\
  OrderStatus.stored_status uuid final = Some (VStr verdict) /\
  OrderStatus.get_order uuid final =
    Orders.Response (VDict (dict_set "status" (VStr verdict) order)) 200.
Proof.
  intros Hi Hname Hq Hpos Hu order wire event verdict Hpub Hwire Hevent Hmem Hinv
    placed handled final.
  assert (Hti : truthy (dict_get "item" request) = true).
  { rewrite Hi. simpl. destruct (String.eqb name EmptyString) eqn:E; auto.
    apply String.eqb_eq in E. contradiction. }
  assert (Hqn : dict_get "qty" request <> VNone) by (rewrite Hq; discriminate).
  assert (Hplaced : Orders.run_orders placed = <[uuid := order]> orders /\
                    Orders.run_published placed = [(Orders.EXCHANGE, "order.placed", wire)]).
  { subst placed. rewrite (place_order_accepted request uuid br orders Hti Hqn).
    rewrite Hi, Hq. fold order wire.
    assert (Hsent : (Orders.publish_order_placed br wire).2 =
                    [(Orders.EXCHANGE, "order.placed", wire)]).
    { revert Hpub. unfold Orders.publish_order_placed.
      destruct (Orders.get_connection br 3); simpl; [discriminate|].
      destruct (Orders.channel_raises br); simpl; [discriminate|].
      destruct (Orders.setup_channel_raises br); simpl; [discriminate|].
      destruct (Orders.basic_publish_raises br _ _ _); simpl; auto. }
    destruct (Orders.publish_order_placed br wire) as [[e|] sent];
      simpl in *; [discriminate|]. now subst sent. }
  destruct Hplaced as [Hstore Hsent].
  split; [exact Hsent|]. split.
  - subst handled.
    assert (Hpv : passes_validation order q).
    { repeat split; auto; simpl.
      destruct (String.eqb uuid EmptyString) eqn:E; auto.
      apply String.eqb_eq in E. contradiction.
      destruct (String.eqb name EmptyString) eqn:E; auto.
      apply String.eqb_eq in E. contradiction. }
    rewrite (validated_run ch method wire st order q Hwire Hpv eq_refl).
    change (dict_get "order_id" order) with (VStr uuid).
    change (dict_get "item" order) with (VStr name).
    change (dict_get "qty" order) with (VInt q).
    rewrite Hmem, (reserve_known _ _ _ _ _ _ _ _ Hinv).
    subst event. rewrite Z.ltb_antisym.
    destruct (q <=? available); simpl; rewrite publish_then_ack_trace; eauto.
  - assert (Hfinal : final = <[uuid := dict_set "status" (VStr verdict) order]>
                               (<[uuid := order]> orders)).
    { subst final. unfold OrderStatus.on_status.
      assert (Hev : exists data,
                event = VDict data /\ dict_get "order_id" data = VStr uuid /\
                OrderStatus.new_status
                  match dict_lookup "status" data with
                  | Some v => v
                  | None => VStr "UNKNOWN"
                  end = verdict).
      { subst event verdict. destruct (q <=? available); eexists;
          (split; [reflexivity|split; reflexivity]). }
      destruct Hev as (data & Hdata & Hoid & Hnew).
      rewrite Hdata in Hevent. rewrite Hdata.
      erewrite (update_status_known (json_dumps (VDict data)) _ data uuid order
                  Hevent Hoid)
        by (rewrite Hstore; apply lookup_insert_eq).
      simpl. now rewrite Hnew, Hstore. }
    rewrite Hfinal. unfold OrderStatus.stored_status, OrderStatus.get_order.
    rewrite lookup_insert_eq, dict_get_set_eq. split; [reflexivity|].
    destruct (q <=? available); reflexivity.
Qed.

(** X16. A placed order can be queried: after [POST /order] accepted a
    request, whatever the broker did, [GET /order/<id>] for the new id
    answers 200 with a record that carries the id, the item and the qty of
    the request and the status PLACED or PUBLISH_FAILED (PLACED exactly when
    no [Exception] left the publishing block); a query for an id that is not
    in the store answers 404, and queries for other ids answer as before the
    POST. *)
Theorem placed_order_can_be_queried request uuid br orders :
  truthy (dict_get "item" request) = true ->
  dict_get "qty" request <> VNone ->
  let student_id :=
    match dict_lookup "student_id" request with
    | Some v => v
    | None => VStr "unknown"
    end in
  let order :=
    Orders.new_order uuid (dict_get "item" request) (dict_get "qty" request)
      student_id in
  let r := Orders.place_order (Orders.Json (VDict request)) uuid br orders in
  let failed_publish :=
    match (Orders.publish_order_placed br (json_dumps (VDict order))).1 with
    | Some SystemExit | None => false
    | Some _ => true
    end in
  OrderStatus.get_order uuid (Orders.run_orders r) =
    Orders.Response
      (VDict [("order_id", VStr uuid); ("item", dict_get "item" request);
              ("qty", dict_get "qty" request); ("student_id", student_id);
              ("status",
               VStr (if failed_publish then "PUBLISH_FAILED" else "PLACED"))])
      200 /\
  (forall other, other <> uuid ->
     OrderStatus.get_order other (Orders.run_orders r) =
     OrderStatus.get_order other orders) /\
  (forall other, orders !! other = None ->
     OrderStatus.get_order other orders =
     Orders.Response (VDict [("error", VStr "Order not found")]) 404).
Proof.
  intros Hi Hq student_id order r failed_publish. subst r failed_publish.
  rewrite (place_order_accepted request uuid br orders Hi Hq).
  fold student_id order.
  split; [|split].
  - destruct (Orders.publish_order_placed br _) as [[e|] sent]; simpl.
    + destruct e; simpl; unfold OrderStatus.get_order;
        rewrite lookup_insert_eq; reflexivity.
    + unfold OrderStatus.get_order. rewrite lookup_insert_eq. reflexivity.
  - intros other Hne. unfold OrderStatus.get_order.
    destruct (Orders.publish_order_placed br _) as [[e|] sent]; simpl.
    + destruct e; simpl; rewrite !lookup_insert_ne by congruence; reflexivity.
    + rewrite lookup_insert_ne by congruence. reflexivity.
  - intros other Hnone. unfold OrderStatus.get_order. now rewrite Hnone.
Qed.

End EndToEnd.

(** * Further properties of the Kafka inventory consumer *)

Section KafkaDecisions.
Context `{rt : Runtime}.

(** The reserve logic on a readable OrderPlaced event. *)
Lemma reserve_logic_order_placed fr raw stock tr event oid name q :
  json_loads_utf8 raw = Loaded (VDict event) ->
  KafkaLoop.order_placed event oid name q ->
  Kafka.reserve_logic fr raw stock tr =
  if q <=? default 0 (stock !! name) then
    match stock !! name with
    | Some n =>
        (inr (oid, Kafka.reserved_out fr oid (VStr name) q),
         <[name := n - q]> stock, tr)
    | None => (inl KeyError, stock, tr)
    end
  else (inr (oid, Kafka.failed_out fr oid (VStr name) q), stock, tr).
Proof.
  intros Hload (Het & Ho & Hi & qty_field & Hq & Hint).
  unfold Kafka.reserve_logic, Kafka.loads. rewrite Hload.
  unfold mbind, Kafka.M_bind, mret, Kafka.M_ret, Kafka.event_get,
    Kafka.event_item, Kafka.int_of, Kafka.stock_get, Kafka.stock_decrement,
    Kafka.get_stock, Kafka.put_stock, Kafka.raise.
  rewrite Het. simpl. rewrite Ho. simpl. rewrite Hi. simpl. rewrite Hq. simpl.
  rewrite Hint. simpl.
  destruct (q <=? default 0 (stock !! name)); [|reflexivity].
  unfold mbind, Kafka.M_bind. simpl.
  destruct (stock !! name); reflexivity.
Qed.

(** The reserve logic makes no client call; when it raises, the stock is as
    before; when it changes the stock, it replaces the quantity [n] of one
    item by [n - q] for some [q] that is at most [n]. *)
Lemma reserve_logic_bound fr raw stock tr :
  exists res stock1,
    Kafka.reserve_logic fr raw stock tr = (res, stock1, tr) /\
    (stock1 = stock \/
     exists name n q,
       stock !! name = Some n /\ q <= n /\ stock1 = <[name := n - q]> stock /\
       exists out, res = inr out) /\
    (forall e, res = inl e -> stock1 = stock) /\
    (forall e, res = inl e -> Kafka.is_Exception e = false ->
       json_loads_utf8 raw = LoadsRaised e \/ exists v, py_int v = inl e).
Proof.
  unfold Kafka.reserve_logic, Kafka.loads.
  destruct (json_loads_utf8 raw) as [event| |e] eqn:Hl; simpl;
    try (do 2 eexists; split; [reflexivity|]; split; [now left|];
         split; [reflexivity|]; intros e0 [= <-] He; try discriminate He; auto).
  destruct event as [ |b|z|f|s|l|d]; simpl;
    try (do 2 eexists; split; [reflexivity|]; split; [now left|];
         split; [reflexivity|]; intros e0 [= <-] He; discriminate He).
  unfold mbind, Kafka.M_bind, mret, Kafka.M_ret, Kafka.raise; simpl.
  destruct (negb _); simpl;
    try (do 2 eexists; split; [reflexivity|]; split; [now left|];
         split; [reflexivity|]; intros e0 [= <-] He; discriminate He).
  destruct (dict_lookup "order_id" d) as [order_id|]; simpl;
    try (do 2 eexists; split; [reflexivity|]; split; [now left|];
         split; [reflexivity|]; intros e0 [= <-] He; discriminate He).
  destruct (dict_lookup "item_id" d) as [item_id|]; simpl;
    try (do 2 eexists; split; [reflexivity|]; split; [now left|];
         split; [reflexivity|]; intros e0 [= <-] He; discriminate He).
  destruct (dict_lookup "qty" d) as [qty_field|]; simpl;
    try (do 2 eexists; split; [reflexivity|]; split; [now left|];
         split; [reflexivity|]; intros e0 [= <-] He; discriminate He).
  unfold Kafka.int_of, Kafka.lift.
  destruct (int_value qty_field) as [q|];
    [|destruct (py_int qty_field) as [e|q] eqn:Hpy];
    unfold mret, Kafka.M_ret, Kafka.raise; simpl;
    try (do 2 eexists; split; [reflexivity|]; split; [now left|];
         split; [reflexivity|]; intros e0 [= <-] He; right; eauto).
  all: unfold Kafka.stock_get, Kafka.stock_decrement, Kafka.get_stock,
         Kafka.put_stock, mbind, Kafka.M_bind, mret, Kafka.M_ret, Kafka.raise.
  all: destruct item_id as [ |b|z|f|name|l|d']; simpl.
  all: try (destruct (stock !! name) as [n|] eqn:Hn; simpl).
  all: repeat match goal with
         | |- context [if ?c then _ else _] => destruct c eqn:?; simpl
         end.
  all: try (rewrite Hn; simpl).
  all: first
    [ do 2 eexists; split; [reflexivity|]; split; [now left|];
      split; [reflexivity|]; intros e0 E He; try discriminate E;
      injection E as <-; discriminate He
    | do 2 eexists; split; [reflexivity|]; split;
      [right; exists name, n, q; repeat split; eauto; lia|];
      split; intros e0 E; discriminate E ].
Qed.

(** The stock after one message is the stock after the reserve logic: the
    client calls and the dead-letter path do not touch it. *)
Lemma run_stock cfg cl fr raw stock :
  (Kafka.run cfg cl fr raw stock).1.2 = (Kafka.reserve_logic fr raw stock []).1.2.
Proof.
  unfold Kafka.run, Kafka.handle_message, Kafka.try_except, Kafka.try_body,
    Kafka.to_dlq.
  unfold mbind at 1 3. unfold Kafka.M_bind at 1 3.
  destruct (reserve_logic_bound fr raw stock []) as (res & stock1 & -> & _).
  unfold mbind, Kafka.M_bind, Kafka.call.
  destruct res as [e|[order_id out]]; simpl.
  - destruct (Kafka.is_Exception e); simpl;
      repeat match goal with
        | |- context [Kafka.raises ?c ?t ?a] => destruct (Kafka.raises c t a); simpl
        end; reflexivity.
  - repeat match goal with
      | |- context [Kafka.raises ?c ?t ?a] =>
          destruct (Kafka.raises c t a); simpl
      | |- context [Kafka.is_Exception ?e] =>
          destruct (Kafka.is_Exception e); simpl
      end; reflexivity.
Qed.

Lemma run_stock_nonneg cfg cl fr raw stock :
  ledger_nonneg stock -> ledger_nonneg (Kafka.run cfg cl fr raw stock).1.2.
Proof.
  intros Hnn. rewrite run_stock.
  destruct (reserve_logic_bound fr raw stock [])
    as (res & stock1 & -> & [->|(name & n & q & Hn & Hle & -> & _)] & _);
    simpl; auto.
  intros k m. destruct (decide (k = name)) as [->|Hne].
  - rewrite lookup_insert_eq. intros [= <-]. lia.
  - rewrite lookup_insert_ne by congruence. apply Hnn.
Qed.

(** X17. The stock of the Kafka consumer never goes negative: from a stock
    whose quantities are all at least zero, the polling loop over any
    sequence of polls (empty polls, error polls, messages with any value or
    without a value, with any behaviour of the Kafka client) ends with a
    stock whose quantities are all at least zero. *)
Theorem kafka_stock_never_negative cfg polls : forall stock,
  ledger_nonneg stock ->
  ledger_nonneg (KafkaLoop.poll_loop cfg polls stock).1.2.
Proof.
  induction polls as [|p rest IH]; intros stock Hnn; simpl; auto.
  destruct p as [ | |cl fr raw| ]; auto.
  pose proof (run_stock_nonneg cfg cl fr raw stock Hnn) as Hstep.
  destruct (Kafka.run cfg cl fr raw stock) as [[[e|[]] stock1] tr]; simpl in *; auto.
  specialize (IH stock1 Hstep).
  destruct (KafkaLoop.poll_loop cfg rest stock1) as [[e2 stock2] tr2].
  exact IH.
Qed.

(** One message with a value, handled on a client on which no call
    raises. *)
Lemma run_on_healthy_client cfg cl fr raw stock :
  (forall tr a, Kafka.raises cl tr a = None) ->
  (forall e, json_loads_utf8 raw = LoadsRaised e -> Kafka.is_Exception e = true) ->
  (forall v e, py_int v = inl e -> Kafka.is_Exception e = true) ->
  exists topic key value stock1,
    Kafka.run cfg cl fr raw stock =
      (inr tt, stock1, [Kafka.Produce topic key value; Kafka.Flush; Kafka.Commit]) /\
    (topic = Kafka.INVENTORY_TOPIC cfg \/
     (topic = Kafka.DLQ_TOPIC cfg /\ key = None /\ stock1 = stock)).
Proof.
  intros Hok Hloads Hint.
  unfold Kafka.run, Kafka.handle_message, Kafka.try_except, Kafka.try_body,
    Kafka.to_dlq.
  unfold mbind at 1 3. unfold Kafka.M_bind at 1 3.
  destruct (reserve_logic_bound fr raw stock [])
    as (res & stock1 & -> & _ & Hraise & Hexit).
  unfold mbind, Kafka.M_bind, Kafka.call.
  destruct res as [e|[order_id out]]; simpl.
  - assert (He : Kafka.is_Exception e = true).
    { destruct (Kafka.is_Exception e) eqn:E; auto.
      destruct (Hexit e eq_refl E) as [Hl|(v & Hv)]; [rewrite <- E|rewrite <- E]; eauto. }
    rewrite He. repeat (rewrite Hok; simpl).
    rewrite (Hraise e eq_refl).
    eexists _, _, _, _. split; [reflexivity|]. right. auto.
  - repeat (rewrite Hok; simpl).
    eexists _, _, _, _. split; [reflexivity|]. now left.
Qed.

Section HealthyLoop.
Hypothesis loads_raises_exceptions :
  forall raw e, json_loads_utf8 raw = LoadsRaised e -> Kafka.is_Exception e = true.
Hypothesis int_raises_exceptions :
  forall v e, py_int v = inl e -> Kafka.is_Exception e = true.

(** The loop over messages that all have a value. *)
Lemma poll_loop_on_healthy_clients cfg polls : forall stock,
  Forall KafkaLoop.never_raises polls ->
  Forall (fun p => KafkaLoop.has_value p = true) polls ->
  exists handled,
    (KafkaLoop.poll_loop cfg polls stock).1.1 = None /\
    (KafkaLoop.poll_loop cfg polls stock).2 = concat handled /\
    length handled = length (List.filter KafkaLoop.is_message polls) /\
    Forall (KafkaLoop.produced_and_committed cfg) handled.
Proof.
  induction polls as [|p rest IH]; intros stock Hok Hval.
  - exists []. simpl. auto.
  - apply Forall_cons in Hok as [Hp Hok]. apply Forall_cons in Hval as [Hv Hval].
    destruct p as [ | |cl fr raw| ]; simpl in *; try discriminate Hv.
    + apply IH; assumption.
    + apply IH; assumption.
    + destruct (run_on_healthy_client cfg cl fr raw stock Hp
                  (loads_raises_exceptions raw) int_raises_exceptions)
        as (topic & key & value & stock1 & -> & Htopic).
      destruct (IH stock1 Hok Hval) as (handled & Hnone & Htr & Hlen & Hall).
      destruct (KafkaLoop.poll_loop cfg rest stock1) as [[e2 stock2] tr2].
      simpl in *.
      exists ([Kafka.Produce topic key value; Kafka.Flush; Kafka.Commit] :: handled).
      simpl. rewrite Htr, Hlen.
      repeat split; auto.
      apply Forall_cons. split; [|exact Hall].
      exists topic, key, value. split; [reflexivity|].
      destruct Htopic as [->|(-> & -> & _)]; auto.
Qed.

(** A message without a value ends the loop, whatever comes after it. *)
Lemma poll_loop_stops_without_value cfg before after : forall stock,
  Forall KafkaLoop.never_raises before ->
  Forall (fun p => KafkaLoop.has_value p = true) before ->
  KafkaLoop.poll_loop cfg (before ++ KafkaLoop.PollNoValue :: after) stock =
  (Some AttributeError, (KafkaLoop.poll_loop cfg before stock).1.2,
   (KafkaLoop.poll_loop cfg before stock).2).
Proof.
  induction before as [|p rest IH]; intros stock Hok Hval.
  - reflexivity.
  - apply Forall_cons in Hok as [Hp Hok]. apply Forall_cons in Hval as [Hv Hval].
    destruct p as [ | |cl fr raw| ]; simpl in *; try discriminate Hv.
    + apply IH; assumption.
    + apply IH; assumption.
    + destruct (run_on_healthy_client cfg cl fr raw stock Hp
                  (loads_raises_exceptions raw) int_raises_exceptions)
        as (topic & key & value & stock1 & -> & _).
      rewrite (IH stock1 Hok Hval).
      destruct (KafkaLoop.poll_loop cfg rest stock1) as [[e2 stock2] tr2].
      reflexivity.
Qed.

End HealthyLoop.

(** X18. With clients on which no call raises, every polled message that
    has a value is committed after exactly one produce and one flush: its
    handling returns, and its calls are a produce (to the inventory topic,
    or to the dead-letter topic without a key and with the stock untouched),
    a flush and a commit; so a loop over such messages runs to its end and
    commits each of them, also those that cannot be processed.  A polled
    message without a value ([msg.value()] is [None]) is not among them:
    [raw.decode] raises in the [try] block and again inside [to_dlq], the
    loop ends there with [AttributeError], nothing is produced or committed
    for that message, and the messages after it are not handled. *)
Theorem healthy_client_commits_every_message cfg :
  (forall raw e, json_loads_utf8 raw = LoadsRaised e -> Kafka.is_Exception e = true) ->
  (forall v e, py_int v = inl e -> Kafka.is_Exception e = true) ->
  (forall cl fr raw stock,
     (forall tr a, Kafka.raises cl tr a = None) ->
     exists topic key value stock1,
       Kafka.run cfg cl fr raw stock =
         (inr tt, stock1, [Kafka.Produce topic key value; Kafka.Flush; Kafka.Commit]) /\
       (topic = Kafka.INVENTORY_TOPIC cfg \/
        (topic = Kafka.DLQ_TOPIC cfg /\ key = None /\ stock1 = stock))) /\
  (forall polls stock,
     Forall KafkaLoop.never_raises polls ->
     Forall (fun p => KafkaLoop.has_value p = true) polls ->
     exists handled,
       (KafkaLoop.poll_loop cfg polls stock).1.1 = None /\
       (KafkaLoop.poll_loop cfg polls stock).2 = concat handled /\
       length handled = length (List.filter KafkaLoop.is_message polls) /\
       Forall (KafkaLoop.produced_and_committed cfg) handled) /\
  (forall before after stock,
     Forall KafkaLoop.never_raises before ->
     Forall (fun p => KafkaLoop.has_value p = true) before ->
     KafkaLoop.poll_loop cfg (before ++ KafkaLoop.PollNoValue :: after) stock =
     (Some AttributeError, (KafkaLoop.poll_loop cfg before stock).1.2,
      (KafkaLoop.poll_loop cfg before stock).2)).
Proof.
  intros Hloads Hint. split; [|split].
  - intros cl fr raw stock Hok.
    apply run_on_healthy_client; [exact Hok|apply Hloads|exact Hint].
  - intros polls stock. now apply poll_loop_on_healthy_clients.
  - intros before after stock. now apply poll_loop_stops_without_value.
Qed.

End KafkaDecisions.

Section KafkaOutcomes.
Context `{rt : Runtime}.

(** The first client call of a message: the produce of the result when the
    reserve logic returns, the produce of the dead-letter payload when it
    raises. *)
Lemma run_first_call_result cfg cl fr raw stock oid out stock1 :
  Kafka.reserve_logic fr raw stock [] = (inr (oid, out), stock1, []) ->
  exists rest,
    (Kafka.run cfg cl fr raw stock).2 =
    Kafka.Produce (Kafka.INVENTORY_TOPIC cfg) (Some oid) (json_dumps out) :: rest.
Proof.
  intros Hlogic.
  unfold Kafka.run, Kafka.handle_message, Kafka.try_except, Kafka.try_body,
    Kafka.to_dlq.
  unfold mbind at 1 3. unfold Kafka.M_bind at 1 3. rewrite Hlogic.
  unfold mbind, Kafka.M_bind, Kafka.call. simpl.
  repeat match goal with
    | |- context [Kafka.raises ?c ?t ?a] =>
        destruct (Kafka.raises c t a); simpl
    | |- context [Kafka.is_Exception ?e] =>
        destruct (Kafka.is_Exception e); simpl
    end; eexists; reflexivity.
Qed.

Lemma run_first_call_poison cfg cl fr raw stock e stock1 :
  Kafka.reserve_logic fr raw stock [] = (inl e, stock1, []) ->
  Kafka.is_Exception e = true ->
  exists rest,
    (Kafka.run cfg cl fr raw stock).2 =
    Kafka.Produce (Kafka.DLQ_TOPIC cfg) None
      (json_dumps (VDict [("event_type", VStr "PoisonOrderEvent");
                          ("event_id", VStr (Kafka.dlq_event_id fr));
                          ("error", VStr (exn_str e));
                          ("raw", VStr (utf8_replace raw));
                          ("event_time", VStr (Kafka.dlq_event_time fr))]))
    :: rest.
Proof.
  intros Hlogic He.
  unfold Kafka.run, Kafka.handle_message, Kafka.try_except, Kafka.try_body,
    Kafka.to_dlq.
  unfold mbind at 1 3. unfold Kafka.M_bind at 1 3. rewrite Hlogic.
  unfold mbind, Kafka.M_bind, Kafka.call. simpl. rewrite He.
  repeat match goal with
    | |- context [Kafka.raises ?c ?t ?a] => destruct (Kafka.raises c t a); simpl
    end; eexists; reflexivity.
Qed.

(** X19. The reserve decision of the Kafka consumer, for an OrderPlaced
    event with order_id, a string item_id and an integer qty [q].  If the
    item is in stock with at least [q], its stock becomes the old stock
    minus [q] and an InventoryReserved event keyed by the order_id is
    produced; [q] is not checked to be positive, so a [q] of zero or below
    is reserved too and a negative [q] raises the stock.  If the stock (0
    for an unknown item) is below [q], the stock is unchanged and an
    InventoryFailed event with reason "out_of_stock" is produced.  If the
    item is unknown and [q] is at most 0, the decrement raises [KeyError]:
    the message goes to the dead-letter topic and the stock is unchanged. *)
Theorem kafka_reserve_decision cfg cl fr raw stock event oid name q :
  json_loads_utf8 raw = Loaded (VDict event) ->
  KafkaLoop.order_placed event oid name q ->
  let result := Kafka.run cfg cl fr raw stock in
  (forall n, stock !! name = Some n -> q <= n ->
     result.1.2 = <[name := n - q]> stock /\
     exists rest,
       result.2 =
       Kafka.Produce (Kafka.INVENTORY_TOPIC cfg) (Some oid)
         (json_dumps (VDict [("event_type", VStr "InventoryReserved");
                             ("event_id", VStr (Kafka.event_id fr));
                             ("order_id", oid); ("item_id", VStr name);
                             ("qty", VInt q); ("status", VStr "reserved");
                             ("event_time", VStr (Kafka.event_time fr))]))
       :: rest) /\
  (default 0 (stock !! name) < q ->
     result.1.2 = stock /\
     exists rest,
       result.2 =
       Kafka.Produce (Kafka.INVENTORY_TOPIC cfg) (Some oid)
         (json_dumps (VDict [("event_type", VStr "InventoryFailed");
                             ("event_id", VStr (Kafka.event_id fr));
                             ("order_id", oid); ("item_id", VStr name);
                             ("qty", VInt q); ("status", VStr "failed");
                             ("reason", VStr "out_of_stock");
                             ("event_time", VStr (Kafka.event_time fr))]))
       :: rest) /\
  (stock !! name = None -> q <= 0 ->
     result.1.2 = stock /\
     exists rest,
       result.2 =
       Kafka.Produce (Kafka.DLQ_TOPIC cfg) None
         (json_dumps (VDict [("event_type", VStr "PoisonOrderEvent");
                             ("event_id", VStr (Kafka.dlq_event_id fr));
                             ("error", VStr (exn_str KeyError));
                             ("raw", VStr (utf8_replace raw));
                             ("event_time", VStr (Kafka.dlq_event_time fr))]))
       :: rest).
Proof.
  intros Hload Hev result. subst result.
  pose proof (reserve_logic_order_placed fr raw stock [] event oid name q
                Hload Hev) as Hlogic.
  rewrite run_stock.
  split; [|split].
  - intros n Hn Hle. rewrite Hn in Hlogic. simpl in Hlogic.
    destruct (q <=? n) eqn:E; [|lia]. rewrite Hlogic. simpl.
    split; [reflexivity|].
    apply (run_first_call_result cfg cl fr raw stock _ _ _ Hlogic).
  - intros Hlt. destruct (q <=? default 0 (stock !! name)) eqn:E; [lia|].
    rewrite Hlogic. simpl. split; [reflexivity|].
    apply (run_first_call_result cfg cl fr raw stock _ _ _ Hlogic).
  - intros Hn Hle. rewrite Hn in Hlogic. simpl in Hlogic.
    destruct (q <=? 0) eqn:E; [|lia]. rewrite Hlogic. simpl.
    split; [reflexivity|].
    apply (run_first_call_poison cfg cl fr raw stock _ _ Hlogic). reflexivity.
Qed.

(** One message on a client that never raises, for an event that can be
    served. *)
Lemma run_healthy_reserved cfg cl fr raw stock event oid name q n :
  (forall tr a, Kafka.raises cl tr a = None) ->
  json_loads_utf8 raw = Loaded (VDict event) ->
  KafkaLoop.order_placed event oid name q ->
  stock !! name = Some n -> q <= n ->
  Kafka.run cfg cl fr raw stock =
  (inr tt, <[name := n - q]> stock,
   [Kafka.Produce (Kafka.INVENTORY_TOPIC cfg) (Some oid)
      (json_dumps (Kafka.reserved_out fr oid (VStr name) q));
    Kafka.Flush; Kafka.Commit]).
Proof.
  intros Hok Hload Hev Hn Hle.
  unfold Kafka.run, Kafka.handle_message, Kafka.try_except, Kafka.try_body.
  unfold mbind at 1. unfold Kafka.M_bind at 1.
  rewrite (reserve_logic_order_placed fr raw stock [] event oid name q Hload Hev).
  rewrite Hn. simpl. destruct (q <=? n) eqn:E; [|lia].
  unfold mbind, Kafka.M_bind, Kafka.call. repeat (rewrite Hok; simpl).
  reflexivity.
Qed.

(** X20. The Kafka consumer has no duplicate suppression: when the same
    OrderPlaced message is handled twice and the stock suffices both times,
    the stock is decremented twice and two InventoryReserved events are
    produced and committed. *)
Theorem kafka_redelivery_reserves_twice
  cfg cl1 fr1 cl2 fr2 raw stock event oid name q n :
  (forall tr a, Kafka.raises cl1 tr a = None) ->
  (forall tr a, Kafka.raises cl2 tr a = None) ->
  json_loads_utf8 raw = Loaded (VDict event) ->
  KafkaLoop.order_placed event oid name q ->
  stock !! name = Some n -> q <= n -> q <= n - q ->
  KafkaLoop.poll_loop cfg
    [KafkaLoop.PollMessage cl1 fr1 raw; KafkaLoop.PollMessage cl2 fr2 raw] stock =
  (None, <[name := n - q - q]> stock,
   [Kafka.Produce (Kafka.INVENTORY_TOPIC cfg) (Some oid)
      (json_dumps (Kafka.reserved_out fr1 oid (VStr name) q));
    Kafka.Flush; Kafka.Commit;
    Kafka.Produce (Kafka.INVENTORY_TOPIC cfg) (Some oid)
      (json_dumps (Kafka.reserved_out fr2 oid (VStr name) q));
    Kafka.Flush; Kafka.Commit]).
Proof.
  intros Hok1 Hok2 Hload Hev Hn Hle1 Hle2. simpl.
  rewrite (run_healthy_reserved cfg cl1 fr1 raw stock event oid name q n
             Hok1 Hload Hev Hn Hle1).
  rewrite (run_healthy_reserved cfg cl2 fr2 raw _ event oid name q (n - q)
             Hok2 Hload Hev (lookup_insert_eq _ _ _) Hle2).
  simpl. now rewrite insert_insert_eq.
Qed.

(** X21. A produce that raises after the reservation: the stock has been
    decremented before the result is produced, and the [except] clause does
    not restore it.  When the produce of the InventoryReserved event raises
    an [Exception] and the later calls return, the message is sent to the
    dead-letter topic with the text of that exception and committed, and
    the stock stays decremented. *)
Theorem kafka_produce_failure_keeps_reservation
  cfg cl fr raw stock event oid name q n e :
  json_loads_utf8 raw = Loaded (VDict event) ->
  KafkaLoop.order_placed event oid name q ->
  stock !! name = Some n -> q <= n ->
  Kafka.is_Exception e = true ->
  let first :=
    Kafka.Produce (Kafka.INVENTORY_TOPIC cfg) (Some oid)
      (json_dumps (Kafka.reserved_out fr oid (VStr name) q)) in
  let dead :=
    Kafka.Produce (Kafka.DLQ_TOPIC cfg) None
      (json_dumps (VDict [("event_type", VStr "PoisonOrderEvent");
                          ("event_id", VStr (Kafka.dlq_event_id fr));
                          ("error", VStr (exn_str e));
                          ("raw", VStr (utf8_replace raw));
                          ("event_time", VStr (Kafka.dlq_event_time fr))])) in
  Kafka.raises cl [] first = Some e ->
  Kafka.raises cl [first] dead = None ->
  Kafka.raises cl [first; dead] Kafka.Flush = None ->
  Kafka.raises cl [first; dead; Kafka.Flush] Kafka.Commit = None ->
  Kafka.run cfg cl fr raw stock =
  (inr tt, <[name := n - q]> stock, [first; dead; Kafka.Flush; Kafka.Commit]).
Proof.
  intros Hload Hev Hn Hle He first dead H1 H2 H3 H4.
  unfold Kafka.run, Kafka.handle_message, Kafka.try_except, Kafka.try_body,
    Kafka.to_dlq.
  unfold mbind at 1 3. unfold Kafka.M_bind at 1 3.
  rewrite (reserve_logic_order_placed fr raw stock [] event oid name q Hload Hev).
  rewrite Hn. simpl. destruct (q <=? n) eqn:E; [|lia].
  unfold mbind, Kafka.M_bind, Kafka.call. fold first. rewrite H1. simpl.
  rewrite He. fold dead. rewrite H2. simpl. rewrite H3. simpl. rewrite H4.
  reflexivity.
Qed.

End KafkaOutcomes.

(** * The synchronous REST variant *)

(** X22. [InventoryStore.reserve] and [get_stock].  With [current] the
    stock of the item (0 for an item the store does not hold): a quantity of
    at most [current] succeeds, returns (True, current - quantity, current),
    and [get_stock] then gives current - quantity; a larger quantity fails,
    returns (False, current, current) and leaves the store as it was.  No
    other item is touched.  The quantity is not checked to be positive: a
    quantity of at most 0 for an unknown item succeeds and adds the item to
    the store with stock -quantity. *)
Theorem store_reserve item quantity (inv : gmap string Z) :
  let current := SyncInventory.get_stock item inv in
  let r := SyncInventory.reserve item quantity inv in
  (quantity <= current ->
   r.1 = (true, current - quantity, current) /\
   SyncInventory.get_stock item r.2 = current - quantity) /\
  (current < quantity -> r.1 = (false, current, current) /\ r.2 = inv) /\
  (forall other, other <> item -> r.2 !! other = inv !! other) /\
  (inv !! item = None -> quantity <= 0 -> r.2 !! item = Some (- quantity)).
Proof.
  intros current r. subst current r.
  unfold SyncInventory.reserve, SyncInventory.get_stock.
  destruct (quantity <=? default 0 (inv !! item)) eqn:E; simpl.
  - split; [|split; [|split]].
    + intros _. rewrite lookup_insert_eq. auto.
    + intros Hlt. lia.
    + intros other Hne. rewrite lookup_insert_ne by congruence. reflexivity.
    + intros Hnone _. rewrite lookup_insert_eq, Hnone. simpl. f_equal; lia.
  - split; [|split; [|split]].
    + intros Hle. lia.
    + auto.
    + auto.
    + intros Hnone Hle. rewrite Hnone in E. simpl in E. lia.
Qed.

Lemma reserve_endpoint_cases cfg correlation_id req (inv : gmap string Z) :
  let out := SyncInventory.reserve_endpoint cfg correlation_id req inv in
  let current := SyncInventory.get_stock (SyncInventory.item_id req) inv in
  (SyncInventory.INVENTORY_FAIL_MODE cfg = true /\
   SyncInventory.status_code out.1 = 500 /\ out.2 = inv) \/
  (SyncInventory.INVENTORY_FAIL_MODE cfg = false /\
   SyncInventory.quantity req <= current /\
   out.1 = {| SyncInventory.status_code := 200;
              SyncInventory.content :=
                SyncInventory.inventory_response true
                  (VInt (current - SyncInventory.quantity req)) VNone VNone |} /\
   out.2 = <[SyncInventory.item_id req := current - SyncInventory.quantity req]> inv) \/
  (SyncInventory.INVENTORY_FAIL_MODE cfg = false /\
   current < SyncInventory.quantity req /\
   out.1 = {| SyncInventory.status_code := 409;
              SyncInventory.content :=
                SyncInventory.inventory_response false VNone
                  (VStr "out_of_stock") (VInt current) |} /\
   out.2 = inv).
Proof.
  intros out current. subst out current.
  unfold SyncInventory.reserve_endpoint, SyncInventory.reserve,
    SyncInventory.get_stock.
  destruct (SyncInventory.INVENTORY_FAIL_MODE cfg); [left; auto|].
  destruct (SyncInventory.quantity req <=? default 0 (inv !! SyncInventory.item_id req))
    eqn:E; simpl.
  - right. left. repeat split; auto. lia.
  - right. right. repeat split; auto. lia.
Qed.

(** X23. [POST /reserve]: in forced-failure mode the answer is 500 with
    code INVENTORY_FAILURE and the store is not touched, whatever is asked.
    Otherwise the answer is 200 with the remaining stock exactly when the
    quantity is at most the stock of the item, and the stock is then reduced
    by the quantity; and it is 409 with reason "out_of_stock" and the
    available stock when the quantity exceeds the stock, the store being
    left as it was. *)
Theorem reserve_endpoint_answers cfg correlation_id req (inv : gmap string Z) :
  let out := SyncInventory.reserve_endpoint cfg correlation_id req inv in
  let current := SyncInventory.get_stock (SyncInventory.item_id req) inv in
  (SyncInventory.INVENTORY_FAIL_MODE cfg = true ->
   out.1 = {| SyncInventory.status_code := 500;
              SyncInventory.content :=
                VDict [("error",
                        VDict [("code", VStr "INVENTORY_FAILURE");
                               ("message", VStr "Forced failure mode enabled");
                               ("details", VNone);
                               ("order_id", VStr (SyncInventory.order_id req));
                               ("correlation_id", VStr correlation_id)])] |} /\
   out.2 = inv) /\
  (SyncInventory.INVENTORY_FAIL_MODE cfg = false ->
   (SyncInventory.status_code out.1 = 200 <-> SyncInventory.quantity req <= current) /\
   (SyncInventory.status_code out.1 = 409 <-> current < SyncInventory.quantity req) /\
   (SyncInventory.quantity req <= current ->
    SyncInventory.content out.1 =
      VDict [("reserved", VBool true);
             ("remaining", VInt (current - SyncInventory.quantity req));
             ("reason", VNone); ("available", VNone)] /\
    SyncInventory.get_stock (SyncInventory.item_id req) out.2 =
      current - SyncInventory.quantity req) /\
   (current < SyncInventory.quantity req ->
    SyncInventory.content out.1 =
      VDict [("reserved", VBool false); ("remaining", VNone);
             ("reason", VStr "out_of_stock"); ("available", VInt current)] /\
    out.2 = inv)).
Proof.
  intros out current. split.
  - intros Hfail. subst out. unfold SyncInventory.reserve_endpoint.
    rewrite Hfail. split; reflexivity.
  - intros Hok.
    destruct (reserve_endpoint_cases cfg correlation_id req inv)
      as [(Hf & _)|[(_ & Hle & H1 & H2)|(_ & Hlt & H1 & H2)]];
      fold out current in H1, H2 || idtac; [congruence| |].
    + fold current in Hle. rewrite H1, H2. simpl.
      repeat split; try lia; try discriminate; auto.
      unfold SyncInventory.get_stock. now rewrite lookup_insert_eq.
    + fold current in Hlt. rewrite H1, H2. simpl.
      repeat split; try lia; try discriminate; auto.
Qed.

Lemma reserve_endpoint_nonneg cfg correlation_id req (inv : gmap string Z) :
  ledger_nonneg inv ->
  ledger_nonneg (SyncInventory.reserve_endpoint cfg correlation_id req inv).2.
Proof.
  intros Hnn.
  destruct (reserve_endpoint_cases cfg correlation_id req inv)
    as [(_ & _ & ->)|[(_ & Hle & _ & ->)|(_ & _ & _ & ->)]]; auto.
  intros k n. destruct (decide (k = SyncInventory.item_id req)) as [->|Hne].
  - rewrite lookup_insert_eq. intros [= <-]. lia.
  - rewrite lookup_insert_ne by congruence. apply Hnn.
Qed.

(** X24. Over any sequence of reserve requests the store stays
    non-negative (if it starts so), and the stock of an item at the end is
    its stock at the start minus the quantities of the requests for that item
    that were answered 200: nothing else moves stock. *)
Theorem sync_stock_accounting cfg reqs : forall (inv : gmap string Z) item,
  (ledger_nonneg inv -> ledger_nonneg (SyncInventory.serve cfg reqs inv)) /\
  SyncInventory.get_stock item (SyncInventory.serve cfg reqs inv) =
  SyncInventory.get_stock item inv - SyncInventory.taken cfg item reqs inv.
Proof.
  induction reqs as [|[correlation_id req] rest IH]; intros inv item; simpl.
  - split; [auto|lia].
  - destruct (IH (SyncInventory.reserve_endpoint cfg correlation_id req inv).2 item)
      as [Hnn Hacc].
    split.
    + intros H0. apply Hnn. now apply reserve_endpoint_nonneg.
    + destruct (SyncInventory.reserve_endpoint cfg correlation_id req inv)
        as [resp inv1] eqn:Hstep.
      simpl in *. rewrite Hacc.
      destruct (reserve_endpoint_cases cfg correlation_id req inv)
        as [(_ & Hs & Hi)|[(_ & Hle & H1 & H2)|(_ & Hlt & H1 & H2)]];
        rewrite Hstep in *; simpl in *.
      * subst inv1. rewrite Hs. simpl. lia.
      * subst resp inv1. simpl.
        destruct (String.eqb (SyncInventory.item_id req) item) eqn:E.
        -- apply String.eqb_eq in E. subst item.
           unfold SyncInventory.get_stock at 1. rewrite lookup_insert_eq.
           simpl. lia.
        -- apply String.eqb_neq in E.
           unfold SyncInventory.get_stock at 1.
           rewrite lookup_insert_ne by congruence.
           unfold SyncInventory.get_stock. lia.
      * subst resp inv1. simpl. lia.
Qed.

(** ** The synchronous order endpoint *)

(** X25. [POST /order] of the synchronous variant.  The inventory is
    always called first and exactly once.  The notification is sent exactly
    when the inventory answered with a status that is not 409, is below 500
    and is accepted by [raise_for_status]; in every other case it is not
    sent.  The answer is 200 with status CONFIRMED exactly when, in
    addition, the notification answered with a status that
    [raise_for_status] accepts.  A timeout of the inventory call gives 504,
    another request error 503, an inventory status of 500 or more gives 502,
    and any failure of the notification gives 502. *)
Theorem create_order_outcomes h remote correlation_id order req :
  let out := SyncOrder.create_order h remote correlation_id order req in
  let item := SyncOrder.item_id req in
  let quantity := SyncOrder.quantity req in
  let inventory_ok :=
    match SyncOrder.reserve_inventory remote order item quantity correlation_id with
    | SyncOrder.Replied status _ =>
        negb (status =? 409) && (status <? 500)
          && negb (SyncOrder.raise_for_status h status)
    | _ => false
    end in
  let message := SyncOrder.notification_message order quantity item in
  let notification_ok :=
    match SyncOrder.send_notification remote order (SyncOrder.user_id req)
            message correlation_id with
    | SyncOrder.Replied status _ => negb (SyncOrder.raise_for_status h status)
    | _ => false
    end in
  SyncOrder.calls out =
    SyncOrder.ReserveCall order item quantity correlation_id
    :: (if inventory_ok
        then [SyncOrder.NotifyCall order (SyncOrder.user_id req) message
                correlation_id]
        else []) /\
  (SyncOrder.reply out =
     SyncOrder.Answered 200
       (VDict [("order_id", VStr order); ("status", VStr "CONFIRMED")])
   <-> inventory_ok && notification_ok = true) /\
  (inventory_ok = true -> notification_ok = false ->
   exists body, SyncOrder.reply out = SyncOrder.Answered 502 body) /\
  (forall text,
     SyncOrder.reserve_inventory remote order item quantity correlation_id
       = SyncOrder.TimeoutException text ->
     exists body, SyncOrder.reply out = SyncOrder.Answered 504 body) /\
  (forall text,
     SyncOrder.reserve_inventory remote order item quantity correlation_id
       = SyncOrder.RequestError text ->
     exists body, SyncOrder.reply out = SyncOrder.Answered 503 body) /\
  (forall status json,
     SyncOrder.reserve_inventory remote order item quantity correlation_id
       = SyncOrder.Replied status json ->
     500 <= status ->
     exists body, SyncOrder.reply out = SyncOrder.Answered 502 body).
Proof.
  intros out item quantity inventory_ok message notification_ok.
  subst out inventory_ok notification_ok item quantity message.
  unfold SyncOrder.create_order.
  destruct (SyncOrder.reserve_inventory remote order (SyncOrder.item_id req)
              (SyncOrder.quantity req) correlation_id)
    as [status json|text|text|text] eqn:Hinv.
  - destruct (status =? 409) eqn:E409; simpl.
    + destruct (SyncOrder.details_of h json); simpl;
        (split; [reflexivity|]); (split; [split; discriminate|]);
        (split; [discriminate|]); (split; [discriminate|]);
        (split; [discriminate|]);
        intros status' json' [= <- <-] Hge; lia.
    + destruct (500 <=? status) eqn:E500; simpl.
      * assert (Hlt : (status <? 500) = false) by lia. rewrite Hlt. simpl.
        (split; [reflexivity|]); (split; [split; discriminate|]);
        (split; [discriminate|]); (split; [discriminate|]);
        (split; [discriminate|]). eauto.
      * assert (Hlt : (status <? 500) = true) by lia. rewrite Hlt. simpl.
        destruct (SyncOrder.raise_for_status h status) eqn:Eraise; simpl.
        -- (split; [reflexivity|]); (split; [split; discriminate|]);
           (split; [discriminate|]); (split; [discriminate|]);
           (split; [discriminate|]).
           intros status' json' [= <- <-] Hge; lia.
        -- unfold SyncOrder.notify.
           destruct (SyncOrder.send_notification remote order _ _ correlation_id)
             as [status2 json2|text|text|text]; simpl;
             try destruct (SyncOrder.raise_for_status h status2); simpl;
             (split; [reflexivity|]);
             (split; [split; (reflexivity || discriminate)|]);
             (split; [intros _ Hn; try discriminate Hn; eauto|]);
             (split; [discriminate|]); (split; [discriminate|]);
             intros status' json' [= <- <-] Hge; lia.
  - simpl. (split; [reflexivity|]); (split; [split; discriminate|]);
      (split; [discriminate|]); (split; [eauto|]); (split; [discriminate|]).
    discriminate.
  - simpl. (split; [reflexivity|]); (split; [split; discriminate|]);
      (split; [discriminate|]); (split; [discriminate|]); (split; [eauto|]).
    discriminate.
  - simpl. (split; [reflexivity|]); (split; [split; discriminate|]);
      (split; [discriminate|]); (split; [discriminate|]);
      (split; [discriminate|]).
    discriminate.
Qed.

(** X26. The order endpoint against the inventory endpoint of this
    repository (test_happy_path, test_failure_injection), the notification
    service answering 200.  In forced-failure mode the order is answered
    502 with code INVENTORY_ERROR and the stock is untouched.  Otherwise, if
    the stock of the item covers the quantity, the order is answered 200
    CONFIRMED, the stock of the item has gone down by exactly the quantity
    and the notification sent reads "Order <id> confirmed for <quantity> x
    <item>"; if it does not, the order is answered 409 with code
    INVENTORY_OUT_OF_STOCK and the inventory's answer as details, no
    notification is sent and the stock is untouched. *)
Theorem order_against_inventory h cfg correlation_id order req (inv : gmap string Z) :
  let item := SyncOrder.item_id req in
  let quantity := SyncOrder.quantity req in
  let current := SyncInventory.get_stock item inv in
  let out :=
    SyncOrder.create_order h (SyncOrder.local_remote cfg inv) correlation_id
      order req in
  let inv' :=
    (SyncInventory.reserve_endpoint cfg correlation_id
       {| SyncInventory.order_id := order; SyncInventory.item_id := item;
          SyncInventory.quantity := quantity |} inv).2 in
  (SyncInventory.INVENTORY_FAIL_MODE cfg = true ->
   SyncOrder.reply out =
     SyncOrder.Answered 502
       (SyncInventory.error_response "INVENTORY_ERROR"
          "Inventory service returned an error" (VDict [("status", VInt 500)])
          order correlation_id) /\
   inv' = inv /\
   SyncOrder.calls out = [SyncOrder.ReserveCall order item quantity correlation_id]) /\
  (SyncInventory.INVENTORY_FAIL_MODE cfg = false -> quantity <= current ->
   SyncOrder.reply out =
     SyncOrder.Answered 200
       (VDict [("order_id", VStr order); ("status", VStr "CONFIRMED")]) /\
   SyncInventory.get_stock item inv' = current - quantity /\
   SyncOrder.calls out =
     [SyncOrder.ReserveCall order item quantity correlation_id;
      SyncOrder.NotifyCall order (SyncOrder.user_id req)
        ("Order " ++ order ++ " confirmed for " ++ pretty quantity ++ " x " ++ item)
        correlation_id]) /\
  (SyncInventory.INVENTORY_FAIL_MODE cfg = false -> current < quantity ->
   SyncOrder.reply out =
     SyncOrder.Answered 409
       (SyncInventory.error_response "INVENTORY_OUT_OF_STOCK" "Item out of stock"
          (VDict [("reserved", VBool false); ("remaining", VNone);
                  ("reason", VStr "out_of_stock"); ("available", VInt current)])
          order correlation_id) /\
   inv' = inv /\
   SyncOrder.calls out = [SyncOrder.ReserveCall order item quantity correlation_id]).
Proof.
  intros item quantity current out inv'.
  pose proof (reserve_endpoint_cases cfg correlation_id
                {| SyncInventory.order_id := order; SyncInventory.item_id := item;
                   SyncInventory.quantity := quantity |} inv) as Hcases.
  simpl in Hcases. fold current inv' in Hcases.
  subst out. unfold SyncOrder.create_order, SyncOrder.local_remote. simpl.
  fold item quantity.
  split; [|split].
  - intros Hfail.
    unfold inv'. unfold SyncInventory.reserve_endpoint. rewrite Hfail. simpl.
    repeat split.
  - intros Hok Hle.
    destruct Hcases as [(Hf & _)|[(_ & _ & H1 & H2)|(_ & Hlt & _)]];
      [congruence| |lia].
    rewrite H1. simpl. unfold SyncOrder.notify. simpl.
    fold inv'. rewrite H2. unfold SyncInventory.get_stock at 1.
    rewrite lookup_insert_eq. repeat split.
  - intros Hok Hlt.
    destruct Hcases as [(Hf & _)|[(_ & Hle & _)|(_ & _ & H1 & H2)]];
      [congruence|lia|].
    rewrite H1. simpl. fold inv'. rewrite H2. repeat split.
Qed.

(** X27. No rollback after a failed notification: when the inventory
    endpoint of this repository has reserved the stock and the notification
    call then fails (times out, cannot connect, raises, or answers with a
    status that [raise_for_status] rejects), the order is answered 502 with
    code NOTIFICATION_FAILURE, and the stock of the item stays reduced by
    the quantity. *)
Theorem notification_failure_keeps_reservation
  h cfg remote correlation_id order req (inv : gmap string Z) :
  let item := SyncOrder.item_id req in
  let quantity := SyncOrder.quantity req in
  let current := SyncInventory.get_stock item inv in
  let inv' :=
    (SyncInventory.reserve_endpoint cfg correlation_id
       {| SyncInventory.order_id := order; SyncInventory.item_id := item;
          SyncInventory.quantity := quantity |} inv).2 in
  SyncOrder.reserve_inventory remote =
    SyncOrder.reserve_inventory (SyncOrder.local_remote cfg inv) ->
  SyncInventory.INVENTORY_FAIL_MODE cfg = false ->
  quantity <= current ->
  match SyncOrder.send_notification remote order (SyncOrder.user_id req)
          (SyncOrder.notification_message order quantity item) correlation_id with
  | SyncOrder.Replied status _ => SyncOrder.raise_for_status h status = true
  | _ => True
  end ->
  let out := SyncOrder.create_order h remote correlation_id order req in
  (exists text,
     SyncOrder.reply out =
       SyncOrder.Answered 502
         (SyncInventory.error_response "NOTIFICATION_FAILURE"
            "Failed to send notification" (VDict [("error", VStr text)])
            order correlation_id)) /\
  SyncInventory.get_stock item inv' = current - quantity.
Proof.
  intros item quantity current inv' Hremote Hok Hle Hnotif out.
  pose proof (reserve_endpoint_cases cfg correlation_id
                {| SyncInventory.order_id := order; SyncInventory.item_id := item;
                   SyncInventory.quantity := quantity |} inv) as Hcases.
  simpl in Hcases. fold current inv' in Hcases.
  destruct Hcases as [(Hf & _)|[(_ & _ & H1 & H2)|(_ & Hlt & _)]];
    [congruence| |lia].
  split.
  - subst out. unfold SyncOrder.create_order. rewrite Hremote.
    unfold SyncOrder.local_remote at 1. simpl. fold item quantity.
    rewrite H1. simpl. unfold SyncOrder.notify. fold item quantity.
    destruct (SyncOrder.send_notification remote order _ _ correlation_id)
      as [status json|text|text|text]; simpl; eauto.
    rewrite Hnotif. simpl. eauto.
  - rewrite H2. unfold SyncInventory.get_stock at 1.
    now rewrite lookup_insert_eq.
Qed.

Lemma create_order_calls_carry h remote cid order req :
  forall call, In call (SyncOrder.calls (SyncOrder.create_order h remote cid order req)) ->
    match call with
    | SyncOrder.ReserveCall _ _ _ c => c = cid
    | SyncOrder.NotifyCall _ _ _ c => c = cid
    end.
Proof.
  unfold SyncOrder.create_order, SyncOrder.notify.
  destruct (SyncOrder.reserve_inventory remote order _ _ cid)
    as [status json|text|text|text]; simpl;
    try (intros call [<-|[]]; reflexivity).
  destruct (status =? 409); simpl.
  - destruct (SyncOrder.details_of h json); simpl;
      intros call [<-|[]]; reflexivity.
  - destruct (500 <=? status); simpl;
      [intros call [<-|[]]; reflexivity|].
    destruct (SyncOrder.raise_for_status h status); simpl;
      [intros call [<-|[]]; reflexivity|].
    destruct (SyncOrder.send_notification remote order _ _ cid)
      as [status2 json2|text|text|text]; simpl;
      try destruct (SyncOrder.raise_for_status h status2); simpl;
      intros call [<-|[<-|[]]]; reflexivity.
Qed.

(** X28. The correlation id: a request that carries a non-empty
    X-Correlation-Id header keeps it, any other request gets the generated
    id; that one id is passed to every downstream call of the request and,
    whenever the endpoint answers (with any status), it is the
    X-Correlation-Id header of the response.  When the endpoint raises, the
    middleware sets no header. *)
Theorem correlation_id_is_propagated h remote header generated order req :
  let cid := SyncOrder.correlation_id_of header generated in
  let handled := SyncOrder.handle_order h remote header generated order req in
  (forall status body,
     SyncOrder.reply handled.1 = SyncOrder.Answered status body ->
     handled.2 = Some cid) /\
  (forall f, SyncOrder.reply handled.1 = SyncOrder.Failed f -> handled.2 = None) /\
  (forall call, In call (SyncOrder.calls handled.1) ->
     match call with
     | SyncOrder.ReserveCall _ _ _ c => c = cid
     | SyncOrder.NotifyCall _ _ _ c => c = cid
     end) /\
  (forall value, header = Some value -> value <> EmptyString -> cid = value) /\
  (header = None \/ header = Some EmptyString -> cid = generated).
Proof.
  intros cid handled. subst handled. unfold SyncOrder.handle_order. simpl.
  fold cid.
  split; [intros status body Hr; rewrite Hr; reflexivity|].
  split; [intros f Hr; rewrite Hr; reflexivity|]. split; [|split].
  - intros call Hin.
    pose proof (create_order_calls_carry h remote cid order req) as Hall.
    now apply Hall.
  - intros value -> Hne. subst cid. simpl.
    destruct (String.eqb value EmptyString) eqn:E; auto.
    apply String.eqb_eq in E. contradiction.
  - intros [->| ->]; reflexivity.
Qed.

(** * The analytics consumer *)

Lemma histogram_total_bump (m : gmap string Z) b :
  Analytics.histogram_total (<[b := default 0 (m !! b) + 1]> m) =
  Analytics.histogram_total m + 1.
Proof.
  unfold Analytics.histogram_total.
  assert (Hcomm : forall (m' : gmap string Z) (j1 j2 : string) (z1 z2 y : Z),
            j1 <> j2 -> m' !! j1 = Some z1 -> m' !! j2 = Some z2 ->
            z1 + (z2 + y) = z2 + (z1 + y)) by (intros; lia).
  destruct (m !! b) as [n|] eqn:Hb; simpl.
  - rewrite <- (insert_delete_eq m b (n + 1)).
    rewrite map_fold_insert_L; [|apply Hcomm|apply lookup_delete_eq].
    rewrite (map_fold_delete_L _ 0 b n m); [lia|apply Hcomm|exact Hb].
  - rewrite map_fold_insert_L; [lia|apply Hcomm|exact Hb].
Qed.

Section AnalyticsLoop.
Context `{rt : Runtime} `{cal : Analytics.Calendar}.

(** What the counting part does to the variables. *)
Lemma count_effect raw st :
  let out := Analytics.count raw st in
  let gap s :=
    Analytics.total_orders s - Analytics.histogram_total (Analytics.orders_per_minute s) in
  Analytics.seen out.1 = Analytics.seen st + 1 /\
  Analytics.total_orders st <= Analytics.total_orders out.1 /\
  Analytics.reserved st <= Analytics.reserved out.1 /\
  Analytics.failed st <= Analytics.failed out.1 /\
  Analytics.total_orders out.1 + Analytics.reserved out.1 + Analytics.failed out.1
    <= Analytics.total_orders st + Analytics.reserved st + Analytics.failed st + 1 /\
  (out.2 = None -> gap out.1 = gap st) /\
  (out.2 = Some Analytics.KeyCrash \/ out.2 = Some Analytics.ValueCrash ->
   gap out.1 = gap st + 1) /\
  (gap st <= gap out.1 <= gap st + 1).
Proof.
  intros out gap. subst out gap. unfold Analytics.count.
  destruct (json_loads_utf8 raw) as [v| |e]; simpl;
    try (repeat split; intros; try lia; intuition discriminate).
  destruct v as [ |b|z|f|s|l|event]; simpl;
    try (repeat split; intros; try lia; intuition discriminate).
  destruct (py_eq _ (VStr "OrderPlaced")); simpl.
  - destruct (dict_lookup "event_time" event) as [t|]; simpl;
      [|repeat split; intros; try lia; intuition discriminate].
    unfold Analytics.minute_bucket.
    destruct t as [ |b|z|f|iso|l|d]; simpl;
      try (repeat split; intros; try lia; intuition discriminate).
    destruct (Analytics.strftime_minute _) as [bucket|]; simpl.
    + rewrite histogram_total_bump.
      repeat split; intros; try lia; intuition discriminate.
    + repeat split; intros; try lia; intuition discriminate.
  - destruct (py_eq _ (VStr "InventoryReserved")); simpl;
      [repeat split; intros; try lia; intuition discriminate|].
    destruct (py_eq _ (VStr "InventoryFailed")); simpl;
      repeat split; intros; try lia; intuition discriminate.
Qed.

Lemma step_effect flush_every raw st :
  let out := Analytics.step flush_every raw st in
  out.1.1 = (Analytics.count raw st).1 /\
  (out.1.2 = None -> (Analytics.count raw st).2 = None) /\
  (out.1.2 = Some Analytics.KeyCrash \/ out.1.2 = Some Analytics.ValueCrash ->
   out.1.2 = (Analytics.count raw st).2) /\
  (forall r, out.2 = Some r ->
     out.1.2 = None /\ r = Analytics.report_of out.1.1 /\
     flush_every <> 0 /\ (Analytics.seen out.1.1 mod flush_every = 0)).
Proof.
  intros out. subst out. unfold Analytics.step.
  destruct (Analytics.count raw st) as [st1 [c|]]; simpl.
  - repeat split; auto; discriminate.
  - destruct (flush_every =? 0) eqn:E0; simpl.
    + repeat split; auto; try discriminate. intros [H|H]; discriminate.
    + destruct (Analytics.seen st1 mod flush_every =? 0) eqn:Em; simpl.
      * repeat split; auto; try (intros [H|H]; discriminate);
          try (injection H as <-; reflexivity); try lia.
        all: intros r [= <-]; repeat split; try lia.
      * repeat split; auto; try (intros [H|H]; discriminate); discriminate.
Qed.

(** The loop from any state in which the histogram adds up to the number
    of orders. *)
Lemma run_from_invariant flush_every raws : forall st,
  Analytics.histogram_total (Analytics.orders_per_minute st)
    = Analytics.total_orders st ->
  0 <= Analytics.total_orders st -> 0 <= Analytics.reserved st ->
  0 <= Analytics.failed st ->
  let out := Analytics.run_from flush_every raws st in
  let final := out.1.1 in
  (exists checkpoints,
     out.2 = (checkpoints ++ [Analytics.report_of final])%list /\
     Forall (fun r => Analytics.histogram_total (Analytics.r_orders_per_minute r)
                      = Analytics.r_total_orders r) checkpoints) /\
  (out.1.2 = None ->
   Analytics.histogram_total (Analytics.orders_per_minute final)
     = Analytics.total_orders final) /\
  (out.1.2 = Some Analytics.KeyCrash \/ out.1.2 = Some Analytics.ValueCrash ->
   Analytics.total_orders final
     = Analytics.histogram_total (Analytics.orders_per_minute final) + 1) /\
  0 <= Analytics.total_orders final /\ 0 <= Analytics.reserved final /\
  0 <= Analytics.failed final /\
  Analytics.total_orders final + Analytics.reserved final + Analytics.failed final
    - (Analytics.total_orders st + Analytics.reserved st + Analytics.failed st)
    <= Analytics.seen final - Analytics.seen st /\
  Analytics.seen final - Analytics.seen st <= Z.of_nat (length raws).
Proof.
  induction raws as [|raw rest IH]; intros st Hinv Ht Hr Hf; simpl.
  - split; [exists []; split; [reflexivity|constructor]|].
    repeat split; auto; try lia. intros [H|H]; discriminate.
  - destruct (step_effect flush_every raw st) as (Hst & Hnone & Hcrash & Hrep).
    destruct (count_effect raw st)
      as (Hseen & Htot & Hres & Hfail & Hsum & Hgap0 & Hgap1 & Hgap).
    destruct (Analytics.step flush_every raw st) as [[st1 c] checkpoint] eqn:Hstep.
    simpl in *. rewrite <- Hst in *.
    destruct c as [c|]; simpl.
    + split; [exists []; split; [reflexivity|constructor]|].
      split; [discriminate|]. split.
      * intros Hk. specialize (Hcrash Hk). specialize (Hgap1 ltac:(rewrite <- Hcrash; exact Hk)).
        lia.
      * repeat split; try lia.
    + specialize (Hgap0 (Hnone eq_refl)).
      assert (Hinv1 : Analytics.histogram_total (Analytics.orders_per_minute st1)
                      = Analytics.total_orders st1) by lia.
      destruct (IH st1 Hinv1 ltac:(lia) ltac:(lia) ltac:(lia))
        as ((cps & Hout & Hall) & Hn & Hc & H1 & H2 & H3 & H4 & H5).
      destruct (Analytics.run_from flush_every rest st1) as [[st2 c2] reports].
      simpl in *. split.
      * destruct checkpoint as [r|].
        -- exists (r :: cps). rewrite Hout. split; [reflexivity|].
           constructor; [|exact Hall].
           destruct (Hrep r eq_refl) as (_ & -> & _). simpl. exact Hinv1.
        -- exists cps. rewrite Hout. split; [reflexivity|exact Hall].
      * repeat split; auto; try lia.
Qed.

(** X29. The report of the analytics consumer.  Started with empty counters
    and run over any sequence of message values: the [finally] clause always
    writes a last report, with the counters as they are when the loop ends;
    in every checkpoint report, and in the last report when the loop ended
    without an exception, the per-minute counts add up to total_orders.  When
    the loop is ended by an OrderPlaced event without event_time
    ([KeyError]) or with an event_time that is not an ISO timestamp
    ([ValueError]), total_orders has already been incremented and the last
    report shows one order more than the per-minute counts add up to.  The
    counters are never negative, together they never exceed [seen], and
    [seen] never exceeds the number of messages. *)
Theorem analytics_reports_add_up flush_every raws :
  let out := Analytics.run_from flush_every raws Analytics.initial_state in
  let final := out.1.1 in
  (exists checkpoints,
     out.2 = (checkpoints ++ [Analytics.report_of final])%list /\
     Forall (fun r => Analytics.histogram_total (Analytics.r_orders_per_minute r)
                      = Analytics.r_total_orders r) checkpoints) /\
  (out.1.2 = None ->
   Analytics.histogram_total (Analytics.orders_per_minute final)
     = Analytics.total_orders final) /\
  (out.1.2 = Some Analytics.KeyCrash \/ out.1.2 = Some Analytics.ValueCrash ->
   Analytics.total_orders final
     = Analytics.histogram_total (Analytics.orders_per_minute final) + 1) /\
  0 <= Analytics.total_orders final /\ 0 <= Analytics.reserved final /\
  0 <= Analytics.failed final /\
  Analytics.total_orders final + Analytics.reserved final + Analytics.failed final
    <= Analytics.seen final /\
  Analytics.seen final <= Z.of_nat (length raws).
Proof.
  intros out final.
  destruct (run_from_invariant flush_every raws Analytics.initial_state)
    as (Hrep & Hn & Hc & H1 & H2 & H3 & H4 & H5);
    try (simpl; lia).
  { unfold Analytics.histogram_total. simpl. apply map_fold_empty. }
  fold out final in Hrep, Hn, Hc, H1, H2, H3, H4, H5.
  simpl in H4, H5. repeat split; auto; lia.
Qed.

(** X30. No message is skipped over: a message whose value is not JSON,
    or is JSON but not an object, raises in the loop, which has no handler
    for it.  The loop ends there: the messages after it are never counted,
    and what the run leaves behind is what it would have left had that
    message been the last one. *)
Theorem analytics_stops_at_bad_message flush_every before raw after st :
  (forall event, json_loads_utf8 raw <> Loaded (VDict event)) ->
  (Analytics.run_from flush_every (before ++ raw :: after)%list st =
   Analytics.run_from flush_every (before ++ [raw])%list st) /\
  (Analytics.run_from flush_every (before ++ raw :: after)%list st).1.2 <> None.
Proof.
  intros Hbad.
  assert (Hcount : forall st0, exists c, (Analytics.count raw st0).2 = Some c).
  { intros st0. unfold Analytics.count.
    destruct (json_loads_utf8 raw) as [v| |e] eqn:Hl; simpl; eauto.
    destruct v; simpl; eauto. exfalso. eapply Hbad. reflexivity. }
  assert (Hstep : forall st0, exists st1 c,
            Analytics.step flush_every raw st0 = (st1, Some c, None)).
  { intros st0. unfold Analytics.step. destruct (Hcount st0) as (c & Hc).
    destruct (Analytics.count raw st0) as [st1 c']. simpl in Hc. subst c'.
    eauto. }
  revert st. induction before as [|m rest IH]; intros st; simpl.
  - destruct (Hstep st) as (st1 & c & ->). split; [reflexivity|discriminate].
  - destruct (Analytics.step flush_every m st) as [[st1 [c|]] checkpoint].
    + split; [reflexivity|discriminate].
    + destruct (IH st1) as [Heq Hne]. rewrite Heq.
      destruct (Analytics.run_from flush_every (rest ++ [raw])%list st1)
        as [[st2 c2] reports] eqn:Hrun.
      split; [reflexivity|]. simpl. rewrite Heq in Hne. exact Hne.
Qed.

End AnalyticsLoop.

(** * The further properties on concrete inputs *)

Lemma callback_raises_before_any_call_witness :
  json_loads (mini_dumps (VList [])) = Loaded (VList []) /\
  on_order_placed healthy_channel {| delivery_tag := 6 |} (mini_dumps (VList []))
    two_burgers = crash AttributeError two_burgers.
Proof.
  split; [reflexivity|].
  destruct (@callback_raises_before_any_call Fixture.runtime healthy_channel
              {| delivery_tag := 6 |} (mini_dumps (VList [])) two_burgers)
    as (_ & Hobj & _).
  apply (Hobj (VList [])); [reflexivity|discriminate].
Defined.

Lemma unknown_item_outcome_witness :
  let r := on_order_placed healthy_channel {| delivery_tag := 8 |}
             (mini_dumps (order_event "o4" "ramen" (VInt 1))) initial_state in
  run_path r = UnknownItem /\
  run_trace r =
    [BasicPublish "order_events" "inventory.failed"
       (json_dumps (VDict [("order_id", VStr "o4"); ("item", VStr "ramen");
                           ("qty", VInt 1); ("status", VStr "FAILED");
                           ("reason", VStr "Item 'ramen' not found in inventory")])) 2;
     BasicAck 8] /\
  run_state r = initial_state.
Proof.
  apply (@unknown_item_outcome Fixture.runtime healthy_channel {| delivery_tag := 8 |}
           (mini_dumps (order_event "o4" "ramen" (VInt 1))) initial_state
           [("order_id", VStr "o4"); ("item", VStr "ramen"); ("qty", VInt 1)]
           "ramen" 1);
    try reflexivity; try discriminate; lia.
Defined.

Lemma qty_check_witness :
  let r := on_order_placed healthy_channel {| delivery_tag := 5 |}
             (mini_dumps (order_event "o5" "salad" (VInt 0))) initial_state in
  run_path r = InvalidQty /\
  invalid_qty_reason (VInt 0) = "Invalid qty: 0 (must be a positive integer)".
Proof.
  destruct (@qty_check Fixture.runtime healthy_channel {| delivery_tag := 5 |}
              (mini_dumps (order_event "o5" "salad" (VInt 0))) initial_state
              [("order_id", VStr "o5"); ("item", VStr "salad"); ("qty", VInt 0)])
    as (Hiff & _ & Htext);
    try reflexivity; try discriminate.
  split.
  - apply Hiff. right. exists 0. split; [reflexivity|lia].
  - apply (Htext 0). reflexivity.
Defined.

Lemma reserved_outcome_witness :
  let r := on_order_placed healthy_channel {| delivery_tag := 1 |} o1_body
             two_burgers in
  run_trace r =
    [BasicPublish "order_events" "inventory.reserved"
       (json_dumps (VDict [("order_id", VStr "o1"); ("item", VStr "burger");
                           ("qty", VInt 2); ("status", VStr "RESERVED")])) 2;
     BasicAck 1] /\
  inventory (run_state r) !! "burger" = Some 0 /\
  processed_orders (run_state r) = [VStr "o1"].
Proof.
  destruct (@reserved_outcome Fixture.runtime healthy_channel {| delivery_tag := 1 |}
              o1_body two_burgers
              [("order_id", VStr "o1"); ("item", VStr "burger"); ("qty", VInt 2)]
              "o1" "burger" 2 2)
    as (_ & Htr & _ & _ & Hstock & Hproc & _);
    try reflexivity; try discriminate; try lia.
  repeat split; assumption.
Defined.

Lemma processed_order_id_is_always_suppressed_witness :
  let st2 := consume [delivery 3 o2_body] sold_out in
  let r := on_order_placed healthy_channel {| delivery_tag := 4 |} o1_body st2 in
  run_path r = Duplicate /\ run_trace r = [BasicAck 4] /\ run_state r = st2.
Proof.
  apply (@processed_order_id_is_always_suppressed Fixture.runtime sold_out "o1"
           [delivery 3 o2_body] healthy_channel {| delivery_tag := 4 |} o1_body
           [("order_id", VStr "o1"); ("item", VStr "burger"); ("qty", VInt 2)] 2);
    try reflexivity.
  repeat split; try reflexivity.
Defined.

Lemma ledger_shape_is_kept_witness :
  inventory two_burgers !! "burger" = Some 2 /\
  exists n',
    inventory (consume [delivery 1 o1_body; delivery 2 o1_body; delivery 3 o2_body]
                 two_burgers) !! "burger" = Some n' /\ n' <= 2.
Proof.
  split; [reflexivity|].
  destruct (@ledger_shape_is_kept Fixture.runtime
              [delivery 1 o1_body; delivery 2 o1_body; delivery 3 o2_body]
              two_burgers) as (_ & Hle & _).
  apply (Hle "burger" 2). reflexivity.
Defined.

Lemma get_connection_result_witness :
  Orders.get_connection Samples.third_time_lucky 3 = inr tt.
Proof.
  destruct (get_connection_result Samples.third_time_lucky 3)
    as [(n & Hn & _ & [[_ Hr]|(e & Hc & _)])|(Hall & _)].
  - exact Hr.
  - exfalso. destruct n as [|[|[|[|n]]]]; try lia; discriminate Hc.
  - exfalso. specialize (Hall 3%nat ltac:(lia)). discriminate Hall.
Defined.

Lemma unreachable_broker_exits_witness :
  let r := Orders.place_order
             (Orders.Json (VDict [("item", VStr "burger"); ("qty", VInt 2)]))
             sample_uuid Samples.unreachable_broker ∅ in
  Orders.run_reply r = Orders.Raised SystemExit /\
  Orders.run_published r = [] /\
  OrderStatus.stored_status sample_uuid (Orders.run_orders r) = Some (VStr "PLACED").
Proof.
  apply (@unreachable_broker_exits Fixture.runtime
           [("item", VStr "burger"); ("qty", VInt 2)] sample_uuid
           Samples.unreachable_broker ∅);
    try reflexivity; try discriminate.
Defined.

Lemma publish_failure_is_recorded_witness :
  let r := Orders.place_order
             (Orders.Json (VDict [("item", VStr "burger"); ("qty", VInt 2)]))
             sample_uuid Samples.close_fails ∅ in
  Orders.run_published r =
    [(Orders.EXCHANGE, "order.placed", json_dumps (VDict Samples.burger_order))] /\
  Orders.reply_status (Orders.run_reply r) = Some 500 /\
  OrderStatus.stored_status sample_uuid (Orders.run_orders r)
    = Some (VStr "PUBLISH_FAILED").
Proof.
  destruct (@publish_failure_is_recorded Fixture.runtime
              [("item", VStr "burger"); ("qty", VInt 2)] sample_uuid
              Samples.close_fails ∅ (BrokerError "close failed"))
    as [Hfail Hclose]; try reflexivity; try discriminate.
  destruct Hclose as [Hpub Hstatus]; try reflexivity.
  destruct Hfail as (_ & Hstored & _); [reflexivity|].
  repeat split; assumption.
Defined.

Lemma place_order_frame_witness :
  let r := Orders.place_order Orders.NotJson sample_uuid healthy_broker
             Samples.one_order in
  Orders.run_orders r = Samples.one_order /\ Orders.run_published r = [].
Proof.
  destruct (@place_order_frame Fixture.runtime Orders.NotJson sample_uuid
              healthy_broker Samples.one_order) as (_ & _ & Hrej).
  apply Hrej. intros request Hreq. discriminate Hreq.
Defined.

Lemma status_message_always_acknowledged_witness :
  let r := @OrderStatus.on_status Samples.runtime healthy_channel
             {| delivery_tag := 11 |} "{not json" Samples.one_order in
  OrderStatus.run_trace r = [BasicAck 11] /\ OrderStatus.run_exn r = None /\
  OrderStatus.run_exn
    (@OrderStatus.on_status Samples.runtime Samples.broken_ack
       {| delivery_tag := 12 |} "{not json" Samples.one_order)
  = Some (BrokerError "channel closed").
Proof.
  destruct (@status_message_always_acknowledged Samples.runtime healthy_channel
              {| delivery_tag := 11 |} "{not json" Samples.one_order)
    as (Htr & Hok & _).
  destruct (@status_message_always_acknowledged Samples.runtime Samples.broken_ack
              {| delivery_tag := 12 |} "{not json" Samples.one_order)
    as (_ & _ & Hraise).
  split; [exact Htr|]. split.
  - apply Hok; [reflexivity|]. vm_compute. discriminate.
  - apply Hraise. reflexivity.
Defined.

Lemma status_transition_witness :
  OrderStatus.stored_status sample_uuid
    (OrderStatus.run_orders
       (@OrderStatus.on_status Samples.runtime healthy_channel
          {| delivery_tag := 13 |} Samples.reserved_body Samples.one_order))
  = Some (VStr "CONFIRMED").
Proof.
  destruct (@status_transition Samples.runtime healthy_channel
              {| delivery_tag := 13 |} Samples.reserved_body Samples.one_order
              [("order_id", VStr sample_uuid); ("item", VStr "burger");
               ("qty", VInt 2); ("status", VStr "RESERVED")]
              sample_uuid Samples.burger_order)
    as (s & _ & Hstored & Hres & _);
    [reflexivity|reflexivity|reflexivity|].
  rewrite Hstored, (Hres eq_refl). reflexivity.
Defined.

Lemma status_update_frame_witness :
  Samples.one_order !! sample_uuid = Some Samples.burger_order /\
  exists order',
    OrderStatus.run_orders
      (@OrderStatus.on_status Samples.runtime healthy_channel
         {| delivery_tag := 14 |} Samples.failed_body Samples.one_order)
      !! sample_uuid = Some order' /\
    dict_lookup "qty" order' = Some (VInt 2).
Proof.
  split; [reflexivity|].
  destruct (@status_update_frame Samples.runtime healthy_channel
              {| delivery_tag := 14 |} Samples.failed_body Samples.one_order)
    as (_ & Hkeep).
  destruct (Hkeep sample_uuid Samples.burger_order eq_refl) as (order' & Hl & Hf).
  exists order'. split; [exact Hl|].
  rewrite (Hf "qty"); [reflexivity|discriminate].
Defined.

Lemma last_status_event_wins_witness :
  let after1 :=
    OrderStatus.run_orders
      (@OrderStatus.on_status Samples.runtime healthy_channel
         {| delivery_tag := 15 |} Samples.reserved_body Samples.one_order) in
  OrderStatus.stored_status sample_uuid after1 = Some (VStr "CONFIRMED") /\
  OrderStatus.stored_status sample_uuid
    (OrderStatus.run_orders
       (@OrderStatus.on_status Samples.runtime healthy_channel
          {| delivery_tag := 16 |} Samples.failed_body after1))
  = Some (VStr "FAILED").
Proof.
  destruct (@last_status_event_wins Samples.runtime
              healthy_channel {| delivery_tag := 15 |} Samples.reserved_body
              healthy_channel {| delivery_tag := 16 |} Samples.failed_body
              Samples.one_order
              [("order_id", VStr sample_uuid); ("item", VStr "burger");
               ("qty", VInt 2); ("status", VStr "RESERVED")]
              [("order_id", VStr sample_uuid); ("status", VStr "FAILED")]
              sample_uuid Samples.burger_order)
    as (_ & Hback); try reflexivity.
  apply Hback; reflexivity.
Defined.

Lemma order_ends_confirmed_or_failed_witness :
  let placed :=
    @Orders.place_order Samples.runtime
      (Orders.Json (VDict [("item", VStr "burger"); ("qty", VInt 2)]))
      sample_uuid healthy_broker ∅ in
  let final :=
    OrderStatus.run_orders
      (@OrderStatus.on_status Samples.runtime healthy_channel
         {| delivery_tag := 17 |} Samples.reserved_body (Orders.run_orders placed)) in
  OrderStatus.stored_status sample_uuid final = Some (VStr "CONFIRMED") /\
  OrderStatus.get_order sample_uuid final =
    Orders.Response
      (VDict (dict_set "status" (VStr "CONFIRMED") Samples.burger_order)) 200.
Proof.
  destruct (@order_ends_confirmed_or_failed Samples.runtime
              [("item", VStr "burger"); ("qty", VInt 2)] sample_uuid
              healthy_broker ∅ "burger" 2 two_burgers 2
              healthy_channel {| delivery_tag := 1 |}
              healthy_channel {| delivery_tag := 17 |})
    as (_ & _ & Hstored & Hget);
    try reflexivity; try discriminate; try lia.
  split; [exact Hstored|exact Hget].
Defined.

Lemma placed_order_can_be_queried_witness :
  OrderStatus.get_order sample_uuid
    (Orders.run_orders
       (Orders.place_order
          (Orders.Json (VDict [("item", VStr "burger"); ("qty", VInt 2)]))
          sample_uuid healthy_broker ∅))
  = Orders.Response
      (VDict [("order_id", VStr sample_uuid); ("item", VStr "burger");
              ("qty", VInt 2); ("student_id", VStr "unknown");
              ("status", VStr "PLACED")]) 200.
Proof.
  destruct (@placed_order_can_be_queried Fixture.runtime
              [("item", VStr "burger"); ("qty", VInt 2)] sample_uuid
              healthy_broker ∅) as (Hget & _);
    [reflexivity|discriminate|].
  exact Hget.
Defined.

Lemma initial_stock_nonneg : ledger_nonneg Kafka.initial_stock.
Proof.
  intros name n H. unfold Kafka.initial_stock in H. simpl in H.
  repeat (apply lookup_insert_Some in H as [[_ <-]|[_ H]]; [lia|]).
  rewrite lookup_empty in H. discriminate.
Qed.

Lemma fixture_never_exits :
  (forall raw e, @json_loads_utf8 Fixture.runtime raw = LoadsRaised e ->
     Kafka.is_Exception e = true) /\
  (forall v e, @py_int Fixture.runtime v = inl e -> Kafka.is_Exception e = true).
Proof.
  split.
  - intros raw e. simpl. unfold mini_loads.
    destruct (List.find _ _); discriminate.
  - intros v e. simpl. destruct v; intros [= <-]; reflexivity.
Qed.

Lemma kafka_stock_never_negative_witness :
  ledger_nonneg Kafka.initial_stock /\
  ledger_nonneg
    (KafkaLoop.poll_loop Kafka.default_config
       [KafkaLoop.PollNone;
        KafkaLoop.PollMessage healthy_client fresh kafka_body;
        KafkaLoop.PollError;
        KafkaLoop.PollMessage Samples.produce_fails_once fresh "{not json"]
       Kafka.initial_stock).1.2.
Proof.
  split; [exact initial_stock_nonneg|].
  apply (@kafka_stock_never_negative Fixture.runtime). exact initial_stock_nonneg.
Defined.

Lemma healthy_client_commits_every_message_witness :
  let ok := KafkaLoop.PollMessage healthy_client fresh kafka_body in
  let poison := KafkaLoop.PollMessage healthy_client fresh "{not json" in
  (exists handled,
     (KafkaLoop.poll_loop Kafka.default_config
        [ok; KafkaLoop.PollNone; poison] Kafka.initial_stock).2 = concat handled /\
     length handled = 2%nat) /\
  KafkaLoop.poll_loop Kafka.default_config [ok; KafkaLoop.PollNoValue; ok]
    Kafka.initial_stock =
  (Some AttributeError, <["taco" := 4997]> Kafka.initial_stock,
   (KafkaLoop.poll_loop Kafka.default_config [ok] Kafka.initial_stock).2).
Proof.
  intros ok poison.
  destruct (@healthy_client_commits_every_message Fixture.runtime
              Kafka.default_config (proj1 fixture_never_exits)
              (proj2 fixture_never_exits)) as (_ & Hloop & Hstop).
  assert (Hok : KafkaLoop.never_raises ok) by (intros tr a; reflexivity).
  assert (Hpoison : KafkaLoop.never_raises poison) by (intros tr a; reflexivity).
  split.
  - destruct (Hloop [ok; KafkaLoop.PollNone; poison] Kafka.initial_stock)
      as (handled & _ & Htr & Hlen & _).
    + repeat constructor; assumption.
    + repeat constructor.
    + exists handled. split; [exact Htr|exact Hlen].
  - refine (eq_trans (Hstop [ok] [ok] Kafka.initial_stock _ _) _).
    + repeat constructor; assumption.
    + repeat constructor.
    + vm_compute. reflexivity.
Defined.

Lemma kafka_order_placed_sample :
  KafkaLoop.order_placed
    [("event_type", VStr "OrderPlaced"); ("order_id", VStr "k1");
     ("item_id", VStr "taco"); ("qty", VInt 3)] (VStr "k1") "taco" 3.
Proof.
  repeat split. exists (VInt 3). split; reflexivity.
Qed.

Lemma kafka_reserve_decision_witness :
  (Kafka.run Kafka.default_config healthy_client fresh kafka_body
     Kafka.initial_stock).1.2 = <["taco" := 4997]> Kafka.initial_stock.
Proof.
  destruct (@kafka_reserve_decision Fixture.runtime Kafka.default_config
              healthy_client fresh kafka_body Kafka.initial_stock
              [("event_type", VStr "OrderPlaced"); ("order_id", VStr "k1");
               ("item_id", VStr "taco"); ("qty", VInt 3)] (VStr "k1") "taco" 3
              eq_refl kafka_order_placed_sample) as (Hres & _).
  destruct (Hres 5000) as [Hstock _]; [reflexivity|lia|].
  exact Hstock.
Defined.

Lemma kafka_redelivery_reserves_twice_witness :
  (KafkaLoop.poll_loop Kafka.default_config
     [KafkaLoop.PollMessage healthy_client fresh kafka_body;
      KafkaLoop.PollMessage healthy_client fresh kafka_body]
     Kafka.initial_stock).1.2 = <["taco" := 5000 - 3 - 3]> Kafka.initial_stock.
Proof.
  rewrite (@kafka_redelivery_reserves_twice Fixture.runtime Kafka.default_config
             healthy_client fresh healthy_client fresh kafka_body
             Kafka.initial_stock
             [("event_type", VStr "OrderPlaced"); ("order_id", VStr "k1");
              ("item_id", VStr "taco"); ("qty", VInt 3)] (VStr "k1") "taco" 3 5000);
    try reflexivity; try lia.
  exact kafka_order_placed_sample.
Defined.

Lemma kafka_produce_failure_keeps_reservation_witness :
  (Kafka.run Kafka.default_config Samples.produce_fails_once fresh kafka_body
     Kafka.initial_stock).1 = (inr tt, <["taco" := 5000 - 3]> Kafka.initial_stock).
Proof.
  rewrite (@kafka_produce_failure_keeps_reservation Fixture.runtime
             Kafka.default_config Samples.produce_fails_once fresh kafka_body
             Kafka.initial_stock
             [("event_type", VStr "OrderPlaced"); ("order_id", VStr "k1");
              ("item_id", VStr "taco"); ("qty", VInt 3)] (VStr "k1") "taco" 3 5000
             (BrokerError "queue full"));
    try reflexivity; try lia.
  exact kafka_order_placed_sample.
Defined.

Lemma sync_initial_inventory_nonneg : ledger_nonneg SyncInventory.initial_inventory.
Proof.
  intros name n H. unfold SyncInventory.initial_inventory in H. simpl in H.
  repeat (apply lookup_insert_Some in H as [[_ <-]|[_ H]]; [lia|]).
  rewrite lookup_empty in H. discriminate.
Qed.

Lemma store_reserve_witness :
  (SyncInventory.reserve "pizza" 2 SyncInventory.initial_inventory).1 = (true, 48, 50) /\
  (SyncInventory.reserve "ramen" (-5) SyncInventory.initial_inventory).2 !! "ramen"
    = Some 5 /\
  (SyncInventory.reserve "pizza" 51 SyncInventory.initial_inventory).2
    = SyncInventory.initial_inventory.
Proof.
  destruct (store_reserve "pizza" 2 SyncInventory.initial_inventory) as (Hok & _).
  destruct (store_reserve "ramen" (-5) SyncInventory.initial_inventory)
    as (_ & _ & _ & Hnew).
  destruct (store_reserve "pizza" 51 SyncInventory.initial_inventory)
    as (_ & Hfail & _).
  split; [|split].
  - apply Hok. vm_compute. discriminate.
  - apply Hnew; [reflexivity|lia].
  - apply Hfail. vm_compute. reflexivity.
Defined.

Lemma reserve_endpoint_answers_witness :
  (SyncInventory.reserve_endpoint Samples.failing "c-1"
     (Samples.reserve_request "ord-1" "pizza" 2) SyncInventory.initial_inventory).2
  = SyncInventory.initial_inventory /\
  SyncInventory.status_code
    (SyncInventory.reserve_endpoint Samples.working "c-1"
       (Samples.reserve_request "ord-1" "pizza" 51)
       SyncInventory.initial_inventory).1 = 409.
Proof.
  destruct (reserve_endpoint_answers Samples.failing "c-1"
              (Samples.reserve_request "ord-1" "pizza" 2)
              SyncInventory.initial_inventory) as (Hfail & _).
  destruct (reserve_endpoint_answers Samples.working "c-1"
              (Samples.reserve_request "ord-1" "pizza" 51)
              SyncInventory.initial_inventory) as (_ & Hwork).
  split.
  - apply Hfail. reflexivity.
  - destruct (Hwork eq_refl) as (_ & H409 & _). apply H409.
    vm_compute. reflexivity.
Defined.

Lemma sync_stock_accounting_witness :
  let reqs :=
    [("c-1", Samples.reserve_request "ord-1" "pizza" 2);
     ("c-2", Samples.reserve_request "ord-2" "pizza" 49);
     ("c-3", Samples.reserve_request "ord-3" "sushi" 1);
     ("c-4", Samples.reserve_request "ord-4" "pizza" 48)] in
  ledger_nonneg (SyncInventory.serve Samples.working reqs
                   SyncInventory.initial_inventory) /\
  SyncInventory.get_stock "pizza"
    (SyncInventory.serve Samples.working reqs SyncInventory.initial_inventory)
  = 50 - SyncInventory.taken Samples.working "pizza" reqs
           SyncInventory.initial_inventory.
Proof.
  intros reqs.
  destruct (sync_stock_accounting Samples.working reqs
              SyncInventory.initial_inventory "pizza") as [Hnn Hacc].
  split; [apply Hnn; exact sync_initial_inventory_nonneg|exact Hacc].
Defined.

Lemma create_order_outcomes_witness :
  let out :=
    SyncOrder.create_order Samples.libraries
      (Samples.notification_down SyncInventory.initial_inventory) "c-1" "ord-1"
      Samples.pizza_order in
  exists body, SyncOrder.reply out = SyncOrder.Answered 502 body.
Proof.
  destruct (create_order_outcomes Samples.libraries
              (Samples.notification_down SyncInventory.initial_inventory)
              "c-1" "ord-1" Samples.pizza_order) as (_ & _ & Hnotif & _).
  apply Hnotif; reflexivity.
Defined.

Lemma order_against_inventory_witness :
  let out :=
    SyncOrder.create_order Samples.libraries
      (SyncOrder.local_remote Samples.working SyncInventory.initial_inventory)
      "c-1" "ord-1" Samples.pizza_order in
  SyncOrder.reply out =
    SyncOrder.Answered 200
      (VDict [("order_id", VStr "ord-1"); ("status", VStr "CONFIRMED")]) /\
  SyncInventory.get_stock "pizza"
    (SyncInventory.reserve_endpoint Samples.working "c-1"
       (Samples.reserve_request "ord-1" "pizza" 2)
       SyncInventory.initial_inventory).2 = 48.
Proof.
  destruct (order_against_inventory Samples.libraries Samples.working "c-1" "ord-1"
              Samples.pizza_order SyncInventory.initial_inventory)
    as (_ & Hok & _).
  destruct Hok as (Hreply & Hstock & _); [reflexivity|vm_compute; discriminate|].
  split; [exact Hreply|exact Hstock].
Defined.

Lemma notification_failure_keeps_reservation_witness :
  let out :=
    SyncOrder.create_order Samples.libraries
      (Samples.notification_down SyncInventory.initial_inventory) "c-1" "ord-1"
      Samples.pizza_order in
  (exists text,
     SyncOrder.reply out =
       SyncOrder.Answered 502
         (SyncInventory.error_response "NOTIFICATION_FAILURE"
            "Failed to send notification" (VDict [("error", VStr text)])
            "ord-1" "c-1")) /\
  SyncInventory.get_stock "pizza"
    (SyncInventory.reserve_endpoint Samples.working "c-1"
       (Samples.reserve_request "ord-1" "pizza" 2)
       SyncInventory.initial_inventory).2 = 50 - 2.
Proof.
  apply (notification_failure_keeps_reservation Samples.libraries Samples.working
           (Samples.notification_down SyncInventory.initial_inventory)
           "c-1" "ord-1" Samples.pizza_order SyncInventory.initial_inventory).
  - reflexivity.
  - reflexivity.
  - vm_compute. discriminate.
  - exact I.
Defined.

Lemma correlation_id_is_propagated_witness :
  (SyncOrder.handle_order Samples.libraries
     (SyncOrder.local_remote Samples.working SyncInventory.initial_inventory)
     (Some "trace-7") "generated-1" "ord-1" Samples.pizza_order).2
  = Some "trace-7" /\
  SyncOrder.correlation_id_of (Some EmptyString) "generated-1" = "generated-1".
Proof.
  destruct (correlation_id_is_propagated Samples.libraries
              (SyncOrder.local_remote Samples.working SyncInventory.initial_inventory)
              (Some "trace-7") "generated-1" "ord-1" Samples.pizza_order)
    as (Hhdr & _ & _ & Hkeep & _).
  destruct (correlation_id_is_propagated Samples.libraries
              (SyncOrder.local_remote Samples.working SyncInventory.initial_inventory)
              (Some EmptyString) "generated-1" "ord-1" Samples.pizza_order)
    as (_ & _ & _ & _ & Hgen).
  split.
  - rewrite (Hhdr 200 (VDict [("order_id", VStr "ord-1"); ("status", VStr "CONFIRMED")]));
      [|reflexivity].
    rewrite (Hkeep "trace-7"); [reflexivity|reflexivity|discriminate].
  - apply Hgen. now right.
Defined.

Lemma analytics_reports_add_up_witness :
  let out :=
    @Analytics.run_from Samples.runtime Samples.calendar 2
      [Samples.a1_body; Samples.a2_body; Samples.a3_body; Samples.a1_body]
      Analytics.initial_state in
  out.1.2 = Some Analytics.KeyCrash /\
  Analytics.total_orders out.1.1 = 3 /\
  Analytics.histogram_total (Analytics.orders_per_minute out.1.1) = 2.
Proof.
  intros out.
  destruct (@analytics_reports_add_up Samples.runtime Samples.calendar 2
              [Samples.a1_body; Samples.a2_body; Samples.a3_body; Samples.a1_body])
    as (_ & _ & Hcrash & _).
  fold out in Hcrash.
  assert (Hk : out.1.2 = Some Analytics.KeyCrash) by (vm_compute; reflexivity).
  assert (Ht : Analytics.total_orders out.1.1 = 3) by (vm_compute; reflexivity).
  specialize (Hcrash (or_introl Hk)).
  split; [exact Hk|]. split; [exact Ht|]. lia.
Defined.

Lemma analytics_stops_at_bad_message_witness :
  @Analytics.run_from Samples.runtime Samples.calendar 2
    [Samples.a1_body; "{not json"; Samples.a2_body] Analytics.initial_state =
  @Analytics.run_from Samples.runtime Samples.calendar 2
    [Samples.a1_body; "{not json"] Analytics.initial_state.
Proof.
  apply (@analytics_stops_at_bad_message Samples.runtime Samples.calendar 2
           [Samples.a1_body] "{not json" [Samples.a2_body] Analytics.initial_state).
  intros event. vm_compute. discriminate.
Defined.

(** Two orders in the same minute and one without a timestamp. *)
Example analytics_sample_run :
  let out :=
    @Analytics.run_from Samples.runtime Samples.calendar 2
      [Samples.a1_body; Samples.a2_body] Analytics.initial_state in
  out.1.2 = None /\
  Analytics.orders_per_minute out.1.1 !! "2024-05-01T10:15Z" = Some 2 /\
  length out.2 = 2%nat.
Proof. vm_compute. repeat split. Qed.
